(** * Rendering: state tracking, light registry and mesh residency

    A shallow embedding of the parts of the Rendering library that keep
    track of device state:

    - [RenderingContext/RenderingContext.cpp]: the scoped push/set/pop
      interface, [applyChanges], the draw entry points and the light
      registry;
    - [Mesh/MeshVertexData.cpp] and [Mesh/MeshDataStrategy.cpp]: upload
      state of vertex data, bounding boxes and [SimpleMeshDataStrategy::prepare].

    Stateful code is written in a state-and-exception monad over the
    context; C++ exceptions are values of [exception], warnings (the
    [WARN] macro) are appended to a log, and commands sent to the
    graphics device are appended to a trace. *)

From Stdlib Require Import ZArith String List Bool Lia Sorted.
From Stdlib.Strings Require Import Byte.
From Stdlib Require Import SpecFloat.
From stdpp Require Import base option list gmap.

Import ListNotations.
Local Open Scope string_scope.
Local Open Scope Z_scope.

(** ** Exceptions and outcomes *)

(** Every exception thrown in the library derives from [std::exception];
    [what] is its message. *)
Inductive exception : Type :=
  | runtime_error (msg : string)
  | out_of_range (msg : string)
  | std_exception (msg : string).

Definition what (e : exception) : string :=
  match e with
  | runtime_error m | out_of_range m | std_exception m => m
  end.

Inductive Outcome (A : Type) : Type :=
  | Returns (a : A)
  | Throws (e : exception).
Arguments Returns {A} a.
Arguments Throws {A} e.

(** ** Commands and events *)

(** Commands sent to the graphics device.  [glOther] stands for the
    state-setting commands issued by collaborators whose source is not
    part of this development (pipeline state, shader, parameter cache). *)
Inductive GlCommand : Type :=
  | glFlush
  | glFinish
  | glMemoryBarrier (flags : Z)
  | glDispatchCompute (x y z : Z)
  | glDispatchComputeIndirect (offset : Z)
  | glDrawArraysInstancedBaseInstance (mode first count instances baseInstance : Z)
  | glDrawElementsInstancedBaseVertexBaseInstance
      (mode count type offset instances baseVertex baseInstance : Z)
  | glBindImageTexture (unit texture : Z)
  | glBindBuffer (target buffer : Z)
  | glBeginTransformFeedback (mode : Z)
  | glEndTransformFeedback
  | glOther (name : string) (args : list Z).

(** The observable history of a context: device commands, plus markers
    for entering and leaving [applyChanges] and for every record written
    into a parameter cache slot by [addParameter]. *)
Inductive Event : Type :=
  | EvGl (c : GlCommand)
  | EvEnterApplyChanges (forced : bool)
  | EvLeaveApplyChanges
  | EvAddParameter (slot : string) (index : Z)
  | EvSwap (slot : string).

(** A state-setting command issued by a collaborator: name and arguments. *)
Definition StateCommand : Type := (string * list Z)%type.

Definition EvState (c : StateCommand) : Event := EvGl (glOther (fst c) (snd c)).

(** What a call into a collaborator does, as far as the context can see:
    the state-setting commands it issued and whether it returned or
    threw. *)
Definition DeviceResult (A : Type) : Type := (list StateCommand * Outcome A)%type.

(** ** Values *)

(** Raw pointers ([Shader *], [FBO *], [Texture *], [BufferObject *]). *)
Definition pointer : Type := Z.
Definition nullptr : pointer := 0.

(** [Geometry::Rect_i] *)
Record Rect_i : Type := { rectX : Z; rectY : Z; rectWidth : Z; rectHeight : Z }.

(** [LightParameters] is compared through its object representation:
    the [sizeof(LightParameters)] bytes of the struct, padding included. *)
Definition LightParameters : Type := list byte.

(** [std::memcmp] on the first [n] bytes, bytes read as [unsigned char].
    Both objects have at least [n] bytes wherever the library calls it;
    the clauses for shorter lists only make the function total. *)
Fixpoint memcmp (s1 s2 : list byte) (n : nat) : Z :=
  match n with
  | O => 0
  | S n' =>
    match s1, s2 with
    | a :: s1', b :: s2' =>
      if (Byte.to_N a <? Byte.to_N b)%N then -1
      else if (Byte.to_N b <? Byte.to_N a)%N then 1
      else memcmp s1' s2' n'
    | [], [] => 0
    | [], _ :: _ => -1
    | _ :: _, [] => 1
    end
  end.

(** ** Collaborators and parameter types that live outside the sources *)

Class Env : Type := {
  (** parameter structs of [RenderingParameters.h] *)
  BlendingParameters : Type;
  ColorBufferParameters : Type;
  CullFaceParameters : Type;
  DepthBufferParameters : Type;
  ImageBindParameters : Type;
  LineParameters : Type;
  PointParameters : Type;
  PolygonModeParameters : Type;
  PolygonOffsetParameters : Type;
  ScissorParameters : Type;
  StencilParameters : Type;
  MaterialParameters : Type;
  (** their default constructors and the constants used by the
      constructor of the context *)
  default_BlendingParameters : BlendingParameters;
  default_ColorBufferParameters : ColorBufferParameters;
  CULL_BACK : CullFaceParameters;
  default_CullFaceParameters : CullFaceParameters;
  DepthBuffer_enabled_LESS : DepthBufferParameters;
  default_DepthBufferParameters : DepthBufferParameters;
  default_ImageBindParameters : ImageBindParameters;
  default_LineParameters : LineParameters;
  default_PointParameters : PointParameters;
  PointParameters_1 : PointParameters;
  default_PolygonModeParameters : PolygonModeParameters;
  default_PolygonOffsetParameters : PolygonOffsetParameters;
  default_ScissorParameters : ScissorParameters;
  default_StencilParameters : StencilParameters;
  default_MaterialParameters : MaterialParameters;
  (** the texture an [ImageBindParameters] refers to *)
  image_getTexture : ImageBindParameters -> pointer;
  (** [Geometry::Matrix4x4] and [Geometry::Vec4] *)
  Matrix4x4 : Type;
  Matrix4x4_identity : Matrix4x4;
  Matrix4x4_inverse : Matrix4x4 -> Matrix4x4;
  Matrix4x4_mul : Matrix4x4 -> Matrix4x4 -> Matrix4x4;
  Vec4 : Type;
  default_Vec4 : Vec4;
  Vec4_of_ints : Z -> Z -> Z -> Z -> Vec4;
  (** [UniformRegistry] *)
  UniformRegistry : Type;
  empty_UniformRegistry : UniformRegistry;
  (** array sizes declared in the headers *)
  MAX_TEXTURES : nat;
  MAX_BOUND_IMAGES : nat;
  sizeof_LightParameters : nat;
  (** contents of array elements the constructor leaves uninitialised *)
  indeterminate : nat -> Z;
  (** whether the driver supports [GL_ARB_shader_image_load_store] *)
  isImageBindingSupported : bool;
  (** whether the driver supports [GL_EXT_transform_feedback] *)
  isTransformFeedbackSupported : bool;
  (** [Texture::_prepareForBinding]: creates and uploads the device
      texture when needed, returns its handle; throws when the device
      cannot create it.  Its own use of texture unit 0 is a balanced
      [pushAndSetTexture]/[popTexture] pair. *)
  Texture_prepareForBinding : pointer -> DeviceResult Z;
  (** [BufferObject::bind(target)] *)
  BufferObject_bind : pointer -> Z -> DeviceResult unit;
  (** [Helper.h]: size in bytes of a GL index type *)
  getGLTypeSize : Z -> Z;
  (** [Helper.h]: [GET_GL_ERROR()] asks the device for its error flag
      and reports it as a warning; it does not throw. *)
  glGetError : list Event -> option string;
}.

(** ** Functional update of record fields *)

(** [field_update eta proj] builds [fun v r => r with proj := v] from the
    eta-expansion [eta] of the record's constructor. *)
Ltac field_update eta proj :=
  let e := eval cbv delta [eta] in eta in
  match eval pattern proj in e with
  | ?g _ =>
    let t := constr:(fun v r => g (fun _ => v) r) in
    let t' := eval cbv beta in t in
    exact t'
  end.

(** ** Data model of the rendering context *)

Section DataModel.
Context `{Env}.

(** [struct FrameData] *)
Record FrameData : Type := {
  matrix_worldToCamera : Matrix4x4;
  matrix_cameraToWorld : Matrix4x4;
  matrix_cameraToClipping : Matrix4x4;
  matrix_clippingToCamera : Matrix4x4;
  viewport : Vec4;
}.

(** [struct ObjectData] *)
Record ObjectData : Type := {
  matrix_modelToCamera : Matrix4x4;
  pointSize : PointParameters;
  materialId : Z;
  lightSetId : Z;
  drawId : Z;
}.

(** [struct LightSet]: the first [count] elements of [lights] are the
    enabled hardware ids. *)
Record LightSet : Type := {
  count : Z;
  lights : list Z;
}.

(** [struct MaterialData] *)
Record MaterialData : Type := {
  mat : MaterialParameters;
  enabled : Z;
  _pad : Z;
}.

(** [MaterialData(const MaterialParameters &)], also used implicitly by
    [activeMaterial = material]. *)
Definition MaterialData_of (m : MaterialParameters) : MaterialData :=
  {| mat := m; enabled := 1; _pad := 0 |}.

Definition TextureSet : Type := list Z.

(** [feedbackBufferStatus_t]: buffer and primitive mode *)
Definition feedbackBufferStatus_t : Type := (pointer * Z)%type.

(** Modelled from the spec: the snapshot of tracked device state
    ([PipelineState.h] is not among the sources), restricted to the
    categories the context reads and writes through getters and setters. *)
Record PipelineState : Type := {
  ps_blending : BlendingParameters;
  ps_colorBuffer : ColorBufferParameters;
  ps_cullFace : CullFaceParameters;
  ps_depthBuffer : DepthBufferParameters;
  ps_line : LineParameters;
  ps_polygonMode : PolygonModeParameters;
  ps_polygonOffset : PolygonOffsetParameters;
  ps_scissor : ScissorParameters;
  ps_stencil : StencilParameters;
  ps_fbo : pointer;
  ps_shader : pointer;
  ps_textures : list pointer;
  ps_viewport : Rect_i;
}.

Definition eta_PipelineState (p : PipelineState) : PipelineState :=
  Build_PipelineState (ps_blending p) (ps_colorBuffer p) (ps_cullFace p)
    (ps_depthBuffer p) (ps_line p) (ps_polygonMode p) (ps_polygonOffset p)
    (ps_scissor p) (ps_stencil p) (ps_fbo p) (ps_shader p) (ps_textures p)
    (ps_viewport p).

Definition setBlendingParameters := ltac:(field_update eta_PipelineState ps_blending).
Definition setColorBufferParameters := ltac:(field_update eta_PipelineState ps_colorBuffer).
Definition setCullFaceParameters := ltac:(field_update eta_PipelineState ps_cullFace).
Definition setDepthBufferParameters := ltac:(field_update eta_PipelineState ps_depthBuffer).
Definition setLineParameters := ltac:(field_update eta_PipelineState ps_line).
Definition setPolygonModeParameters := ltac:(field_update eta_PipelineState ps_polygonMode).
Definition setPolygonOffsetParameters := ltac:(field_update eta_PipelineState ps_polygonOffset).
Definition setScissorParameters := ltac:(field_update eta_PipelineState ps_scissor).
Definition setStencilParameters := ltac:(field_update eta_PipelineState ps_stencil).
Definition ps_setFBO := ltac:(field_update eta_PipelineState ps_fbo).
Definition ps_setShader := ltac:(field_update eta_PipelineState ps_shader).
Definition ps_setTextures := ltac:(field_update eta_PipelineState ps_textures).
Definition ps_setViewport := ltac:(field_update eta_PipelineState ps_viewport).

(** [PipelineState::getTexture(unit)] and [setTexture(unit, texture)] on
    the per-unit array. *)
Definition ps_getTexture (unit : nat) (p : PipelineState) : pointer :=
  default nullptr (ps_textures p !! unit).
Definition ps_setTexture (unit : nat) (t : pointer) (p : PipelineState) : PipelineState :=
  ps_setTextures (<[unit := t]> (ps_textures p)) p.

(** Modelled from the spec: a slot of the parameter cache
    ([ParameterCache.h] is not among the sources).  A slot has a fixed
    capacity, one record array per device buffer, the buffer in use and
    the cursor of the streamed append mode. *)
Record Slot (R : Type) : Type := {
  capacity : Z;
  buffers : list (gmap Z R);
  current : nat;
  cursor : Z;
}.
Arguments capacity {R} _.
Arguments buffers {R} _.
Arguments current {R} _.
Arguments cursor {R} _.

(** Modelled from the spec: [createCache(name, recordSize, capacity,
    usageHint, bufferCount)]. *)
Definition createCache {R : Type} (cap : Z) (bufferCount : nat) : Slot R :=
  {| capacity := cap; buffers := replicate bufferCount ∅; current := 0%nat; cursor := 0 |}.

(** The records of the buffer in use. *)
Definition slot_records {R : Type} (s : Slot R) : gmap Z R :=
  default ∅ (buffers s !! current s).

(** Modelled from the spec: [setParameter(name, index, record)] writes
    one record at a fixed index of the buffer in use (random access,
    overwrite); the cursor is not touched. *)
Definition slot_setParameter {R : Type} (index : Z) (r : R) (s : Slot R) : Slot R :=
  {| capacity := capacity s;
     buffers := <[current s := <[index := r]> (slot_records s)]> (buffers s);
     current := current s;
     cursor := cursor s |}.

(** Modelled from the spec: [addParameter(name, record)] writes at the
    cursor, returns the assigned index and advances the cursor; once the
    cursor has reached the capacity the record overwrites index 0. *)
Definition slot_addParameter {R : Type} (r : R) (s : Slot R) : Z * Slot R :=
  let index := if cursor s <? capacity s then cursor s else 0 in
  (index,
   {| capacity := capacity s;
      buffers := <[current s := <[index := r]> (slot_records s)]> (buffers s);
      current := current s;
      cursor := index + 1 |}).

(** Modelled from the spec: [swap(name)] advances to the next ring
    buffer and resets the cursor. *)
Definition slot_swap {R : Type} (s : Slot R) : Slot R :=
  {| capacity := capacity s;
     buffers := buffers s;
     current := (S (current s) mod length (buffers s))%nat;
     cursor := 0 |}.

(** Modelled from the spec: the parameter cache with the six slots the
    constructor of the context declares. *)
Record ParameterCache : Type := {
  slot_FrameData : Slot FrameData;
  slot_ObjectData : Slot ObjectData;
  slot_MaterialData : Slot MaterialData;
  slot_LightData : Slot LightParameters;
  slot_LightSetData : Slot LightSet;
  slot_TextureSetData : Slot TextureSet;
}.

Definition eta_ParameterCache (c : ParameterCache) : ParameterCache :=
  Build_ParameterCache (slot_FrameData c) (slot_ObjectData c) (slot_MaterialData c)
    (slot_LightData c) (slot_LightSetData c) (slot_TextureSetData c).

Definition set_slot_FrameData := ltac:(field_update eta_ParameterCache slot_FrameData).
Definition set_slot_ObjectData := ltac:(field_update eta_ParameterCache slot_ObjectData).
Definition set_slot_MaterialData := ltac:(field_update eta_ParameterCache slot_MaterialData).
Definition set_slot_LightData := ltac:(field_update eta_ParameterCache slot_LightData).
Definition set_slot_LightSetData := ltac:(field_update eta_ParameterCache slot_LightSetData).
Definition set_slot_TextureSetData := ltac:(field_update eta_ParameterCache slot_TextureSetData).

Definition PARAMETER_FRAMEDATA : string := "FrameData".
Definition PARAMETER_OBJECTDATA : string := "ObjectData".
Definition PARAMETER_MATERIALDATA : string := "MaterialData".
Definition PARAMETER_LIGHTDATA : string := "LightData".
Definition PARAMETER_LIGHTSETDATA : string := "LightSetData".
Definition PARAMETER_TEXTURESETDATA : string := "TextureSetData".

Definition MAX_FRAMEDATA : Z := 1.
Definition MAX_OBJECTDATA : Z := 512.
Definition MAX_MATERIALS : Z := 1.
Definition MAX_LIGHTS : Z := 256.
Definition MAX_LIGHTSETS : Z := 1.
Definition MAX_TEXTURESETS : Z := 1.
Definition MAX_ENABLED_LIGHTS : Z := 8.

(** [isCache(name)] *)
Definition isCache (name : string) : bool :=
  bool_decide (name ∈ [PARAMETER_FRAMEDATA; PARAMETER_OBJECTDATA; PARAMETER_MATERIALDATA;
                       PARAMETER_LIGHTDATA; PARAMETER_LIGHTSETDATA; PARAMETER_TEXTURESETDATA]).

(** [class RenderingContext::InternalData].  A [std::stack] is a list
    whose head is the top; [std::array]s are lists of the array's size;
    the [std::map] of registered lights is an association list searched
    with the map's comparator; the [std::set] of free ids is the
    ascending list of its elements. *)
Record InternalData : Type := {
  cache : ParameterCache;
  targetPipelineState : PipelineState;
  activePipelineState : PipelineState;
  blendingParameterStack : list BlendingParameters;
  colorBufferParameterStack : list ColorBufferParameters;
  cullFaceParameterStack : list CullFaceParameters;
  depthBufferParameterStack : list DepthBufferParameters;
  imageStacks : list (list ImageBindParameters);
  boundImages : list ImageBindParameters;
  lineParameterStack : list LineParameters;
  polygonModeParameterStack : list PolygonModeParameters;
  polygonOffsetParameterStack : list PolygonOffsetParameters;
  scissorParametersStack : list ScissorParameters;
  stencilParameterStack : list StencilParameters;
  fboStack : list pointer;
  shaderStack : list pointer;
  globalUniforms : UniformRegistry;
  projectionMatrixStack : list Matrix4x4;
  viewportStack : list Rect_i;
  activeFrameData : FrameData;
  matrixStack : list Matrix4x4;
  pointParameterStack : list PointParameters;
  activeObjectData : ObjectData;
  materialStack : list MaterialData;
  activeMaterial : MaterialData;
  lightRegistry : list (LightParameters * Z);
  freeLightIds : list Z;
  activeLightSet : LightSet;
  textureStacks : list (list pointer);
  enabledTextures : TextureSet;
  feedbackStack : list feedbackBufferStatus_t;
  activeFeedbackStatus : feedbackBufferStatus_t;
  windowClientArea : Rect_i;
}.

Definition eta_InternalData (d : InternalData) : InternalData :=
  Build_InternalData
    (cache d) (targetPipelineState d) (activePipelineState d)
    (blendingParameterStack d) (colorBufferParameterStack d)
    (cullFaceParameterStack d) (depthBufferParameterStack d) (imageStacks d)
    (boundImages d) (lineParameterStack d) (polygonModeParameterStack d)
    (polygonOffsetParameterStack d) (scissorParametersStack d)
    (stencilParameterStack d) (fboStack d) (shaderStack d) (globalUniforms d)
    (projectionMatrixStack d) (viewportStack d) (activeFrameData d)
    (matrixStack d) (pointParameterStack d) (activeObjectData d)
    (materialStack d) (activeMaterial d) (lightRegistry d) (freeLightIds d)
    (activeLightSet d) (textureStacks d) (enabledTextures d) (feedbackStack d)
    (activeFeedbackStatus d) (windowClientArea d).

Definition set_cache := ltac:(field_update eta_InternalData cache).
Definition set_targetPipelineState := ltac:(field_update eta_InternalData targetPipelineState).
Definition set_activePipelineState := ltac:(field_update eta_InternalData activePipelineState).
Definition set_blendingParameterStack := ltac:(field_update eta_InternalData blendingParameterStack).
Definition set_colorBufferParameterStack := ltac:(field_update eta_InternalData colorBufferParameterStack).
Definition set_cullFaceParameterStack := ltac:(field_update eta_InternalData cullFaceParameterStack).
Definition set_depthBufferParameterStack := ltac:(field_update eta_InternalData depthBufferParameterStack).
Definition set_imageStacks := ltac:(field_update eta_InternalData imageStacks).
Definition set_boundImages := ltac:(field_update eta_InternalData boundImages).
Definition set_lineParameterStack := ltac:(field_update eta_InternalData lineParameterStack).
Definition set_polygonModeParameterStack := ltac:(field_update eta_InternalData polygonModeParameterStack).
Definition set_polygonOffsetParameterStack := ltac:(field_update eta_InternalData polygonOffsetParameterStack).
Definition set_scissorParametersStack := ltac:(field_update eta_InternalData scissorParametersStack).
Definition set_stencilParameterStack := ltac:(field_update eta_InternalData stencilParameterStack).
Definition set_fboStack := ltac:(field_update eta_InternalData fboStack).
Definition set_shaderStack := ltac:(field_update eta_InternalData shaderStack).
Definition set_globalUniforms := ltac:(field_update eta_InternalData globalUniforms).
Definition set_projectionMatrixStack := ltac:(field_update eta_InternalData projectionMatrixStack).
Definition set_viewportStack := ltac:(field_update eta_InternalData viewportStack).
Definition set_activeFrameData := ltac:(field_update eta_InternalData activeFrameData).
Definition set_matrixStack := ltac:(field_update eta_InternalData matrixStack).
Definition set_pointParameterStack := ltac:(field_update eta_InternalData pointParameterStack).
Definition set_activeObjectData := ltac:(field_update eta_InternalData activeObjectData).
Definition set_materialStack := ltac:(field_update eta_InternalData materialStack).
Definition set_activeMaterial := ltac:(field_update eta_InternalData activeMaterial).
Definition set_lightRegistry := ltac:(field_update eta_InternalData lightRegistry).
Definition set_freeLightIds := ltac:(field_update eta_InternalData freeLightIds).
Definition set_activeLightSet := ltac:(field_update eta_InternalData activeLightSet).
Definition set_textureStacks := ltac:(field_update eta_InternalData textureStacks).
Definition set_enabledTextures := ltac:(field_update eta_InternalData enabledTextures).
Definition set_feedbackStack := ltac:(field_update eta_InternalData feedbackStack).
Definition set_activeFeedbackStatus := ltac:(field_update eta_InternalData activeFeedbackStatus).
Definition set_windowClientArea := ltac:(field_update eta_InternalData windowClientArea).

(** ** The state of a running program and its monad *)

(** The context data, the warnings reported so far (oldest first) and
    the history of device commands (oldest first). *)
Record State : Type := {
  internalData : InternalData;
  warnings : list string;
  history : list Event;
  (** the function-local [static] of [requestTransformFeedbackSupport]:
      whether its initialiser has run *)
  feedbackSupportRequested : bool;
}.

Definition eta_State (s : State) : State :=
  Build_State (internalData s) (warnings s) (history s) (feedbackSupportRequested s).

Definition set_internalData := ltac:(field_update eta_State internalData).
Definition set_warnings := ltac:(field_update eta_State warnings).
Definition set_history := ltac:(field_update eta_State history).
Definition set_feedbackSupportRequested := ltac:(field_update eta_State feedbackSupportRequested).

Definition M (A : Type) : Type := State -> Outcome A * State.

Definition ret {A : Type} (a : A) : M A := fun s => (Returns a, s).

Definition bind {A B : Type} (m : M A) (k : A -> M B) : M B :=
  fun s =>
    match m s with
    | (Returns a, s') => k a s'
    | (Throws e, s') => (Throws e, s')
    end.

#[export] Instance M_ret : MRet M := @ret.
#[export] Instance M_bind : MBind M := fun A B k m => bind m k.

(** [throw e] *)
Definition throw {A : Type} (e : exception) : M A := fun s => (Throws e, s).

(** [try { body } catch(const std::exception & e) { handler(e) }] *)
Definition try_catch (body : M unit) (handler : exception -> M unit) : M unit :=
  fun s =>
    match body s with
    | (Returns a, s') => (Returns a, s')
    | (Throws e, s') => handler e s'
    end.

Definition getData : M InternalData := fun s => (Returns (internalData s), s).

Definition modifyData (f : InternalData -> InternalData) : M unit :=
  fun s => (Returns tt, set_internalData (f (internalData s)) s).

(** [Util/Macros.h]: [WARN(msg)] reports a warning and goes on. *)
Definition WARN (msg : string) : M unit :=
  fun s => (Returns tt, set_warnings (warnings s ++ [msg]) s).

Definition emit (evs : list Event) : M unit :=
  fun s => (Returns tt, set_history (history s ++ evs) s).

(** A device command issued by the context itself. *)
Definition gl (c : GlCommand) : M unit := emit [EvGl c].

(** A call into a collaborator: its commands reach the device, then it
    returns or throws. *)
Definition deviceCall {A : Type} (r : DeviceResult A) : M A :=
  fun s => (snd r, set_history (history s ++ map EvState (fst r)) s).

(** [GET_GL_ERROR()] *)
Definition GET_GL_ERROR : M unit :=
  fun s =>
    match glGetError (history s) with
    | Some msg => WARN msg s
    | None => (Returns tt, s)
    end.

End DataModel.

Arguments capacity {R} _.
Arguments buffers {R} _.
Arguments current {R} _.
Arguments cursor {R} _.

(** ** Collaborators of [applyChanges] *)

(** An interface block of a shader: [{name, location, target}]. *)
Record InterfaceBlock : Type := {
  block_name : string;
  block_location : Z;
  block_target : Z;
}.

(** The nested operations of [applyChanges] whose source is not part of
    this development.  Each may issue device commands and may throw. *)
Class Collaborators `{Env} : Type := {
  Diff : Type;
  (** [activePipelineState.makeDiff(targetPipelineState, forced)] *)
  PipelineState_makeDiff : PipelineState -> PipelineState -> bool -> DeviceResult Diff;
  (** [activePipelineState.apply(diff)] *)
  PipelineState_apply : PipelineState -> Diff -> DeviceResult unit;
  (** [shader->getInterfaceBlocks()] *)
  Shader_getInterfaceBlocks : pointer -> list InterfaceBlock;
  (** [cache.bind(name, location, target, forced)] *)
  ParameterCache_bind : string -> Z -> Z -> bool -> DeviceResult unit;
  (** [shader->_getUniformRegistry()->performGlobalSync(globalUniforms, false)] *)
  Shader_performGlobalSync : pointer -> UniformRegistry -> DeviceResult unit;
  (** [shader->applyUniforms(forced)] *)
  Shader_applyUniforms : pointer -> bool -> DeviceResult unit;
}.

(** ** Operations of [RenderingContext] *)

Section Operations.
Context `{Collaborators}.

(** *** Applying changes *)

Definition cache_setFrameData (d : InternalData) : InternalData :=
  set_cache (set_slot_FrameData
    (slot_setParameter 0 (activeFrameData d) (slot_FrameData (cache d))) (cache d)) d.
Definition cache_setMaterialData (d : InternalData) : InternalData :=
  set_cache (set_slot_MaterialData
    (slot_setParameter 0 (activeMaterial d) (slot_MaterialData (cache d))) (cache d)) d.
Definition cache_setLightSetData (d : InternalData) : InternalData :=
  set_cache (set_slot_LightSetData
    (slot_setParameter 0 (activeLightSet d) (slot_LightSetData (cache d))) (cache d)) d.
Definition cache_setTextureSetData (d : InternalData) : InternalData :=
  set_cache (set_slot_TextureSetData
    (slot_setParameter 0 (enabledTextures d) (slot_TextureSetData (cache d))) (cache d)) d.

(** The loop over the interface blocks of the bound shader. *)
Fixpoint bindInterfaceBlocks (blocks : list InterfaceBlock) (forced : bool) : M unit :=
  match blocks with
  | [] => mret tt
  | block :: rest =>
    (if (0 <=? block_location block) && isCache (block_name block)
     then deviceCall (ParameterCache_bind (block_name block) (block_location block)
                        (block_target block) forced)
     else mret tt);;
    bindInterfaceBlocks rest forced
  end.

(** The body of the [try] block of [applyChanges]. *)
Definition applyChanges_try (forced : bool) : M unit :=
  d ← getData;
  diff ← deviceCall (PipelineState_makeDiff (activePipelineState d) (targetPipelineState d) forced);
  modifyData (fun d => set_activePipelineState (targetPipelineState d) d);;
  d ← getData;
  deviceCall (PipelineState_apply (activePipelineState d) diff);;
  modifyData cache_setFrameData;;
  modifyData cache_setMaterialData;;
  modifyData cache_setLightSetData;;
  modifyData cache_setTextureSetData;;
  d ← getData;
  if negb (ps_shader (activePipelineState d) =? nullptr) then
    let shader := ps_shader (activePipelineState d) in
    bindInterfaceBlocks (Shader_getInterfaceBlocks shader) forced;;
    deviceCall (Shader_performGlobalSync shader (globalUniforms d));;
    deviceCall (Shader_applyUniforms shader forced);;
    GET_GL_ERROR
  else mret tt.

Definition applyChanges (forced : bool) : M unit :=
  emit [EvEnterApplyChanges forced];;
  try_catch (applyChanges_try forced)
    (fun e => WARN ("Problem detected while setting rendering internalData: " ++ what e));;
  GET_GL_ERROR;;
  emit [EvLeaveApplyChanges].

(** *** Blending *)

Definition setBlending (p : BlendingParameters) : M unit :=
  modifyData (fun d => set_targetPipelineState (setBlendingParameters p (targetPipelineState d)) d).

Definition pushBlending : M unit :=
  modifyData (fun d =>
    set_blendingParameterStack
      (ps_blending (targetPipelineState d) :: blendingParameterStack d) d).

Definition pushAndSetBlending (p : BlendingParameters) : M unit :=
  pushBlending;; setBlending p.

Definition popBlending : M unit :=
  d ← getData;
  match blendingParameterStack d with
  | [] => WARN "popBlending: Empty Blending-Stack"
  | top :: _ =>
    setBlending top;;
    modifyData (fun d => set_blendingParameterStack (tail (blendingParameterStack d)) d)
  end.

(** *** ColorBuffer *)

Definition setColorBuffer (p : ColorBufferParameters) : M unit :=
  modifyData (fun d => set_targetPipelineState (setColorBufferParameters p (targetPipelineState d)) d).

Definition pushColorBuffer : M unit :=
  modifyData (fun d =>
    set_colorBufferParameterStack
      (ps_colorBuffer (targetPipelineState d) :: colorBufferParameterStack d) d).

Definition pushAndSetColorBuffer (p : ColorBufferParameters) : M unit :=
  pushColorBuffer;; setColorBuffer p.

Definition popColorBuffer : M unit :=
  d ← getData;
  match colorBufferParameterStack d with
  | [] => WARN "popColorBuffer: Empty ColorBuffer stack"
  | top :: _ =>
    setColorBuffer top;;
    modifyData (fun d => set_colorBufferParameterStack (tail (colorBufferParameterStack d)) d)
  end.

(** *** Cull Face *)

Definition setCullFace (p : CullFaceParameters) : M unit :=
  modifyData (fun d => set_targetPipelineState (setCullFaceParameters p (targetPipelineState d)) d).

Definition pushCullFace : M unit :=
  modifyData (fun d =>
    set_cullFaceParameterStack
      (ps_cullFace (targetPipelineState d) :: cullFaceParameterStack d) d).

Definition pushAndSetCullFace (p : CullFaceParameters) : M unit :=
  pushCullFace;; setCullFace p.

Definition popCullFace : M unit :=
  d ← getData;
  match cullFaceParameterStack d with
  | [] => WARN "popCullFace: Empty CullFace-Stack"
  | top :: _ =>
    setCullFace top;;
    modifyData (fun d => set_cullFaceParameterStack (tail (cullFaceParameterStack d)) d)
  end.

(** *** DepthBuffer *)

Definition setDepthBuffer (p : DepthBufferParameters) : M unit :=
  modifyData (fun d => set_targetPipelineState (setDepthBufferParameters p (targetPipelineState d)) d).

Definition pushDepthBuffer : M unit :=
  modifyData (fun d =>
    set_depthBufferParameterStack
      (ps_depthBuffer (targetPipelineState d) :: depthBufferParameterStack d) d).

Definition pushAndSetDepthBuffer (p : DepthBufferParameters) : M unit :=
  pushDepthBuffer;; setDepthBuffer p.

Definition popDepthBuffer : M unit :=
  d ← getData;
  match depthBufferParameterStack d with
  | [] => WARN "popDepthBuffer: Empty DepthBuffer stack"
  | top :: _ =>
    setDepthBuffer top;;
    modifyData (fun d => set_depthBufferParameterStack (tail (depthBufferParameterStack d)) d)
  end.

(** *** ImageBinding *)

Definition assertCorrectImageUnit (unit_ : nat) : M unit :=
  if (MAX_BOUND_IMAGES <=? unit_)%nat
  then throw (runtime_error "RenderingContext: Invalid image unit.")
  else mret tt.

Definition getBoundImage (unit_ : nat) : M ImageBindParameters :=
  assertCorrectImageUnit unit_;;
  d ← getData;
  mret (default default_ImageBindParameters (boundImages d !! unit_)).

Definition pushBoundImage (unit_ : nat) : M unit :=
  assertCorrectImageUnit unit_;;
  modifyData (fun d =>
    set_imageStacks
      (alter (cons (default default_ImageBindParameters (boundImages d !! unit_)))
             unit_ (imageStacks d)) d).

(** [setBoundImage], compiled with [GL_ARB_shader_image_load_store]. *)
Definition setBoundImage (unit_ : nat) (iParam : ImageBindParameters) : M unit :=
  assertCorrectImageUnit unit_;;
  modifyData (fun d => set_boundImages (<[unit_ := iParam]> (boundImages d)) d);;
  if isImageBindingSupported then
    GET_GL_ERROR;;
    let texture := image_getTexture iParam in
    if negb (texture =? nullptr) then
      GET_GL_ERROR;;
      handle ← deviceCall (Texture_prepareForBinding texture);
      gl (glBindImageTexture (Z.of_nat unit_) handle);;
      GET_GL_ERROR
    else
      gl (glBindImageTexture (Z.of_nat unit_) 0);;
      GET_GL_ERROR
  else
    WARN "RenderingContext::setBoundImage: GL_ARB_shader_image_load_store is not supported by your driver.".

Definition pushAndSetBoundImage (unit_ : nat) (iParam : ImageBindParameters) : M unit :=
  pushBoundImage unit_;; setBoundImage unit_ iParam.

Definition popBoundImage (unit_ : nat) : M unit :=
  assertCorrectImageUnit unit_;;
  d ← getData;
  match default [] (imageStacks d !! unit_) with
  | [] => WARN "popBoundImage: Empty stack"
  | top :: _ =>
    setBoundImage unit_ top;;
    modifyData (fun d => set_imageStacks (alter tail unit_ (imageStacks d)) d)
  end.

(** *** Line *)

Definition setLine (p : LineParameters) : M unit :=
  modifyData (fun d => set_targetPipelineState (setLineParameters p (targetPipelineState d)) d).

Definition pushLine : M unit :=
  modifyData (fun d =>
    set_lineParameterStack (ps_line (targetPipelineState d) :: lineParameterStack d) d).

Definition pushAndSetLine (p : LineParameters) : M unit :=
  pushLine;; setLine p.

Definition popLine : M unit :=
  d ← getData;
  match lineParameterStack d with
  | [] => WARN "popLine: Empty line parameters stack"
  | top :: _ =>
    setLine top;;
    modifyData (fun d => set_lineParameterStack (tail (lineParameterStack d)) d)
  end.

(** *** Point *)

Definition set_pointSize (p : PointParameters) (o : ObjectData) : ObjectData :=
  {| matrix_modelToCamera := matrix_modelToCamera o; pointSize := p;
     materialId := materialId o; lightSetId := lightSetId o; drawId := drawId o |}.

Definition setPointParameters (p : PointParameters) : M unit :=
  modifyData (fun d => set_activeObjectData (set_pointSize p (activeObjectData d)) d).

Definition pushPointParameters : M unit :=
  modifyData (fun d =>
    set_pointParameterStack (pointSize (activeObjectData d) :: pointParameterStack d) d).

Definition pushAndSetPointParameters (p : PointParameters) : M unit :=
  pushPointParameters;; setPointParameters p.

Definition popPointParameters : M unit :=
  d ← getData;
  match pointParameterStack d with
  | [] => WARN "popPoint: Empty point parameters stack"
  | top :: _ =>
    setPointParameters top;;
    modifyData (fun d => set_pointParameterStack (tail (pointParameterStack d)) d)
  end.

(** *** PolygonMode *)

Definition setPolygonMode (p : PolygonModeParameters) : M unit :=
  modifyData (fun d => set_targetPipelineState (setPolygonModeParameters p (targetPipelineState d)) d).

Definition pushPolygonMode : M unit :=
  modifyData (fun d =>
    set_polygonModeParameterStack
      (ps_polygonMode (targetPipelineState d) :: polygonModeParameterStack d) d).

Definition pushAndSetPolygonMode (p : PolygonModeParameters) : M unit :=
  pushPolygonMode;; setPolygonMode p.

Definition popPolygonMode : M unit :=
  d ← getData;
  match polygonModeParameterStack d with
  | [] => WARN "popPolygonMode: Empty PolygonMode-Stack"
  | top :: _ =>
    setPolygonMode top;;
    modifyData (fun d => set_polygonModeParameterStack (tail (polygonModeParameterStack d)) d)
  end.

(** *** PolygonOffset *)

Definition setPolygonOffset (p : PolygonOffsetParameters) : M unit :=
  modifyData (fun d => set_targetPipelineState (setPolygonOffsetParameters p (targetPipelineState d)) d).

Definition pushPolygonOffset : M unit :=
  modifyData (fun d =>
    set_polygonOffsetParameterStack
      (ps_polygonOffset (targetPipelineState d) :: polygonOffsetParameterStack d) d).

Definition pushAndSetPolygonOffset (p : PolygonOffsetParameters) : M unit :=
  pushPolygonOffset;; setPolygonOffset p.

Definition popPolygonOffset : M unit :=
  d ← getData;
  match polygonOffsetParameterStack d with
  | [] => WARN "popPolygonOffset: Empty PolygonOffset stack"
  | top :: _ =>
    setPolygonOffset top;;
    modifyData (fun d => set_polygonOffsetParameterStack (tail (polygonOffsetParameterStack d)) d)
  end.

(** *** Scissor *)

Definition setScissor (p : ScissorParameters) : M unit :=
  modifyData (fun d => set_targetPipelineState (setScissorParameters p (targetPipelineState d)) d).

Definition pushScissor : M unit :=
  modifyData (fun d =>
    set_scissorParametersStack
      (ps_scissor (targetPipelineState d) :: scissorParametersStack d) d).

Definition pushAndSetScissor (p : ScissorParameters) : M unit :=
  pushScissor;; setScissor p.

Definition popScissor : M unit :=
  d ← getData;
  match scissorParametersStack d with
  | [] => WARN "popScissor: Empty scissor parameters stack"
  | top :: _ =>
    setScissor top;;
    modifyData (fun d => set_scissorParametersStack (tail (scissorParametersStack d)) d)
  end.

(** *** Stencil *)

Definition setStencil (p : StencilParameters) : M unit :=
  modifyData (fun d => set_targetPipelineState (setStencilParameters p (targetPipelineState d)) d).

Definition pushStencil : M unit :=
  modifyData (fun d =>
    set_stencilParameterStack
      (ps_stencil (targetPipelineState d) :: stencilParameterStack d) d).

Definition pushAndSetStencil (p : StencilParameters) : M unit :=
  pushStencil;; setStencil p.

Definition popStencil : M unit :=
  d ← getData;
  match stencilParameterStack d with
  | [] => WARN "popStencil: Empty stencil stack"
  | top :: _ =>
    setStencil top;;
    modifyData (fun d => set_stencilParameterStack (tail (stencilParameterStack d)) d)
  end.

(** *** FBO *)

Definition getActiveFBO (d : InternalData) : pointer := ps_fbo (targetPipelineState d).

Definition setFBO (fbo : pointer) : M unit :=
  modifyData (fun d => set_targetPipelineState (ps_setFBO fbo (targetPipelineState d)) d).

Definition pushFBO : M unit :=
  modifyData (fun d => set_fboStack (getActiveFBO d :: fboStack d) d).

Definition pushAndSetFBO (fbo : pointer) : M unit :=
  pushFBO;; setFBO fbo.

Definition popFBO : M unit :=
  d ← getData;
  match fboStack d with
  | [] => WARN "popFBO: Empty FBO-Stack"
  | top :: _ =>
    setFBO top;;
    modifyData (fun d => set_fboStack (tail (fboStack d)) d)
  end.

(** *** Shader *)

Definition getActiveShader (d : InternalData) : pointer := ps_shader (targetPipelineState d).

Definition setShader (shader : pointer) : M unit :=
  modifyData (fun d => set_targetPipelineState (ps_setShader shader (targetPipelineState d)) d).

Definition pushShader : M unit :=
  modifyData (fun d => set_shaderStack (getActiveShader d :: shaderStack d) d).

Definition pushAndSetShader (shader : pointer) : M unit :=
  pushShader;; setShader shader.

(** [popShader] ends after [setShader(top)]; it has no call of
    [shaderStack.pop()]. *)
Definition popShader : M unit :=
  d ← getData;
  match shaderStack d with
  | [] => WARN "popShader: Empty Shader-Stack"
  | top :: _ => setShader top
  end.

(** *** Textures *)

Definition getTexture (unit_ : nat) (d : InternalData) : pointer :=
  if (unit_ <? MAX_TEXTURES)%nat then ps_getTexture unit_ (targetPipelineState d) else nullptr.

(** The range check of [std::array::at] on an array of [MAX_TEXTURES]
    elements. *)
Definition at_MAX_TEXTURES (unit_ : nat) : M unit :=
  if (MAX_TEXTURES <=? unit_)%nat then throw (out_of_range "array::at") else mret tt.

Definition pushTexture (unit_ : nat) : M unit :=
  at_MAX_TEXTURES unit_;;
  modifyData (fun d =>
    set_textureStacks (alter (cons (getTexture unit_ d)) unit_ (textureStacks d)) d).

Definition setTexture (unit_ : nat) (texture : pointer) : M unit :=
  d ← getData;
  let oldTexture := getTexture unit_ d in
  (if negb (texture =? oldTexture) then
     (if negb (texture =? nullptr)
      then deviceCall (Texture_prepareForBinding texture);; mret tt
      else mret tt);;
     modifyData (fun d =>
       set_targetPipelineState (ps_setTexture unit_ texture (targetPipelineState d)) d)
   else mret tt);;
  at_MAX_TEXTURES unit_;;
  modifyData (fun d =>
    set_enabledTextures
      (<[unit_ := if negb (texture =? nullptr) then 1 else 0]> (enabledTextures d)) d).


Definition popTexture (unit_ : nat) : M unit :=
  at_MAX_TEXTURES unit_;;
  d ← getData;
  match default [] (textureStacks d !! unit_) with
  | [] => WARN "popTexture: Empty Texture-Stack"
  | texture :: _ =>
    setTexture unit_ texture;;
    modifyData (fun d => set_textureStacks (alter tail unit_ (textureStacks d)) d)
  end.

(** *** Transform feedback *)

Definition GL_TRANSFORM_FEEDBACK_BUFFER_EXT : Z := 35982.

(** The initialiser of the [static const bool] runs at the first call
    only; that is when the warning is shown. *)
Definition requestTransformFeedbackSupport : M bool :=
  fun s =>
    if feedbackSupportRequested s then (Returns isTransformFeedbackSupported, s)
    else
      let s' := set_feedbackSupportRequested true s in
      if isTransformFeedbackSupported then (Returns true, s')
      else
        (Returns false,
         snd (WARN "RenderingContext: TransformFeedback is not supported! (This warning is only shown once!)" s')).

Definition _startTransformFeedback (primitiveMode : Z) : M unit :=
  applyChanges false;;
  supported ← requestTransformFeedbackSupport;
  (if (supported : bool) then
     if primitiveMode =? 0 then gl glEndTransformFeedback
     else gl (glBeginTransformFeedback primitiveMode)
   else mret tt);;
  modifyData (fun d =>
    set_activeFeedbackStatus (fst (activeFeedbackStatus d), primitiveMode) d).

Definition stopTransformFeedback : M unit := _startTransformFeedback 0.

Definition pushTransformFeedbackBufferStatus : M unit :=
  modifyData (fun d => set_feedbackStack (activeFeedbackStatus d :: feedbackStack d) d).

Definition setTransformFeedbackBuffer (buffer : pointer) : M unit :=
  applyChanges false;;
  supported ← requestTransformFeedbackSupport;
  (if (supported : bool) then
     if negb (buffer =? nullptr)
     then deviceCall (BufferObject_bind buffer GL_TRANSFORM_FEEDBACK_BUFFER_EXT)
     else gl (glBindBuffer GL_TRANSFORM_FEEDBACK_BUFFER_EXT 0)
   else mret tt);;
  modifyData (fun d =>
    set_activeFeedbackStatus (buffer, snd (activeFeedbackStatus d)) d);;
  d ← getData;
  _startTransformFeedback (snd (activeFeedbackStatus d)).

(** [popTransformFeedbackBufferStatus] has no call of
    [feedbackStack.pop()] either. *)
Definition popTransformFeedbackBufferStatus : M unit :=
  d ← getData;
  match feedbackStack d with
  | [] => WARN "popTransformFeedbackBufferStatus: The stack is empty."
  | top :: _ =>
    stopTransformFeedback;;
    modifyData (set_activeFeedbackStatus top);;
    _startTransformFeedback (snd top)
  end.

(** *** Lights *)

(** [struct LightCompare] *)
Definition LightCompare (l1 l2 : LightParameters) : bool :=
  memcmp l1 l2 sizeof_LightParameters <? 0.

(** Two keys are the same key of the [std::map] when neither is ordered
    before the other. *)
Definition equivalent (l1 l2 : LightParameters) : bool :=
  negb (LightCompare l1 l2) && negb (LightCompare l2 l1).

(** [lightRegistry.find(light)] *)
Fixpoint registry_find (light : LightParameters) (reg : list (LightParameters * Z)) : option Z :=
  match reg with
  | [] => None
  | (key, id) :: rest =>
    if equivalent key light then Some id else registry_find light rest
  end.

(** [lightRegistry.emplace(light, id)]: inserted in key order; nothing
    is inserted when an equivalent key is present. *)
Fixpoint registry_emplace (light : LightParameters) (id : Z)
    (reg : list (LightParameters * Z)) : list (LightParameters * Z) :=
  match reg with
  | [] => [(light, id)]
  | (key, v) :: rest =>
    if LightCompare light key then (light, id) :: reg
    else if LightCompare key light then (key, v) :: registry_emplace light id rest
    else reg
  end.

(** [std::set<uint8_t>::insert] / [emplace] on the ascending list *)
Fixpoint set_insert (x : Z) (l : list Z) : list Z :=
  match l with
  | [] => [x]
  | y :: rest =>
    if x <? y then x :: l
    else if x =? y then l
    else y :: set_insert x rest
  end.

(** [std::set<uint8_t>::erase(value)] *)
Fixpoint set_erase (x : Z) (l : list Z) : list Z :=
  match l with
  | [] => []
  | y :: rest => if x =? y then rest else y :: set_erase x rest
  end.

(** [std::set<uint8_t>::count(value)] *)
Definition set_count (x : Z) (l : list Z) : Z :=
  if existsb (Z.eqb x) l then 1 else 0.

Definition set_count_ (c : Z) (l : LightSet) : LightSet :=
  {| count := c; lights := lights l |}.
Definition set_lights (ls : list Z) (l : LightSet) : LightSet :=
  {| count := count l; lights := ls |}.

Definition cache_setLightData (index : Z) (light : LightParameters) (d : InternalData)
    : InternalData :=
  set_cache (set_slot_LightData
    (slot_setParameter index light (slot_LightData (cache d))) (cache d)) d.

Definition registerLight (light : LightParameters) : M Z :=
  d ← getData;
  match freeLightIds d with
  | [] =>
    WARN "Cannot register more lights; ignoring call.";;
    mret 255
  | id :: _ =>
    modifyData (fun d => set_freeLightIds (tail (freeLightIds d)) d);;
    modifyData (cache_setLightData id light);;
    mret id
  end.

Definition setLight (lightNumber : Z) (light : LightParameters) : M unit :=
  d ← getData;
  (if 0 <? set_count lightNumber (freeLightIds d)
   then modifyData (fun d => set_freeLightIds (set_erase lightNumber (freeLightIds d)) d)
   else mret tt);;
  modifyData (cache_setLightData lightNumber light).

Definition unregisterLight (lightNumber : Z) : M unit :=
  modifyData (fun d => set_freeLightIds (set_insert lightNumber (freeLightIds d)) d).

(** The search loops of [enableLight] and [disableLight]: the first
    position [pos], [pos + remaining = count], whose element is
    [lightNumber]. *)
Fixpoint lightPosition (ls : list Z) (lightNumber : Z) (pos remaining : nat) : option nat :=
  match remaining with
  | O => None
  | S remaining' =>
    if default 0 (ls !! pos) =? lightNumber then Some pos
    else lightPosition ls lightNumber (S pos) remaining'
  end.

(** [enableLight(uint8_t)] *)
Definition enableLight_id (lightNumber : Z) : M unit :=
  d ← getData;
  let set := activeLightSet d in
  match lightPosition (lights set) lightNumber 0 (Z.to_nat (count set)) with
  | Some _ => mret tt
  | None =>
    if MAX_ENABLED_LIGHTS <=? count set then
      WARN "Cannot enable more lights; ignoring call."
    else
      modifyData (fun d =>
        let set := activeLightSet d in
        set_activeLightSet
          {| count := count set + 1;
             lights := <[Z.to_nat (count set) := lightNumber]> (lights set) |} d)
  end.

(** [enableLight(const LightParameters &)] *)
Definition enableLight (light : LightParameters) : M Z :=
  d ← getData;
  id ← match registry_find light (lightRegistry d) with
       | None =>
         id ← registerLight light;
         modifyData (fun d => set_lightRegistry (registry_emplace light id (lightRegistry d)) d);;
         mret id
       | Some id => mret id
       end;
  enableLight_id id;;
  mret id.

(** [std::swap(a[i], a[j])] *)
Definition array_swap (i j : nat) (l : list Z) : list Z :=
  <[i := default 0 (l !! j)]> (<[j := default 0 (l !! i)]> l).

Definition disableLight (lightNumber : Z) : M unit :=
  d ← getData;
  let set := activeLightSet d in
  match lightPosition (lights set) lightNumber 0 (Z.to_nat (count set)) with
  | Some pos =>
    modifyData (fun d =>
      let set := activeLightSet d in
      set_activeLightSet
        {| count := count set - 1;
           lights := array_swap pos (Z.to_nat (count set - 1)) (lights set) |} d)
  | None => mret tt
  end.

(** *** Projection matrix *)

Definition set_cameraToClipping (m : Matrix4x4) (f : FrameData) : FrameData :=
  {| matrix_worldToCamera := matrix_worldToCamera f;
     matrix_cameraToWorld := matrix_cameraToWorld f;
     matrix_cameraToClipping := m;
     matrix_clippingToCamera := matrix_clippingToCamera f;
     viewport := viewport f |}.
Definition set_clippingToCamera (m : Matrix4x4) (f : FrameData) : FrameData :=
  {| matrix_worldToCamera := matrix_worldToCamera f;
     matrix_cameraToWorld := matrix_cameraToWorld f;
     matrix_cameraToClipping := matrix_cameraToClipping f;
     matrix_clippingToCamera := m;
     viewport := viewport f |}.
Definition set_frameViewport (v : Vec4) (f : FrameData) : FrameData :=
  {| matrix_worldToCamera := matrix_worldToCamera f;
     matrix_cameraToWorld := matrix_cameraToWorld f;
     matrix_cameraToClipping := matrix_cameraToClipping f;
     matrix_clippingToCamera := matrix_clippingToCamera f;
     viewport := v |}.

Definition popMatrix_cameraToClipping : M unit :=
  d ← getData;
  match projectionMatrixStack d with
  | [] => WARN "Cannot pop projection matrix. The stack is empty."
  | top :: _ =>
    modifyData (fun d => set_activeFrameData (set_cameraToClipping top (activeFrameData d)) d);;
    modifyData (fun d => set_projectionMatrixStack (tail (projectionMatrixStack d)) d)
  end.

Definition pushMatrix_cameraToClipping : M unit :=
  modifyData (fun d =>
    set_projectionMatrixStack
      (matrix_cameraToClipping (activeFrameData d) :: projectionMatrixStack d) d).

Definition setMatrix_cameraToClipping (matrix : Matrix4x4) : M unit :=
  modifyData (fun d => set_activeFrameData (set_cameraToClipping matrix (activeFrameData d)) d);;
  modifyData (fun d =>
    set_activeFrameData (set_clippingToCamera (Matrix4x4_inverse matrix) (activeFrameData d)) d).

Definition pushAndSetMatrix_cameraToClipping (matrix : Matrix4x4) : M unit :=
  pushMatrix_cameraToClipping;; setMatrix_cameraToClipping matrix.

(** *** Model view matrix *)

Definition set_modelToCamera (m : Matrix4x4) (o : ObjectData) : ObjectData :=
  {| matrix_modelToCamera := m; pointSize := pointSize o;
     materialId := materialId o; lightSetId := lightSetId o; drawId := drawId o |}.

Definition setMatrix_modelToCamera (matrix : Matrix4x4) : M unit :=
  modifyData (fun d => set_activeObjectData (set_modelToCamera matrix (activeObjectData d)) d).

Definition resetMatrix : M unit := setMatrix_modelToCamera Matrix4x4_identity.

Definition multMatrix_modelToCamera (matrix : Matrix4x4) : M unit :=
  modifyData (fun d =>
    set_activeObjectData
      (set_modelToCamera (Matrix4x4_mul (matrix_modelToCamera (activeObjectData d)) matrix)
         (activeObjectData d)) d).

Definition pushMatrix_modelToCamera : M unit :=
  modifyData (fun d =>
    set_matrixStack (matrix_modelToCamera (activeObjectData d) :: matrixStack d) d).

Definition pushAndSetMatrix_modelToCamera (matrix : Matrix4x4) : M unit :=
  pushMatrix_modelToCamera;; setMatrix_modelToCamera matrix.

Definition popMatrix_modelToCamera : M unit :=
  d ← getData;
  match matrixStack d with
  | [] => WARN "Cannot pop matrix. The stack is empty."
  | top :: _ =>
    modifyData (fun d => set_activeObjectData (set_modelToCamera top (activeObjectData d)) d);;
    modifyData (fun d => set_matrixStack (tail (matrixStack d)) d)
  end.

(** *** Material *)

Definition getMaterial (d : InternalData) : MaterialParameters := mat (activeMaterial d).

Definition set_enabled (e : Z) (m : MaterialData) : MaterialData :=
  {| mat := mat m; enabled := e; _pad := _pad m |}.

(** [popMaterial] removes the top first and then looks at what is left:
    with nothing left only the [enabled] flag of the active material is
    cleared, otherwise the new top becomes the active material. *)
Definition popMaterial : M unit :=
  d ← getData;
  match materialStack d with
  | [] => WARN "RenderingContext.popMaterial: stack empty, ignoring call"
  | _ :: _ =>
    modifyData (fun d => set_materialStack (tail (materialStack d)) d);;
    d ← getData;
    match materialStack d with
    | [] => modifyData (fun d => set_activeMaterial (set_enabled 0 (activeMaterial d)) d)
    | top :: _ => modifyData (set_activeMaterial top)
    end
  end.

Definition pushMaterial : M unit :=
  modifyData (fun d => set_materialStack (activeMaterial d :: materialStack d) d).

Definition setMaterial (material : MaterialParameters) : M unit :=
  modifyData (set_activeMaterial (MaterialData_of material)).

Definition pushAndSetMaterial (material : MaterialParameters) : M unit :=
  pushMaterial;; setMaterial material.

(** *** Viewport *)

Definition getViewport (d : InternalData) : Rect_i := ps_viewport (targetPipelineState d).

Definition setViewport (vp : Rect_i) : M unit :=
  modifyData (fun d => set_targetPipelineState (ps_setViewport vp (targetPipelineState d)) d);;
  modifyData (fun d =>
    set_activeFrameData
      (set_frameViewport (Vec4_of_ints (rectX vp) (rectY vp) (rectWidth vp) (rectHeight vp))
         (activeFrameData d)) d).

Definition pushViewport : M unit :=
  modifyData (fun d => set_viewportStack (getViewport d :: viewportStack d) d).

Definition popViewport : M unit :=
  d ← getData;
  match viewportStack d with
  | [] => WARN "Cannot pop viewport stack because it is empty. Ignoring call."
  | top :: _ =>
    setViewport top;;
    modifyData (fun d => set_viewportStack (tail (viewportStack d)) d)
  end.

Definition pushAndSetViewport (vp : Rect_i) : M unit :=
  pushViewport;; setViewport vp.

(** *** Flush, finish, barrier, compute *)

Definition flush : M unit := applyChanges false;; gl glFlush.

Definition finish : M unit := applyChanges false;; gl glFinish.

Definition GL_ALL_BARRIER_BITS : Z := 4294967295.

Definition barrier (flags : Z) : M unit :=
  applyChanges false;;
  gl (glMemoryBarrier (if flags =? 0 then GL_ALL_BARRIER_BITS else flags)).

(** [dispatchCompute], compiled with [LIB_GL] and [GL_ARB_compute_shader]. *)
Definition dispatchCompute (numGroupsX numGroupsY numGroupsZ : Z) : M unit :=
  d ← getData;
  if getActiveShader d =? nullptr then
    WARN "dispatchCompute: There is no active compute shader."
  else
    applyChanges false;;
    gl (glDispatchCompute numGroupsX numGroupsY numGroupsZ);;
    GET_GL_ERROR.

Definition dispatchComputeIndirect (offset : Z) : M unit :=
  d ← getData;
  if getActiveShader d =? nullptr then
    WARN "glDispatchComputeIndirect: There is no active compute shader."
  else
    applyChanges false;;
    gl (glDispatchComputeIndirect offset);;
    GET_GL_ERROR.

(** *** Draw commands *)

(** [cache.addParameter(PARAMETER_OBJECTDATA, activeObjectData)] *)
Definition cache_addObjectData : M Z :=
  d ← getData;
  let r := slot_addParameter (activeObjectData d) (slot_ObjectData (cache d)) in
  modifyData (fun d => set_cache (set_slot_ObjectData (snd r) (cache d)) d);;
  emit [EvAddParameter PARAMETER_OBJECTDATA (fst r)];;
  mret (fst r).

(** [cache.swap(PARAMETER_OBJECTDATA)] *)
Definition cache_swapObjectData : M unit :=
  modifyData (fun d =>
    set_cache (set_slot_ObjectData (slot_swap (slot_ObjectData (cache d))) (cache d)) d);;
  emit [EvSwap PARAMETER_OBJECTDATA].

Definition drawArrays (mode first count_ : Z) : M unit :=
  applyChanges false;;
  drawId ← cache_addObjectData;
  gl (glDrawArraysInstancedBaseInstance mode first count_ 1 drawId);;
  if MAX_OBJECTDATA - 1 <=? drawId then cache_swapObjectData else mret tt.

Definition drawElements (mode type first count_ : Z) : M unit :=
  applyChanges false;;
  drawId ← cache_addObjectData;
  gl (glDrawElementsInstancedBaseVertexBaseInstance mode count_ type
        (first * getGLTypeSize type) 1 0 drawId);;
  if MAX_OBJECTDATA - 1 <=? drawId then cache_swapObjectData else mret tt.

(** *** Construction *)

(** A default-constructed [PipelineState]. *)
Definition PipelineState_default : PipelineState :=
  {| ps_blending := default_BlendingParameters;
     ps_colorBuffer := default_ColorBufferParameters;
     ps_cullFace := default_CullFaceParameters;
     ps_depthBuffer := default_DepthBufferParameters;
     ps_line := default_LineParameters;
     ps_polygonMode := default_PolygonModeParameters;
     ps_polygonOffset := default_PolygonOffsetParameters;
     ps_scissor := default_ScissorParameters;
     ps_stencil := default_StencilParameters;
     ps_fbo := nullptr;
     ps_shader := nullptr;
     ps_textures := replicate MAX_TEXTURES nullptr;
     ps_viewport := {| rectX := 0; rectY := 0; rectWidth := 0; rectHeight := 0 |} |}.

(** [new InternalData], with the six slots the constructor creates. *)
Definition InternalData_new : InternalData :=
  {| cache :=
       {| slot_FrameData := createCache MAX_FRAMEDATA 1;
          slot_ObjectData := createCache MAX_OBJECTDATA 2;
          slot_MaterialData := createCache MAX_MATERIALS 1;
          slot_LightData := createCache MAX_LIGHTS 1;
          slot_LightSetData := createCache MAX_LIGHTSETS 1;
          slot_TextureSetData := createCache MAX_TEXTURESETS 1 |};
     targetPipelineState := PipelineState_default;
     activePipelineState := PipelineState_default;
     blendingParameterStack := [];
     colorBufferParameterStack := [];
     cullFaceParameterStack := [];
     depthBufferParameterStack := [];
     imageStacks := replicate MAX_BOUND_IMAGES [];
     boundImages := replicate MAX_BOUND_IMAGES default_ImageBindParameters;
     lineParameterStack := [];
     polygonModeParameterStack := [];
     polygonOffsetParameterStack := [];
     scissorParametersStack := [];
     stencilParameterStack := [];
     fboStack := [];
     shaderStack := [];
     globalUniforms := empty_UniformRegistry;
     projectionMatrixStack := [];
     viewportStack := [];
     activeFrameData :=
       {| matrix_worldToCamera := Matrix4x4_identity;
          matrix_cameraToWorld := Matrix4x4_identity;
          matrix_cameraToClipping := Matrix4x4_identity;
          matrix_clippingToCamera := Matrix4x4_identity;
          viewport := default_Vec4 |};
     matrixStack := [];
     pointParameterStack := [];
     activeObjectData :=
       {| matrix_modelToCamera := Matrix4x4_identity; pointSize := PointParameters_1;
          materialId := 0; lightSetId := 0; drawId := 0 |};
     materialStack := [];
     activeMaterial := {| mat := default_MaterialParameters; enabled := 1; _pad := 0 |};
     lightRegistry := [];
     freeLightIds := [];
     activeLightSet :=
       {| count := 0; lights := map indeterminate (seq 0 (Z.to_nat MAX_ENABLED_LIGHTS)) |};
     textureStacks := replicate MAX_TEXTURES [];
     enabledTextures := map indeterminate (seq (Z.to_nat MAX_ENABLED_LIGHTS) MAX_TEXTURES);
     feedbackStack := [];
     activeFeedbackStatus := (nullptr, 0);
     windowClientArea := {| rectX := 0; rectY := 0; rectWidth := 0; rectHeight := 0 |} |}.

(** The loop of the constructor that fills the pool of free light ids:
    [remaining] more iterations starting at [i]. *)
Fixpoint insertFreeLightIds (i : Z) (remaining : nat) (d : InternalData) : InternalData :=
  match remaining with
  | O => d
  | S remaining' =>
    insertFreeLightIds (i + 1) remaining'
      (set_freeLightIds (set_insert i (freeLightIds d)) d)
  end.

(** [RenderingContext::RenderingContext()] *)
Definition RenderingContext_ctor : M unit :=
  setBlending default_BlendingParameters;;
  setColorBuffer default_ColorBufferParameters;;
  setCullFace CULL_BACK;;
  setDepthBuffer DepthBuffer_enabled_LESS;;
  setLine default_LineParameters;;
  setPointParameters default_PointParameters;;
  setPolygonOffset default_PolygonOffsetParameters;;
  setStencil default_StencilParameters;;
  modifyData (insertFreeLightIds 0 255).

(** The state right after construction of a context. *)
Definition initialState : State :=
  snd (RenderingContext_ctor
         {| internalData := InternalData_new; warnings := []; history := [];
            feedbackSupportRequested := false |}).

(** *** The state categories with a save/restore stack *)

Inductive Category : Type :=
  | Blending | ColorBuffer | CullFace | DepthBuffer
  | BoundImage (unit_ : nat)
  | Line | Point | PolygonMode | PolygonOffset | Scissor | Stencil
  | FBO | Shader
  | Texture (unit_ : nat)
  | TransformFeedback
  | ProjectionMatrix | ModelMatrix
  | Material
  | Viewport.

(** The type of the target value of a category, which is also the type
    of the elements of its stack. *)
Definition valueT (C : Category) : Type :=
  match C with
  | Blending => BlendingParameters
  | ColorBuffer => ColorBufferParameters
  | CullFace => CullFaceParameters
  | DepthBuffer => DepthBufferParameters
  | BoundImage _ => ImageBindParameters
  | Line => LineParameters
  | Point => PointParameters
  | PolygonMode => PolygonModeParameters
  | PolygonOffset => PolygonOffsetParameters
  | Scissor => ScissorParameters
  | Stencil => StencilParameters
  | FBO | Shader | Texture _ => pointer
  | TransformFeedback => feedbackBufferStatus_t
  | ProjectionMatrix | ModelMatrix => Matrix4x4
  | Material => MaterialData
  | Viewport => Rect_i
  end.

(** The type of the argument of the setter of a category. *)
Definition argT (C : Category) : Type :=
  match C with
  | TransformFeedback => pointer
  | Material => MaterialParameters
  | _ => valueT C
  end.

Definition push (C : Category) : M unit :=
  match C with
  | Blending => pushBlending
  | ColorBuffer => pushColorBuffer
  | CullFace => pushCullFace
  | DepthBuffer => pushDepthBuffer
  | BoundImage u => pushBoundImage u
  | Line => pushLine
  | Point => pushPointParameters
  | PolygonMode => pushPolygonMode
  | PolygonOffset => pushPolygonOffset
  | Scissor => pushScissor
  | Stencil => pushStencil
  | FBO => pushFBO
  | Shader => pushShader
  | Texture u => pushTexture u
  | TransformFeedback => pushTransformFeedbackBufferStatus
  | ProjectionMatrix => pushMatrix_cameraToClipping
  | ModelMatrix => pushMatrix_modelToCamera
  | Material => pushMaterial
  | Viewport => pushViewport
  end.

Definition set (C : Category) : argT C -> M unit :=
  match C return argT C -> M unit with
  | Blending => setBlending
  | ColorBuffer => setColorBuffer
  | CullFace => setCullFace
  | DepthBuffer => setDepthBuffer
  | BoundImage u => setBoundImage u
  | Line => setLine
  | Point => setPointParameters
  | PolygonMode => setPolygonMode
  | PolygonOffset => setPolygonOffset
  | Scissor => setScissor
  | Stencil => setStencil
  | FBO => setFBO
  | Shader => setShader
  | Texture u => setTexture u
  | TransformFeedback => setTransformFeedbackBuffer
  | ProjectionMatrix => setMatrix_cameraToClipping
  | ModelMatrix => setMatrix_modelToCamera
  | Material => setMaterial
  | Viewport => setViewport
  end.

Definition pop (C : Category) : M unit :=
  match C with
  | Blending => popBlending
  | ColorBuffer => popColorBuffer
  | CullFace => popCullFace
  | DepthBuffer => popDepthBuffer
  | BoundImage u => popBoundImage u
  | Line => popLine
  | Point => popPointParameters
  | PolygonMode => popPolygonMode
  | PolygonOffset => popPolygonOffset
  | Scissor => popScissor
  | Stencil => popStencil
  | FBO => popFBO
  | Shader => popShader
  | Texture u => popTexture u
  | TransformFeedback => popTransformFeedbackBufferStatus
  | ProjectionMatrix => popMatrix_cameraToClipping
  | ModelMatrix => popMatrix_modelToCamera
  | Material => popMaterial
  | Viewport => popViewport
  end.

(** The target value of a category, as its getter reads it; a per-unit
    category has one only for the units of its array. *)
Definition target (C : Category) (d : InternalData) : option (valueT C) :=
  match C return option (valueT C) with
  | Blending => Some (ps_blending (targetPipelineState d))
  | ColorBuffer => Some (ps_colorBuffer (targetPipelineState d))
  | CullFace => Some (ps_cullFace (targetPipelineState d))
  | DepthBuffer => Some (ps_depthBuffer (targetPipelineState d))
  | BoundImage u => if (u <? MAX_BOUND_IMAGES)%nat then boundImages d !! u else None
  | Line => Some (ps_line (targetPipelineState d))
  | Point => Some (pointSize (activeObjectData d))
  | PolygonMode => Some (ps_polygonMode (targetPipelineState d))
  | PolygonOffset => Some (ps_polygonOffset (targetPipelineState d))
  | Scissor => Some (ps_scissor (targetPipelineState d))
  | Stencil => Some (ps_stencil (targetPipelineState d))
  | FBO => Some (getActiveFBO d)
  | Shader => Some (getActiveShader d)
  | Texture u => if (u <? MAX_TEXTURES)%nat then ps_textures (targetPipelineState d) !! u else None
  | TransformFeedback => Some (activeFeedbackStatus d)
  | ProjectionMatrix => Some (matrix_cameraToClipping (activeFrameData d))
  | ModelMatrix => Some (matrix_modelToCamera (activeObjectData d))
  | Material => Some (activeMaterial d)
  | Viewport => Some (getViewport d)
  end.

(** The stack of a category; a per-unit category has one only for the
    units of its array. *)
Definition stack (C : Category) (d : InternalData) : option (list (valueT C)) :=
  match C return option (list (valueT C)) with
  | Blending => Some (blendingParameterStack d)
  | ColorBuffer => Some (colorBufferParameterStack d)
  | CullFace => Some (cullFaceParameterStack d)
  | DepthBuffer => Some (depthBufferParameterStack d)
  | BoundImage u => if (u <? MAX_BOUND_IMAGES)%nat then imageStacks d !! u else None
  | Line => Some (lineParameterStack d)
  | Point => Some (pointParameterStack d)
  | PolygonMode => Some (polygonModeParameterStack d)
  | PolygonOffset => Some (polygonOffsetParameterStack d)
  | Scissor => Some (scissorParametersStack d)
  | Stencil => Some (stencilParameterStack d)
  | FBO => Some (fboStack d)
  | Shader => Some (shaderStack d)
  | Texture u => if (u <? MAX_TEXTURES)%nat then textureStacks d !! u else None
  | TransformFeedback => Some (feedbackStack d)
  | ProjectionMatrix => Some (projectionMatrixStack d)
  | ModelMatrix => Some (matrixStack d)
  | Material => Some (materialStack d)
  | Viewport => Some (viewportStack d)
  end.

(** The target value [set C v] asks for. *)
Definition value_of (C : Category) : argT C -> InternalData -> valueT C :=
  match C return argT C -> InternalData -> valueT C with
  | Blending => fun v _ => v
  | ColorBuffer => fun v _ => v
  | CullFace => fun v _ => v
  | DepthBuffer => fun v _ => v
  | BoundImage _ => fun v _ => v
  | Line => fun v _ => v
  | Point => fun v _ => v
  | PolygonMode => fun v _ => v
  | PolygonOffset => fun v _ => v
  | Scissor => fun v _ => v
  | Stencil => fun v _ => v
  | FBO => fun v _ => v
  | Shader => fun v _ => v
  | Texture _ => fun v _ => v
  | TransformFeedback => fun buffer d => (buffer, snd (activeFeedbackStatus d))
  | ProjectionMatrix => fun v _ => v
  | ModelMatrix => fun v _ => v
  | Material => fun m _ => MaterialData_of m
  | Viewport => fun v _ => v
  end.

End Operations.

(** ** Mesh vertex data *)

(** [float]: IEEE 754 binary32 values, compared with the comparison of
    the standard library's specification of floating-point numbers. *)
Definition float : Type := spec_float.

(** [std::numeric_limits<float>::max()] and [lowest()] *)
Definition FLT_MAX : float := S754_finite false 16777215 104.
Definition FLT_LOWEST : float := S754_finite true 16777215 104.
(** [0.0f] *)
Definition float_zero : float := S754_zero false.

(** The value of the four bytes of a [float] in memory (little endian). *)
Definition float_of_bits (bits : Z) : float :=
  let sign := 0 <? bits / 2147483648 in
  let e := (bits / 8388608) mod 256 in
  let m := bits mod 8388608 in
  if e =? 0 then
    match m with
    | Zpos p => S754_finite sign p (-149)
    | _ => S754_zero sign
    end
  else if e =? 255 then
    if m =? 0 then S754_infinity sign else S754_nan
  else
    match m + 8388608 with
    | Zpos p => S754_finite sign p (e - 150)
    | _ => S754_nan
    end.

Definition byte_at (data : list byte) (i : nat) : Z :=
  Z.of_N (Byte.to_N (default "000"%byte (data !! i))).

Definition read_float (data : list byte) (offset : nat) : float :=
  float_of_bits (byte_at data offset + 256 * byte_at data (offset + 1)
                 + 65536 * byte_at data (offset + 2) + 16777216 * byte_at data (offset + 3)).

(** [Geometry::Box]: minimum and maximum per axis.  A default-constructed
    box is the point at the origin. *)
Record Box : Type := {
  minX : float; maxX : float;
  minY : float; maxY : float;
  minZ : float; maxZ : float;
}.
Definition Box_default : Box :=
  {| minX := float_zero; maxX := float_zero; minY := float_zero; maxY := float_zero;
     minZ := float_zero; maxZ := float_zero |}.

(** Modelled from the spec: the format of one vertex
    ([VertexDescription.h] and [VertexAttribute.h] are not among the
    sources): named attributes, each a number of values of one type at
    an offset inside the vertex. *)
Record VertexAttribute : Type := {
  attr_nameId : string;
  attr_numValues : Z;
  attr_dataType : Z;
  attr_offset : nat;
}.
Record VertexDescription : Type := {
  attributes : list VertexAttribute;
  vertexSize : nat;
}.

Definition GL_FLOAT : Z := 5126.
Definition GL_STATIC_DRAW : Z := 35044.
Definition GL_ARRAY_BUFFER : Z := 34962.
Definition GL_ELEMENT_ARRAY_BUFFER : Z := 34963.
Definition POSITION : string := "sg_Position".

Definition emptyAttribute : VertexAttribute :=
  {| attr_nameId := ""; attr_numValues := 0; attr_dataType := 0; attr_offset := 0 |}.

(** Modelled from the spec: [VertexDescription::getAttribute(nameId)],
    the attribute of that name or an empty attribute. *)
Definition getAttribute (vd : VertexDescription) (nameId : string) : VertexAttribute :=
  default emptyAttribute
    (find (fun a => bool_decide (attr_nameId a = nameId)) (attributes vd)).

(** Modelled from the spec: the device-buffer collaborator
    ([BufferObject.h] is not among the sources): a buffer is valid when
    it has a device handle, [destroy] releases it. *)
Record BufferObject : Type := { glId : Z }.
Definition BufferObject_isValid (b : BufferObject) : bool := negb (glId b =? 0).
Definition BufferObject_destroy (b : BufferObject) : BufferObject := {| glId := 0 |}.

(** The device side of buffers and the flag constants of the headers. *)
Class BufferDevice : Type := {
  (** [uploadData(target, data, usageHint)] followed by [GET_GL_ERROR()]:
      the buffer afterwards, or an exception *)
  BufferObject_uploadData : BufferObject -> Z -> list byte -> Z -> Outcome BufferObject;
  (** [downloadData<uint8_t>(target, numBytes)] *)
  BufferObject_downloadData : BufferObject -> Z -> nat -> list byte;
  FLAGS_STATIC : Z;
  FLAGS_DYNAMIC : Z;
  FLAG_CLIENT_STORAGE : Z;
  (** flags of [SimpleMeshDataStrategy] *)
  PRESERVE_LOCAL_DATA : Z;
  DYNAMIC_VERTICES : Z;
  DEBUG_OUTPUT : Z;
  CLIENT_STORAGE : Z;
}.

(** [class MeshVertexData] *)
Record MeshVertexData : Type := {
  binaryData : list byte;
  vertexDescription : VertexDescription;
  vertexCount : Z;
  bufferObject : BufferObject;
  bb : Box;
  dataChanged : bool;
}.

Definition eta_MeshVertexData (v : MeshVertexData) : MeshVertexData :=
  Build_MeshVertexData (binaryData v) (vertexDescription v) (vertexCount v)
    (bufferObject v) (bb v) (dataChanged v).
Definition set_binaryData := ltac:(field_update eta_MeshVertexData binaryData).
Definition set_bufferObject := ltac:(field_update eta_MeshVertexData bufferObject).
Definition set_bb := ltac:(field_update eta_MeshVertexData bb).
Definition set_dataChanged := ltac:(field_update eta_MeshVertexData dataChanged).

Module VertexData.

Definition empty (v : MeshVertexData) : bool := vertexCount v =? 0.
Definition hasChanged (v : MeshVertexData) : bool := dataChanged v.
Definition hasLocalData (v : MeshVertexData) : bool :=
  negb (bool_decide (binaryData v = [])).
Definition dataSize (v : MeshVertexData) : nat := length (binaryData v).
Definition isUploaded (v : MeshVertexData) : bool := BufferObject_isValid (bufferObject v).
Definition markAsChanged (v : MeshVertexData) : MeshVertexData := set_dataChanged true v.

Definition releaseLocalData (v : MeshVertexData) : MeshVertexData := set_binaryData [] v.

Definition removeGlBuffer (v : MeshVertexData) : MeshVertexData :=
  set_bufferObject (BufferObject_destroy (bufferObject v)) v.

(** [allocate(count, vd)] *)
Definition allocate (count_ : Z) (vd : VertexDescription) (v : MeshVertexData) : MeshVertexData :=
  let v1 := Build_MeshVertexData (binaryData v) vd count_ (bufferObject v) (bb v) (dataChanged v) in
  let size := (vertexSize vd * Z.to_nat count_)%nat in
  let v2 := set_binaryData (take size (binaryData v1) ++ replicate (size - length (binaryData v1)) "000"%byte) v1 in
  markAsChanged v2.

(** [upload(usageHint)]: the result, the vertex data afterwards and the
    warnings reported. *)
Definition upload `{BufferDevice} (usageHint : Z) (v : MeshVertexData)
    : bool * MeshVertexData * list string :=
  if (vertexCount v =? 0) || bool_decide (binaryData v = []) then (false, v, [])
  else
    let v1 := if isUploaded v then removeGlBuffer v else v in
    match BufferObject_uploadData (bufferObject v1) GL_ARRAY_BUFFER (binaryData v1) usageHint with
    | Returns b => (true, set_dataChanged false (set_bufferObject b v1), [])
    | Throws _ => (false, removeGlBuffer v1, ["VBO: upload failed"])
    end.

(** [download()], compiled with [LIB_GL] *)
Definition download `{BufferDevice} (v : MeshVertexData) : bool * MeshVertexData :=
  if negb (isUploaded v) || (vertexCount v =? 0) then (false, v)
  else
    let numBytes := (vertexSize (vertexDescription v) * Z.to_nat (vertexCount v))%nat in
    (true,
     set_dataChanged false
       (set_binaryData (BufferObject_downloadData (bufferObject v) GL_ARRAY_BUFFER numBytes) v)).

(** Modelled from the spec: [FloatAttributeAccessor::create(vd, name)]
    ([VertexAttributeAccessors.h] is not among the sources) gives access
    to an attribute of [float] values and throws for a vertex format
    without such an attribute. *)
Definition FloatAttributeAccessor_create (v : MeshVertexData) (name : string)
    : Outcome VertexAttribute :=
  let attr := getAttribute (vertexDescription v) name in
  if (1 <=? attr_numValues attr) && (attr_dataType attr =? GL_FLOAT) then Returns attr
  else Throws (std_exception "No float attribute of that name").

(** Modelled from the spec: [acc->getValues(i)], the values of the
    attribute for vertex [i], read from the local vertex data. *)
Definition getValues (v : MeshVertexData) (acc : VertexAttribute) (i : nat) : list float :=
  map (fun k => read_float (binaryData v)
                  (i * vertexSize (vertexDescription v) + attr_offset acc + 4 * k))
      (seq 0 (Z.to_nat (attr_numValues acc))).

(** The body of the inner loop of [updateBoundingBox] for one dimension. *)
Definition include_dim (p : list float) (mm : list float * list float) (dim : nat)
    : list float * list float :=
  let pd := default float_zero (p !! dim) in
  let min_ := fst mm in
  let max_ := snd mm in
  let min' := if SFltb pd (default float_zero (min_ !! dim)) then <[dim := pd]> min_ else min_ in
  let max' := if SFltb (default float_zero (max_ !! dim)) pd then <[dim := pd]> max_ else max_ in
  (min', max').

(** The body of the outer loop: all dimensions of one vertex. *)
Definition include_vertex (vertexNum : nat) (mm : list float * list float) (p : list float)
    : list float * list float :=
  foldl (include_dim p) mm (seq 0 vertexNum).

(** The minima and maxima computed by the two loops. *)
Definition minmax (vertexNum : nat) (ps : list (list float)) : list float * list float :=
  foldl (include_vertex vertexNum)
        (replicate vertexNum FLT_MAX, replicate vertexNum FLT_LOWEST) ps.

(** [updateBoundingBox()]: the vertex data afterwards and the warnings
    reported, or the exception of the accessor. *)
Definition updateBoundingBox (v : MeshVertexData) : Outcome (MeshVertexData * list string) :=
  if vertexCount v =? 0 then Returns (set_bb Box_default v, [])
  else
    match FloatAttributeAccessor_create v POSITION with
    | Throws e => Throws e
    | Returns acc =>
      let attr := getAttribute (vertexDescription v) POSITION in
      let vertexNum := Z.to_nat (attr_numValues attr) in
      if (vertexNum <? 1)%nat then Returns (v, ["Vertex component count is zero."])
      else
        let mm := minmax vertexNum
                    (map (getValues v acc) (seq 0 (Z.to_nat (vertexCount v)))) in
        let min_ k := default float_zero (fst mm !! k) in
        let max_ k := default float_zero (snd mm !! k) in
        let box :=
          if (vertexNum =? 1)%nat then
            Build_Box (min_ 0%nat) (max_ 0%nat) float_zero float_zero float_zero float_zero
          else if (vertexNum =? 2)%nat then
            Build_Box (min_ 0%nat) (max_ 0%nat) (min_ 1%nat) (max_ 1%nat) float_zero float_zero
          else
            Build_Box (min_ 0%nat) (max_ 0%nat) (min_ 1%nat) (max_ 1%nat) (min_ 2%nat) (max_ 2%nat) in
        Returns (set_bb box v, [])
    end.

End VertexData.

(** Modelled from the spec: [class MeshIndexData] ([MeshIndexData.h] is
    not among the sources), the geometry record of the indices, with
    the operations of [MeshVertexData] that [prepare] calls. *)
Record MeshIndexData : Type := {
  indexArray : list Z;
  indexCount : Z;
  indexBufferObject : BufferObject;
  indexDataChanged : bool;
}.

Module IndexData.

Definition empty (i : MeshIndexData) : bool := indexCount i =? 0.
Definition hasChanged (i : MeshIndexData) : bool := indexDataChanged i.
Definition hasLocalData (i : MeshIndexData) : bool := negb (bool_decide (indexArray i = [])).
Definition isUploaded (i : MeshIndexData) : bool := BufferObject_isValid (indexBufferObject i).

Definition releaseLocalData (i : MeshIndexData) : MeshIndexData :=
  {| indexArray := []; indexCount := indexCount i;
     indexBufferObject := indexBufferObject i; indexDataChanged := indexDataChanged i |}.

Definition removeGlBuffer (i : MeshIndexData) : MeshIndexData :=
  {| indexArray := indexArray i; indexCount := indexCount i;
     indexBufferObject := BufferObject_destroy (indexBufferObject i);
     indexDataChanged := indexDataChanged i |}.

(** The four bytes of one index (little endian). *)
Definition index_bytes (x : Z) : list byte :=
  map (fun k => default "000"%byte (Byte.of_N (Z.to_N ((x / 256 ^ k) mod 256))))
      [0; 1; 2; 3].

Definition upload `{BufferDevice} (usageHint : Z) (i : MeshIndexData)
    : bool * MeshIndexData * list string :=
  if (indexCount i =? 0) || bool_decide (indexArray i = []) then (false, i, [])
  else
    let i1 := if isUploaded i then removeGlBuffer i else i in
    match BufferObject_uploadData (indexBufferObject i1) GL_ELEMENT_ARRAY_BUFFER
            (concat (map index_bytes (indexArray i1))) usageHint with
    | Returns b =>
      (true,
       {| indexArray := indexArray i1; indexCount := indexCount i1;
          indexBufferObject := b; indexDataChanged := false |}, [])
    | Throws _ => (false, removeGlBuffer i1, ["VBO: upload failed"])
    end.

End IndexData.

(** A mesh owns its index data and its vertex data. *)
Record Mesh : Type := {
  indexData : MeshIndexData;
  vertexData : MeshVertexData;
}.

(** ** [SimpleMeshDataStrategy] *)

Section Strategy.
Context `{BufferDevice}.

(** [getFlag(f)] on the flags of the strategy *)
Definition getFlag (flags f : Z) : bool := 0 <? Z.land flags f.

(** What [prepare] leaves behind: the mesh, the text written to
    [std::cout] and the warnings. *)
Record Prepared : Type := {
  prepared_mesh : Mesh;
  prepared_cout : list string;
  prepared_warnings : list string;
}.

Definition debug (flags : Z) (text : string) : list string :=
  if getFlag flags DEBUG_OUTPUT then [text] else [].

(** The first half of [prepare]: the index data. *)
Definition prepare_indices (flags : Z) (id : MeshIndexData)
    : MeshIndexData * list string * list string :=
  let '(id1, cout1, warn1) :=
    if IndexData.empty id && IndexData.isUploaded id then
      (IndexData.removeGlBuffer id, debug flags " ~idxBO", [])
    else if negb (IndexData.empty id)
            && (IndexData.hasChanged id || negb (IndexData.isUploaded id)) then
      let '(_, id', w) := IndexData.upload GL_STATIC_DRAW id in
      (id', debug flags " +idxBO", w)
    else (id, [], []) in
  if negb (getFlag flags PRESERVE_LOCAL_DATA) && IndexData.isUploaded id1
     && IndexData.hasLocalData id1 then
    (IndexData.releaseLocalData id1, (cout1 ++ debug flags " ~idxLD")%list, warn1)
  else (id1, cout1, warn1).

(** The second half of [prepare]: the vertex data. *)
Definition prepare_vertices (flags : Z) (vd : MeshVertexData)
    : MeshVertexData * list string * list string :=
  let '(vd1, cout1, warn1) :=
    if VertexData.empty vd && VertexData.isUploaded vd then
      (VertexData.removeGlBuffer vd, debug flags " ~vBO", [])
    else if negb (VertexData.empty vd)
            && (VertexData.hasChanged vd || negb (VertexData.isUploaded vd)) then
      let usage :=
        Z.lor (if getFlag flags DYNAMIC_VERTICES then FLAGS_DYNAMIC else FLAGS_STATIC)
              (if getFlag flags CLIENT_STORAGE then FLAG_CLIENT_STORAGE else 0) in
      let '(_, vd', w) := VertexData.upload usage vd in
      (vd', debug flags " +vBO", w)
    else (vd, [], []) in
  if negb (getFlag flags PRESERVE_LOCAL_DATA) && VertexData.isUploaded vd1
     && VertexData.hasLocalData vd1 then
    (VertexData.releaseLocalData vd1, (cout1 ++ debug flags " ~vLD")%list, warn1)
  else (vd1, cout1, warn1).

(** [SimpleMeshDataStrategy::prepare(m)] for a strategy with [flags] *)
Definition prepare (flags : Z) (m : Mesh) : Prepared :=
  let '(id, cout1, warn1) := prepare_indices flags (indexData m) in
  let '(vd, cout2, warn2) := prepare_vertices flags (vertexData m) in
  {| prepared_mesh := {| indexData := id; vertexData := vd |};
     prepared_cout := cout1 ++ cout2;
     prepared_warnings := warn1 ++ warn2 |}.

End Strategy.

(** ** Programs over the public interface *)

Section Programs.
Context `{Collaborators}.

(** One call of a public member function of the context. *)
Inductive Call : Type :=
  | c_push (C : Category)
  | c_set (C : Category) (v : argT C)
  | c_pop (C : Category)
  | c_applyChanges (forced : bool)
  | c_drawArrays (mode first count_ : Z)
  | c_drawElements (mode type first count_ : Z)
  | c_flush
  | c_finish
  | c_barrier (flags : Z)
  | c_dispatchCompute (x y z : Z)
  | c_dispatchComputeIndirect (offset : Z)
  | c_enableLight (light : LightParameters)
  | c_enableLight_id (lightNumber : Z)
  | c_disableLight (lightNumber : Z)
  | c_registerLight (light : LightParameters)
  | c_setLight (lightNumber : Z) (light : LightParameters)
  | c_unregisterLight (lightNumber : Z)
  | c_resetMatrix
  | c_multMatrix_modelToCamera (matrix : Matrix4x4)
  | c_startTransformFeedback (primitiveMode : Z).

Definition call (c : Call) : M unit :=
  match c with
  | c_push C => push C
  | c_set C v => set C v
  | c_pop C => pop C
  | c_applyChanges forced => applyChanges forced
  | c_drawArrays mode first count_ => drawArrays mode first count_
  | c_drawElements mode type first count_ => drawElements mode type first count_
  | c_flush => flush
  | c_finish => finish
  | c_barrier flags => barrier flags
  | c_dispatchCompute x y z => dispatchCompute x y z
  | c_dispatchComputeIndirect offset => dispatchComputeIndirect offset
  | c_enableLight light => enableLight light;; mret tt
  | c_enableLight_id lightNumber => enableLight_id lightNumber
  | c_disableLight lightNumber => disableLight lightNumber
  | c_registerLight light => registerLight light;; mret tt
  | c_setLight lightNumber light => setLight lightNumber light
  | c_unregisterLight lightNumber => unregisterLight lightNumber
  | c_resetMatrix => resetMatrix
  | c_multMatrix_modelToCamera matrix => multMatrix_modelToCamera matrix
  | c_startTransformFeedback primitiveMode => _startTransformFeedback primitiveMode
  end.

(** A program is a sequence of calls; an exception ends it. *)
Fixpoint run (prog : list Call) : M unit :=
  match prog with
  | [] => mret tt
  | c :: rest => call c;; run rest
  end.

(** The results of a list of registrations, in order. *)
Fixpoint registerLights (ls : list LightParameters) : M (list Z) :=
  match ls with
  | [] => mret []
  | light :: rest =>
    id ← registerLight light;
    ids ← registerLights rest;
    mret (id :: ids)
  end.

End Programs.

(** The device commands that consume the target state: draws, compute
    dispatches, flush and finish. *)
Definition needs_apply (c : GlCommand) : bool :=
  match c with
  | glFlush | glFinish
  | glDispatchCompute _ _ _ | glDispatchComputeIndirect _
  | glDrawArraysInstancedBaseInstance _ _ _ _ _
  | glDrawElementsInstancedBaseVertexBaseInstance _ _ _ _ _ _ _ => true
  | _ => false
  end.

(** Reading a history from the oldest event on.  [applied] tells whether
    [applyChanges] has returned and only records have been added to a
    parameter cache slot since.  The result is [None] when a command
    that needs the applied state is met while [applied] is false. *)
Fixpoint scan (applied : bool) (tr : list Event) : option bool :=
  match tr with
  | [] => Some applied
  | EvLeaveApplyChanges :: rest => scan true rest
  | EvAddParameter _ _ :: rest => scan applied rest
  | EvGl c :: rest =>
    if needs_apply c then (if applied then scan false rest else None)
    else scan false rest
  | _ :: rest => scan false rest
  end.



(** ** Well-formed contexts *)

Section Invariants.
Context `{Env}.

(** The arrays have the sizes of their declarations. *)
Definition arrays_ok (d : InternalData) : Prop :=
  length (imageStacks d) = MAX_BOUND_IMAGES /\
  length (boundImages d) = MAX_BOUND_IMAGES /\
  length (textureStacks d) = MAX_TEXTURES /\
  length (enabledTextures d) = MAX_TEXTURES /\
  length (ps_textures (targetPipelineState d)) = MAX_TEXTURES.

(** The enabled hardware ids: the first [count] elements of the array. *)
Definition active (set : LightSet) : list Z := take (Z.to_nat (count set)) (lights set).

(** At most [MAX_ENABLED_LIGHTS] ids are enabled and none twice. *)
Definition LightSet_ok (set : LightSet) : Prop :=
  0 <= count set <= MAX_ENABLED_LIGHTS /\
  length (lights set) = Z.to_nat MAX_ENABLED_LIGHTS /\
  NoDup (active set).

(** The device creates every texture it is asked for. *)
Definition textures_available : Prop :=
  forall t : pointer, exists cmds handle, Texture_prepareForBinding t = (cmds, Returns handle).

(** The device binds every buffer it is asked for. *)
Definition buffers_available : Prop :=
  forall (b : pointer) (t : Z), exists cmds, BufferObject_bind b t = (cmds, Returns tt).

(** The records of the light-data slot, by hardware id. *)
Definition lightData (d : InternalData) : gmap Z LightParameters :=
  slot_records (slot_LightData (cache d)).

(** The buffer in use of a slot exists. *)
Definition slot_ok {R : Type} (s : Slot R) : Prop := (current s < length (buffers s))%nat.

End Invariants.

(** ** A concrete environment *)

(** Parameter structs are plain numbers, there are eight texture and
    image units, a light descriptor has four bytes, and the device
    accepts every request. *)
Definition simpleEnv : Env := {|
  BlendingParameters := Z;
  ColorBufferParameters := Z;
  CullFaceParameters := Z;
  DepthBufferParameters := Z;
  ImageBindParameters := Z;
  LineParameters := Z;
  PointParameters := Z;
  PolygonModeParameters := Z;
  PolygonOffsetParameters := Z;
  ScissorParameters := Z;
  StencilParameters := Z;
  MaterialParameters := Z;
  default_BlendingParameters := 0;
  default_ColorBufferParameters := 0;
  CULL_BACK := 1;
  default_CullFaceParameters := 0;
  DepthBuffer_enabled_LESS := 1;
  default_DepthBufferParameters := 0;
  default_ImageBindParameters := 0;
  default_LineParameters := 0;
  default_PointParameters := 0;
  PointParameters_1 := 1;
  default_PolygonModeParameters := 0;
  default_PolygonOffsetParameters := 0;
  default_ScissorParameters := 0;
  default_StencilParameters := 0;
  default_MaterialParameters := 0;
  image_getTexture := fun p => p;
  Matrix4x4 := Z;
  Matrix4x4_identity := 1;
  Matrix4x4_inverse := fun m => m;
  Matrix4x4_mul := Z.mul;
  Vec4 := (Z * Z * Z * Z)%type;
  default_Vec4 := (0, 0, 0, 0);
  Vec4_of_ints := fun x y w h => (x, y, w, h);
  UniformRegistry := unit;
  empty_UniformRegistry := tt;
  MAX_TEXTURES := 8;
  MAX_BOUND_IMAGES := 8;
  sizeof_LightParameters := 4;
  indeterminate := fun _ => 0;
  isImageBindingSupported := true;
  isTransformFeedbackSupported := true;
  Texture_prepareForBinding := fun t => ([], Returns t);
  BufferObject_bind := fun _ _ => ([], Returns tt);
  getGLTypeSize := fun _ => 4;
  glGetError := fun _ => None;
|}.

Definition simpleCollaborators : @Collaborators simpleEnv := {|
  Diff := unit;
  PipelineState_makeDiff := fun _ _ _ => ([], Returns tt);
  PipelineState_apply := fun _ _ => ([("apply", [])], Returns tt);
  Shader_getInterfaceBlocks := fun _ => [];
  ParameterCache_bind := fun _ _ _ _ => ([], Returns tt);
  Shader_performGlobalSync := fun _ _ => ([], Returns tt);
  Shader_applyUniforms := fun _ _ => ([], Returns tt);
|}.


Definition simpleBufferDevice : BufferDevice := {|
  BufferObject_uploadData := fun _ _ _ _ => Returns {| glId := 1 |};
  BufferObject_downloadData := fun _ _ n => replicate n "000"%byte;
  FLAGS_STATIC := 1;
  FLAGS_DYNAMIC := 2;
  FLAG_CLIENT_STORAGE := 4;
  PRESERVE_LOCAL_DATA := 2;
  DYNAMIC_VERTICES := 4;
  DEBUG_OUTPUT := 8;
  CLIENT_STORAGE := 16;
|}.

(** ** Vocabulary of the properties *)

Section Vocabulary.
Context `{Collaborators}.

(** A computation is [quiet] when, whatever its outcome, it changes
    nothing of the context data but the active pipeline state and the
    parameter cache, only adds warnings, and only adds state-setting
    commands of collaborators to the history. *)
Definition quiet {A : Type} (m : M A) : Prop :=
  forall s : State,
    (exists a c, internalData (snd (m s)) =
                 set_cache c (set_activePipelineState a (internalData s))) /\
    (exists w, warnings (snd (m s)) = (warnings s ++ w)%list) /\
    (exists cmds, history (snd (m s)) = (history s ++ map EvState cmds)%list) /\
    feedbackSupportRequested (snd (m s)) = feedbackSupportRequested s.

(** A computation [keeps] a category when, whatever its outcome, the
    target value and the stack of the category are afterwards what they
    were before. *)
Definition keeps {A : Type} (C : Category) (m : M A) : Prop :=
  forall s : State,
    target C (internalData (snd (m s))) = target C (internalData s) /\
    stack C (internalData (snd (m s))) = stack C (internalData s).

(** From every state satisfying [P] the computation returns, in a state
    satisfying [Q]. *)
Definition hoare {A : Type} (P : State -> Prop) (m : M A) (Q : A -> State -> Prop) : Prop :=
  forall s, P s -> exists a s', m s = (Returns a, s') /\ Q a s'.

(** A property of the context data alone. *)
Definition on_data (Pd : InternalData -> Prop) : State -> Prop :=
  fun s => Pd (internalData s).

(** Computations that return and leave the context data alone. *)
Definition silent {A : Type} (m : M A) : Prop :=
  forall s, exists a s', m s = (Returns a, s') /\ internalData s' = internalData s.

(** [emits pre m post]: the events [m] adds to the history can be read
    by [scan] from any flag that is true when [pre] is, and when [m]
    returns [a] and [post a] holds the flag is true afterwards. *)
Definition emits {A : Type} (pre : bool) (m : M A) (post : A -> bool) : Prop :=
  forall s : State,
    exists evs : list Event,
      history (snd (m s)) = (history s ++ evs)%list /\
      forall b : bool, (pre = true -> b = true) ->
        exists b' : bool,
          scan b evs = Some b' /\
          forall a, fst (m s) = Returns a -> post a = true -> b' = true.

End Vocabulary.

(** The values the bounding-box loops are stated over. *)

Definition is_nan (x : float) : bool :=
  match x with S754_nan => true | _ => false end.

(** The finite binary32 numbers: zeros and valid finite values. *)
Definition finite32 (x : float) : bool :=
  match x with
  | S754_zero _ => true
  | S754_finite _ m e => bounded 24 128 m e
  | _ => false
  end.

(** One comparison of the loop for a minimum, and for a maximum. *)
Definition step_min (m p : float) : float := if SFltb p m then p else m.

Definition step_max (m p : float) : float := if SFltb m p then p else m.

(** The values of all vertices in one dimension. *)
Definition column (dim : nat) (ps : list (list float)) : list float :=
  map (fun p => default float_zero (p !! dim)) ps.

(** The bounds of a box along axis 0, 1 or 2. *)
Definition box_min (b : Box) (axis : nat) : float :=
  match axis with O => minX b | S O => minY b | _ => minZ b end.

Definition box_max (b : Box) (axis : nat) : float :=
  match axis with O => maxX b | S O => maxY b | _ => maxZ b end.

(** A triangle of three position-only vertices at (0,0,0), (1,0,0) and
    (0,1,0); [1.0f] is [00 00 80 3f] in memory. *)
Definition float_one : float := S754_finite false 8388608 (-23).

Definition bytes_zero : list byte := ["000"; "000"; "000"; "000"]%byte.

Definition bytes_one : list byte := ["000"; "000"; "128"; "063"]%byte.

Definition position3 : VertexDescription :=
  {| attributes := [ {| attr_nameId := POSITION; attr_numValues := 3;
                        attr_dataType := GL_FLOAT; attr_offset := 0 |} ];
     vertexSize := 12 |}.

Definition triangle : MeshVertexData :=
  {| binaryData := (bytes_zero ++ bytes_zero ++ bytes_zero
                    ++ bytes_one ++ bytes_zero ++ bytes_zero
                    ++ bytes_zero ++ bytes_one ++ bytes_zero)%list;
     vertexDescription := position3;
     vertexCount := 3;
     bufferObject := {| glId := 0 |};
     bb := Box_default;
     dataChanged := true |}.

(** ** Example contexts, programs and meshes *)

Section ExampleData.
#[local] Existing Instance simpleEnv.
#[local] Existing Instance simpleCollaborators.

(** A light descriptor of four bytes, told apart by its last byte. *)
Definition lightOf (n : nat) : LightParameters :=
  [Byte.x00; Byte.x00; Byte.x00; default Byte.x00 (Byte.of_nat n)].

(** Enabling the descriptors of a list of numbers, one after the other. *)
Definition enableLights (ns : list nat) : M unit :=
  foldr (fun n rest => enableLight (lightOf n);; rest) (mret tt) ns.

(** A fresh context after two, and after eight, lights were enabled. *)
Definition twoLights : State := snd (enableLights [0; 1]%nat initialState).


(** A fresh context after [setShader(7); pushShader(); setShader(9)]. *)
Definition shaderPushed : State :=
  snd ((set Shader 7;; push Shader;; set Shader 9) initialState).

(** State changes between two draws, a flush and a finish. *)
Definition exampleProgram : list Call :=
  [c_set Blending 3; c_drawArrays 4 0 3; c_push CullFace; c_flush;
   c_drawElements 4 5123 0 6; c_finish].



End ExampleData.

(** A mesh whose vertices were cleared after an upload: no vertex is
    left, the device buffer 5 still is. *)
Definition clearedMesh : Mesh :=
  {| indexData := {| indexArray := []; indexCount := 0;
                     indexBufferObject := {| glId := 0 |};
                     indexDataChanged := false |};
     vertexData := {| binaryData := []; vertexDescription := position3;
                      vertexCount := 0; bufferObject := {| glId := 5 |};
                      bb := Box_default; dataChanged := true |} |}.

(** The position attribute of [position3]. *)
Definition positionAttribute : VertexAttribute :=
  {| attr_nameId := POSITION; attr_numValues := 3;
     attr_dataType := GL_FLOAT; attr_offset := 0 |}.

(** ** More vocabulary: parts of the context a computation leaves alone *)

Section Frames.
Context `{Collaborators}.

(** A computation [preserves] a component [f] of the context data when,
    whatever its outcome, the component is afterwards what it was. *)
Definition preserves {X A : Type} (f : InternalData -> X) (m : M A) : Prop :=
  forall s : State, f (internalData (snd (m s))) = f (internalData s).

End Frames.

Section LightInvariants.
Context `{Env}.

(** No hardware id of the registry is in the pool of free ids. *)
Definition registry_ids_used (d : InternalData) : Prop :=
  forall (light : LightParameters) (id : Z),
    (light, id) ∈ lightRegistry d -> id ∉ freeLightIds d.

End LightInvariants.

Section CallShapes.
Context `{Collaborators}.

(** The categories whose unit, if they have one, is a unit of the
    context's arrays. *)
Definition valid_category (C : Category) : bool :=
  match C with
  | BoundImage u => (u <? MAX_BOUND_IMAGES)%nat
  | Texture u => (u <? MAX_TEXTURES)%nat
  | _ => true
  end.

(** The calls that name no image or texture unit outside the arrays. *)
Definition valid_call (c : Call) : bool :=
  match c with
  | c_push C | c_set C _ | c_pop C => valid_category C
  | _ => true
  end.

(** The calls that are neither [push] nor [pop] of a category. *)
Definition outside (C : Category) (c : Call) : Prop :=
  match c with
  | c_push C' | c_pop C' => C' <> C
  | _ => True
  end.

End CallShapes.

(** ** More example contexts, programs and meshes *)

Section MoreExampleData.
#[local] Existing Instance simpleEnv.
#[local] Existing Instance simpleCollaborators.

(** A fresh context after one light was enabled. *)
Definition oneLight : State := snd (enableLight (lightOf 0) initialState).

(** A fresh context after 255 lights were registered. *)
Definition poolExhausted : State :=
  snd (registerLights (map lightOf (seq 0 255)) initialState).

(** A fresh context after [pushTransformFeedbackBufferStatus()]. *)
Definition feedbackPushed : State := snd (pushTransformFeedbackBufferStatus initialState).

(** A fresh context after [pushCullFace(); setCullFace(5)]. *)
Definition cullFacePushed : State := snd ((push CullFace;; set CullFace 5) initialState).

(** A fresh context with shader 7 active. *)
Definition shaderActive : State := snd (set Shader 7 initialState).

(** What a blending scope may contain: state changes of its own and of
    other categories, a nested scope, a draw. *)
Definition scopeBody : list Call :=
  [c_set Blending 3; c_push CullFace; c_set CullFace 2; c_drawArrays 4 0 3;
   c_set Blending 4; c_pop CullFace].

End MoreExampleData.

(** The triangle as the vertex data of a mesh without indices. *)
Definition triangleMesh : Mesh :=
  {| indexData := {| indexArray := []; indexCount := 0;
                     indexBufferObject := {| glId := 0 |};
                     indexDataChanged := false |};
     vertexData := triangle |}.

(** A quiet NaN, [00 00 c0 7f] in memory. *)
Definition bytes_nan : list byte := ["000"; "000"; "192"; "127"]%byte.

(** Two vertices at (NaN, 1, 0) and (NaN, 0, 0). *)
Definition nanVertices : MeshVertexData :=
  {| binaryData := (bytes_nan ++ bytes_one ++ bytes_zero
                    ++ bytes_nan ++ bytes_zero ++ bytes_zero)%list;
     vertexDescription := position3;
     vertexCount := 2;
     bufferObject := {| glId := 0 |};
     bb := Box_default;
     dataChanged := true |}.

(** * Properties *)

(** ** Reasoning about monadic code *)

Ltac unfold_monad :=
  unfold mbind, M_bind, bind, mret, M_ret, ret, throw, try_catch,
    getData, modifyData, WARN, emit, gl, deviceCall in *.

Ltac unfold_scoped :=
  unfold pushBlending, setBlending, popBlending,
    pushColorBuffer, setColorBuffer, popColorBuffer,
    pushCullFace, setCullFace, popCullFace,
    pushDepthBuffer, setDepthBuffer, popDepthBuffer,
    pushBoundImage, setBoundImage, popBoundImage, assertCorrectImageUnit,
    pushLine, setLine, popLine,
    pushPointParameters, setPointParameters, popPointParameters,
    pushPolygonMode, setPolygonMode, popPolygonMode,
    pushPolygonOffset, setPolygonOffset, popPolygonOffset,
    pushScissor, setScissor, popScissor,
    pushStencil, setStencil, popStencil,
    pushFBO, setFBO, popFBO,
    pushShader, setShader, popShader,
    pushTexture, setTexture, popTexture, at_MAX_TEXTURES,
    pushTransformFeedbackBufferStatus, setTransformFeedbackBuffer,
    popTransformFeedbackBufferStatus, stopTransformFeedback, _startTransformFeedback,
    pushMatrix_cameraToClipping, setMatrix_cameraToClipping, popMatrix_cameraToClipping,
    pushMatrix_modelToCamera, setMatrix_modelToCamera, popMatrix_modelToCamera,
    pushMaterial, setMaterial, popMaterial,
    pushViewport, setViewport, popViewport.

Section StackProperties.
Context `{Collaborators}.

Lemma set_warnings_data (w : list string) (s : State) :
  internalData (set_warnings w s) = internalData s.
Proof. reflexivity. Qed.

(** C3: popping the empty stack of any category reports one warning and
    returns normally; the context data, and with it the target value and
    the still empty stack of the category, and the device history are
    what they were. *)
Theorem pop_empty_stack (C : Category) (s : State) :
  stack C (internalData s) = Some [] ->
  exists (msg : string) (s' : State),
    pop C s = (Returns tt, s') /\
    warnings s' = (warnings s ++ [msg])%list /\
    internalData s' = internalData s /\
    history s' = history s /\
    target C (internalData s') = target C (internalData s) /\
    stack C (internalData s') = Some [].
Proof.
  intros Hempty.
  destruct C; simpl in Hempty;
    try (injection Hempty as Hempty);
    cbn [pop];
    try (unfold popBlending, popColorBuffer, popCullFace, popDepthBuffer, popLine,
           popPointParameters, popPolygonMode, popPolygonOffset, popScissor, popStencil,
           popFBO, popShader, popTransformFeedbackBufferStatus,
           popMatrix_cameraToClipping, popMatrix_modelToCamera, popMaterial, popViewport;
         unfold_monad; rewrite Hempty;
         eexists _, _; repeat split; simpl; try reflexivity; rewrite Hempty; reflexivity).
  - (* image unit *)
    destruct (unit_ <? MAX_BOUND_IMAGES)%nat eqn:Hunit; [|discriminate].
    apply Nat.ltb_lt in Hunit.
    unfold popBoundImage, assertCorrectImageUnit. unfold_monad.
    destruct (MAX_BOUND_IMAGES <=? unit_)%nat eqn:Hle; [apply Nat.leb_le in Hle; lia|].
    rewrite Hempty. simpl.
    eexists _, _; repeat split; simpl; try reflexivity.
    apply Nat.ltb_lt in Hunit. rewrite Hunit. exact Hempty.
  - (* texture unit *)
    destruct (unit_ <? MAX_TEXTURES)%nat eqn:Hunit; [|discriminate].
    apply Nat.ltb_lt in Hunit.
    unfold popTexture, at_MAX_TEXTURES. unfold_monad.
    destruct (MAX_TEXTURES <=? unit_)%nat eqn:Hle; [apply Nat.leb_le in Hle; lia|].
    rewrite Hempty. simpl.
    eexists _, _; repeat split; simpl; try reflexivity.
    apply Nat.ltb_lt in Hunit. rewrite Hunit. exact Hempty.
Qed.

(** C4, at the shader stack: [popShader] on a stack [top :: rest] makes
    [top] the target shader and returns, but the stack is still
    [top :: rest]; its size has not gone down. *)
Theorem popShader_keeps_stack (s : State) (top : pointer) (rest : list pointer) :
  stack Shader (internalData s) = Some (top :: rest) ->
  exists s' : State,
    pop Shader s = (Returns tt, s') /\
    target Shader (internalData s') = Some top /\
    stack Shader (internalData s') = Some (top :: rest).
Proof.
  intros Hstack. simpl in Hstack. injection Hstack as Hstack.
  cbn [pop]. unfold popShader, setShader. unfold_monad. rewrite Hstack.
  eexists; repeat split; simpl; congruence.
Qed.

(** What [popMaterial] does on a stack [top :: rest]: [top] is dropped
    unread; the active material becomes the element below it, or keeps
    its parameters and is disabled when there is none. *)
Lemma popMaterial_nonempty (s : State) (top : MaterialData) (rest : list MaterialData) :
  materialStack (internalData s) = top :: rest ->
  exists s' : State,
    popMaterial s = (Returns tt, s') /\
    materialStack (internalData s') = rest /\
    activeMaterial (internalData s') =
      match rest with
      | [] => set_enabled 0 (activeMaterial (internalData s))
      | below :: _ => below
      end /\
    warnings s' = warnings s /\ history s' = history s.
Proof.
  intros Hstack. unfold popMaterial. unfold_monad. rewrite Hstack. simpl.
  rewrite Hstack. simpl.
  destruct rest as [|below rest']; simpl;
    eexists; repeat split; simpl; try reflexivity; rewrite Hstack; reflexivity.
Qed.

(** C1, at the material stack: after [pushMaterial(); setMaterial(v);
    popMaterial()] the active material is not the one from before the
    push.  On an empty stack it is [v], disabled; on a stack with top
    [below] it is [below]. *)
Theorem pushSetPop_material (s : State) (v : MaterialParameters) :
  exists s' : State,
    (push Material;; set Material v;; pop Material) s = (Returns tt, s') /\
    stack Material (internalData s') = stack Material (internalData s) /\
    target Material (internalData s') =
      Some match materialStack (internalData s) with
           | [] => {| mat := v; enabled := 0; _pad := 0 |}
           | below :: _ => below
           end.
Proof.
  cbn [push set pop]. unfold pushMaterial, setMaterial, popMaterial. unfold_monad.
  simpl.
  destruct (materialStack (internalData s)) as [|below rest] eqn:Hstack; simpl;
    eexists; repeat split; simpl; rewrite ?Hstack; reflexivity.
Qed.

(** *** What [applyChanges] can touch *)

Lemma quiet_ret {A : Type} (a : A) : quiet (mret a).
Proof.
  intros s. unfold_monad. simpl. repeat split.
  - exists (activePipelineState (internalData s)), (cache (internalData s)).
    destruct (internalData s); reflexivity.
  - exists []. symmetry. apply app_nil_r.
  - exists []. symmetry. apply app_nil_r.
Qed.

Lemma quiet_throw {A : Type} (e : exception) : quiet (@throw _ A e).
Proof. exact (quiet_ret tt). Qed.

Lemma quiet_bind {A B : Type} (m : M A) (k : A -> M B) :
  quiet m -> (forall a, quiet (k a)) -> quiet (m ≫= k).
Proof.
  intros Hm Hk s. unfold_monad.
  destruct (Hm s) as ((a1 & c1 & Hd1) & (w1 & Hw1) & (e1 & He1) & Hf1).
  destruct (m s) as [[x|e] s1]; simpl in *.
  - destruct (Hk x s1) as ((a2 & c2 & Hd2) & (w2 & Hw2) & (e2 & He2) & Hf2).
    repeat split.
    + exists a2, c2. rewrite Hd2, Hd1. reflexivity.
    + exists (w1 ++ w2)%list. rewrite Hw2, Hw1. symmetry. apply app_assoc.
    + exists (e1 ++ e2)%list. rewrite He2, He1, map_app. symmetry. apply app_assoc.
    + congruence.
  - repeat split; eauto.
Qed.

Lemma quiet_try_catch (body : M unit) (handler : exception -> M unit) :
  quiet body -> (forall e, quiet (handler e)) -> quiet (try_catch body handler).
Proof.
  intros Hm Hk s. unfold_monad.
  destruct (Hm s) as ((a1 & c1 & Hd1) & (w1 & Hw1) & (e1 & He1) & Hf1).
  destruct (body s) as [[x|e] s1]; simpl in *.
  - repeat split; eauto.
  - destruct (Hk e s1) as ((a2 & c2 & Hd2) & (w2 & Hw2) & (e2 & He2) & Hf2).
    repeat split.
    + exists a2, c2. rewrite Hd2, Hd1. reflexivity.
    + exists (w1 ++ w2)%list. rewrite Hw2, Hw1. symmetry. apply app_assoc.
    + exists (e1 ++ e2)%list. rewrite He2, He1, map_app. symmetry. apply app_assoc.
    + congruence.
Qed.

Lemma quiet_getData : quiet getData.
Proof. exact (quiet_ret tt). Qed.

Lemma quiet_WARN (msg : string) : quiet (WARN msg).
Proof.
  intros s. unfold_monad. simpl. repeat split.
  - exists (activePipelineState (internalData s)), (cache (internalData s)).
    destruct (internalData s); reflexivity.
  - eexists. reflexivity.
  - exists []. symmetry. apply app_nil_r.
Qed.

Lemma quiet_deviceCall {A : Type} (r : DeviceResult A) : quiet (deviceCall r).
Proof.
  intros s. unfold_monad. simpl. repeat split.
  - exists (activePipelineState (internalData s)), (cache (internalData s)).
    destruct (internalData s); reflexivity.
  - exists []. symmetry. apply app_nil_r.
  - eexists. reflexivity.
Qed.

Lemma quiet_GET_GL_ERROR : quiet GET_GL_ERROR.
Proof.
  intros s. unfold GET_GL_ERROR.
  destruct (glGetError (history s)); [apply quiet_WARN | apply (quiet_ret tt)].
Qed.

Lemma quiet_set_activePipelineState (f : InternalData -> PipelineState) :
  quiet (modifyData (fun d => set_activePipelineState (f d) d)).
Proof.
  intros s. unfold_monad. simpl. repeat split.
  - exists (f (internalData s)), (cache (internalData s)).
    destruct (internalData s); reflexivity.
  - exists []. symmetry. apply app_nil_r.
  - exists []. symmetry. apply app_nil_r.
Qed.

Lemma quiet_set_cache (f : InternalData -> ParameterCache) :
  quiet (modifyData (fun d => set_cache (f d) d)).
Proof.
  intros s. unfold_monad. simpl. repeat split.
  - exists (activePipelineState (internalData s)), (f (internalData s)).
    destruct (internalData s); reflexivity.
  - exists []. symmetry. apply app_nil_r.
  - exists []. symmetry. apply app_nil_r.
Qed.

Lemma quiet_bindInterfaceBlocks (blocks : list InterfaceBlock) (forced : bool) :
  quiet (bindInterfaceBlocks blocks forced).
Proof.
  induction blocks as [|block rest IH]; simpl.
  - apply quiet_ret.
  - apply quiet_bind; [|intros _; exact IH].
    destruct (_ && _); [apply quiet_deviceCall | apply quiet_ret].
Qed.

Lemma quiet_applyChanges_try (forced : bool) : quiet (applyChanges_try forced).
Proof.
  unfold applyChanges_try.
  repeat first
    [ apply quiet_bind; [|intros ?]
    | apply quiet_getData
    | apply quiet_deviceCall
    | apply quiet_GET_GL_ERROR
    | apply quiet_bindInterfaceBlocks
    | apply quiet_ret
    | match goal with |- quiet (if ?b then _ else _) => destruct b end
    | apply quiet_set_activePipelineState
    | progress cbv [cache_setFrameData cache_setMaterialData cache_setLightSetData
                    cache_setTextureSetData]
    | apply quiet_set_cache ].
Qed.

(** [applyChanges] always returns.  In the history it leaves its two
    markers around the state-setting commands of its collaborators; of
    the context data it changes the active pipeline state and the
    parameter cache only. *)
Lemma applyChanges_returns (forced : bool) (s : State) :
  exists (s' : State) (cmds : list StateCommand),
    applyChanges forced s = (Returns tt, s') /\
    history s' =
      (history s ++ EvEnterApplyChanges forced :: map EvState cmds ++ [EvLeaveApplyChanges])%list /\
    (exists a c, internalData s' = set_cache c (set_activePipelineState a (internalData s))) /\
    (exists w, warnings s' = (warnings s ++ w)%list) /\
    feedbackSupportRequested s' = feedbackSupportRequested s.
Proof.
  pose (handler := fun e => WARN ("Problem detected while setting rendering internalData: "
                                  ++ what e)).
  pose (caught := try_catch (applyChanges_try forced) handler).
  assert (Hq : quiet caught).
  { apply quiet_try_catch; [apply quiet_applyChanges_try | intros e; apply quiet_WARN]. }
  assert (Hret : forall s0, fst (caught s0) = Returns tt).
  { intros s0. subst caught handler. unfold_monad.
    destruct (applyChanges_try forced s0) as [[[]|e] s1]; reflexivity. }
  assert (Hgl : forall s0, fst (GET_GL_ERROR s0) = Returns tt).
  { intros s0. unfold GET_GL_ERROR. destruct (glGetError _); reflexivity. }
  set (s0 := set_history (history s ++ [EvEnterApplyChanges forced]) s).
  destruct (Hq s0) as ((a1 & c1 & Hd1) & (w1 & Hw1) & (e1 & Hh1) & Hf1).
  specialize (Hret s0).
  destruct (caught s0) as [r1 s1] eqn:Hcaught. simpl in *. subst r1.
  destruct (quiet_GET_GL_ERROR s1) as ((a2 & c2 & Hd2) & (w2 & Hw2) & (e2 & Hh2) & Hf2).
  specialize (Hgl s1).
  destruct (GET_GL_ERROR s1) as [r2 s2] eqn:Hget. simpl in *. subst r2.
  exists (set_history (history s2 ++ [EvLeaveApplyChanges]) s2), (e1 ++ e2)%list.
  split; [|repeat split].
  - unfold applyChanges. fold handler. fold caught.
    unfold mbind, M_bind, bind, emit. fold s0. rewrite Hcaught, Hget. reflexivity.
  - simpl. rewrite Hh2, Hh1. subst s0. simpl.
    rewrite map_app, <- !app_assoc. reflexivity.
  - exists a2, c2. simpl. rewrite Hd2, Hd1. reflexivity.
  - exists (w1 ++ w2)%list. simpl. rewrite Hw2, Hw1. subst s0. simpl.
    symmetry. apply app_assoc.
  - simpl. rewrite Hf2, Hf1. reflexivity.
Qed.

(** *** Stack isolation *)

Lemma keeps_ret {A : Type} (C : Category) (a : A) : keeps C (mret a).
Proof. intros s. split; reflexivity. Qed.

Lemma keeps_throw {A : Type} (C : Category) (e : exception) : keeps C (@throw _ A e).
Proof. intros s. split; reflexivity. Qed.

Lemma keeps_getData (C : Category) : keeps C getData.
Proof. intros s. split; reflexivity. Qed.

Lemma keeps_WARN (C : Category) (msg : string) : keeps C (WARN msg).
Proof. intros s. split; reflexivity. Qed.

Lemma keeps_emit (C : Category) (evs : list Event) : keeps C (emit evs).
Proof. intros s. split; reflexivity. Qed.

Lemma keeps_gl (C : Category) (c : GlCommand) : keeps C (gl c).
Proof. intros s. split; reflexivity. Qed.

Lemma keeps_deviceCall {A : Type} (C : Category) (r : DeviceResult A) : keeps C (deviceCall r).
Proof. intros s. split; reflexivity. Qed.

Lemma keeps_GET_GL_ERROR (C : Category) : keeps C GET_GL_ERROR.
Proof.
  intros s. unfold GET_GL_ERROR. destruct (glGetError _); split; reflexivity.
Qed.

Lemma keeps_bind {A B : Type} (C : Category) (m : M A) (k : A -> M B) :
  keeps C m -> (forall a, keeps C (k a)) -> keeps C (m ≫= k).
Proof.
  intros Hm Hk s. unfold_monad. destruct (Hm s) as [Ht Hs].
  destruct (m s) as [[a|e] s1]; simpl in *.
  - destruct (Hk a s1) as [Ht' Hs']. split; congruence.
  - split; assumption.
Qed.

Lemma keeps_modifyData (C : Category) (f : InternalData -> InternalData) :
  (forall d, target C (f d) = target C d /\ stack C (f d) = stack C d) ->
  keeps C (modifyData f).
Proof. intros Hf s. apply Hf. Qed.

Lemma keeps_quiet {A : Type} (C : Category) (m : M A) : quiet m -> keeps C m.
Proof.
  intros Hq s. destruct (Hq s) as ((a & c & Hd) & _). rewrite Hd.
  destruct C; split; reflexivity.
Qed.

Lemma keeps_applyChanges (C : Category) (forced : bool) : keeps C (applyChanges forced).
Proof.
  intros s. destruct (applyChanges_returns forced s) as (s' & cmds & Heq & _ & (a & c & Hd) & _).
  rewrite Heq. simpl. rewrite Hd. destruct C; split; reflexivity.
Qed.

Lemma keeps_requestTransformFeedbackSupport (C : Category) :
  keeps C requestTransformFeedbackSupport.
Proof.
  intros s. unfold requestTransformFeedbackSupport.
  destruct (feedbackSupportRequested s), isTransformFeedbackSupported; split; reflexivity.
Qed.

(** Lookups in the per-unit arrays at another unit. *)
Lemma unit_lookup_alter {X : Type} (f : X -> X) (l : list X) (u u' : nat) :
  u <> u' -> alter f u' l !! u = l !! u.
Proof. intros Hne. apply list_lookup_alter_ne. congruence. Qed.

Lemma unit_lookup_insert {X : Type} (x : X) (l : list X) (u u' : nat) :
  u <> u' -> <[u' := x]> l !! u = l !! u.
Proof. intros Hne. apply list_lookup_insert_ne. congruence. Qed.

Ltac keeps_side C :=
  let d := fresh "d" in
  intros d; destruct C; try contradiction; split; try reflexivity;
  simpl; unfold ps_setTexture; simpl;
  rewrite ?unit_lookup_alter, ?unit_lookup_insert by congruence; reflexivity.

Ltac keeps_step C :=
  first
    [ apply keeps_ret
    | apply keeps_throw
    | apply keeps_getData
    | apply keeps_WARN
    | apply keeps_gl
    | apply keeps_deviceCall
    | apply keeps_GET_GL_ERROR
    | apply keeps_applyChanges
    | apply keeps_requestTransformFeedbackSupport
    | apply keeps_bind; [|intros ?]
    | apply keeps_modifyData; keeps_side C
    | match goal with
      | |- keeps _ (if ?b then _ else _) => destruct b
      | |- keeps _ (match ?x with _ => _ end) => destruct x
      end
    | progress cbv zeta
    | progress unfold_scoped ].

(** Stack isolation: no operation on a category changes the target value
    or the stack of another category. *)
Theorem stack_isolation (C C' : Category) :
  C <> C' ->
  keeps C (push C') /\ (forall v : argT C', keeps C (set C' v)) /\ keeps C (pop C').
Proof.
  intros Hne.
  destruct C'; cbn [push set pop argT valueT];
    (split; [|split; [intros v|]]); repeat keeps_step C.
Qed.

(** *** Total correctness of computations that do not throw *)

Lemma hoare_bind {A B : Type} (P : State -> Prop) (m : M A) (Q : A -> State -> Prop)
    (k : A -> M B) (R : B -> State -> Prop) :
  hoare P m Q -> (forall a, hoare (Q a) (k a) R) -> hoare P (m ≫= k) R.
Proof.
  intros Hm Hk s HP. destruct (Hm s HP) as (a & s1 & Heq & HQ).
  destruct (Hk a s1 HQ) as (b & s2 & Heq2 & HR).
  exists b, s2. split; [|exact HR]. unfold_monad. rewrite Heq. exact Heq2.
Qed.

Lemma hoare_weaken {A : Type} (P P' : State -> Prop) (m : M A) (Q Q' : A -> State -> Prop) :
  hoare P' m Q' -> (forall s, P s -> P' s) -> (forall a s, Q' a s -> Q a s) -> hoare P m Q.
Proof.
  intros Hm HP HQ s Hs. destruct (Hm s (HP s Hs)) as (a & s' & Heq & Hq). eauto.
Qed.

Lemma hoare_ret {A : Type} (P : State -> Prop) (a : A) : hoare P (mret a) (fun _ => P).
Proof. intros s HP. exists a, s. split; [reflexivity | exact HP]. Qed.

Lemma hoare_getData (P : State -> Prop) :
  hoare P getData (fun d s => P s /\ d = internalData s).
Proof. intros s HP. exists (internalData s), s. repeat split. exact HP. Qed.

Lemma hoare_modifyData (Pd Qd : InternalData -> Prop) (f : InternalData -> InternalData) :
  (forall d, Pd d -> Qd (f d)) ->
  hoare (on_data Pd) (modifyData f) (fun _ => on_data Qd).
Proof.
  intros Hf s HP. eexists tt, _. split; [reflexivity|]. apply Hf, HP.
Qed.

Lemma silent_hoare {A : Type} (m : M A) (Pd : InternalData -> Prop) :
  silent m -> hoare (on_data Pd) m (fun _ => on_data Pd).
Proof.
  intros Hm s HP. destruct (Hm s) as (a & s' & Heq & Hd).
  exists a, s'. split; [exact Heq|]. unfold on_data. rewrite Hd. exact HP.
Qed.

Lemma silent_ret {A : Type} (a : A) : silent (mret a).
Proof. intros s. exists a, s. split; reflexivity. Qed.

Lemma silent_bind {A B : Type} (m : M A) (k : A -> M B) :
  silent m -> (forall a, silent (k a)) -> silent (m ≫= k).
Proof.
  intros Hm Hk s. destruct (Hm s) as (a & s1 & Heq & Hd).
  destruct (Hk a s1) as (b & s2 & Heq2 & Hd2).
  exists b, s2. split; [|congruence]. unfold_monad. rewrite Heq. exact Heq2.
Qed.

Lemma silent_WARN (msg : string) : silent (WARN msg).
Proof. intros s. eexists tt, _. split; reflexivity. Qed.

Lemma silent_gl (c : GlCommand) : silent (gl c).
Proof. intros s. eexists tt, _. split; reflexivity. Qed.

Lemma silent_GET_GL_ERROR : silent GET_GL_ERROR.
Proof.
  intros s. unfold GET_GL_ERROR. destruct (glGetError _).
  - apply silent_WARN.
  - exists tt, s. split; reflexivity.
Qed.

Lemma silent_prepareForBinding (t : pointer) :
  textures_available -> silent (deviceCall (Texture_prepareForBinding t)).
Proof.
  intros Hav s. destruct (Hav t) as (cmds & handle & Heq).
  unfold deviceCall. rewrite Heq. eexists handle, _. split; reflexivity.
Qed.

Lemma silent_requestTransformFeedbackSupport : silent requestTransformFeedbackSupport.
Proof.
  intros s. unfold requestTransformFeedbackSupport.
  destruct (feedbackSupportRequested s), isTransformFeedbackSupported;
    eexists _, _; split; reflexivity.
Qed.

(** [applyChanges] keeps every property of the context data that does
    not depend on the active pipeline state and the parameter cache. *)
Lemma hoare_applyChanges (forced : bool) (Pd : InternalData -> Prop) :
  (forall d a c, Pd d -> Pd (set_cache c (set_activePipelineState a d))) ->
  hoare (on_data Pd) (applyChanges forced) (fun _ => on_data Pd).
Proof.
  intros Hinv s HP.
  destruct (applyChanges_returns forced s) as (s' & cmds & Heq & _ & (a & c & Hd) & _).
  exists tt, s'. split; [exact Heq|]. unfold on_data. rewrite Hd. apply Hinv, HP.
Qed.

(** *** Effects of push, set and pop on their own category *)

Ltac simple_effect :=
  unfold_scoped; unfold_monad; simpl in *;
  repeat match goal with
         | Hx : Some _ = Some _ |- _ => injection Hx as Hx
         end;
  subst; eexists; repeat split; simpl; try reflexivity; try assumption; try congruence;
  try (match goal with Hok : arrays_ok _ |- _ => apply Hok end).

Lemma arrays_ok_lookup_image (d : InternalData) (u : nat) :
  arrays_ok d -> (u < MAX_BOUND_IMAGES)%nat ->
  (exists st, imageStacks d !! u = Some st) /\ (exists v, boundImages d !! u = Some v).
Proof.
  intros (H1 & H2 & _) Hu. split; apply lookup_lt_is_Some_2; lia.
Qed.

(** [push] saves the target value on top of the stack. *)
Lemma push_effect (C : Category) (s : State) (cur : valueT C) (st : list (valueT C)) :
  arrays_ok (internalData s) ->
  target C (internalData s) = Some cur ->
  stack C (internalData s) = Some st ->
  exists s' : State,
    push C s = (Returns tt, s') /\
    target C (internalData s') = Some cur /\
    stack C (internalData s') = Some (cur :: st) /\
    arrays_ok (internalData s').
Proof.
  intros Hok Ht Hs.
  destruct C; cbn [push]; try solve [simple_effect].
  - (* image unit *)
    simpl in Ht, Hs.
    destruct (unit_ <? MAX_BOUND_IMAGES)%nat eqn:Hu; [|discriminate].
    unfold_scoped. unfold_monad.
    destruct (MAX_BOUND_IMAGES <=? unit_)%nat eqn:Hle;
      [apply Nat.leb_le in Hle; apply Nat.ltb_lt in Hu; lia|].
    eexists; split; [reflexivity|]; split; [|split]; simpl; rewrite ?Hu.
    + exact Ht.
    + rewrite list_lookup_alter_eq, Hs, Ht. reflexivity.
    + destruct Hok as (H1 & H2 & H3 & H4 & H5). repeat split; simpl; try assumption.
      rewrite length_alter. assumption.
  - (* texture unit *)
    simpl in Ht, Hs.
    destruct (unit_ <? MAX_TEXTURES)%nat eqn:Hu; [|discriminate].
    unfold_scoped. unfold_monad.
    destruct (MAX_TEXTURES <=? unit_)%nat eqn:Hle;
      [apply Nat.leb_le in Hle; apply Nat.ltb_lt in Hu; lia|].
    eexists; split; [reflexivity|]; split; [|split]; simpl; rewrite ?Hu.
    + exact Ht.
    + rewrite list_lookup_alter_eq, Hs. unfold getTexture, ps_getTexture. rewrite Hu, Ht.
      reflexivity.
    + destruct Hok as (H1 & H2 & H3 & H4 & H5). repeat split; simpl; try assumption.
      rewrite length_alter. assumption.
Qed.

Lemma bind_returns {A B : Type} (m : M A) (k : A -> M B) (s s1 : State) (a : A) :
  m s = (Returns a, s1) -> (m ≫= k) s = k a s1.
Proof. intros Heq. unfold_monad. rewrite Heq. reflexivity. Qed.

Ltac silent_tac :=
  repeat first
    [ apply silent_ret
    | apply silent_WARN
    | apply silent_gl
    | apply silent_GET_GL_ERROR
    | apply silent_requestTransformFeedbackSupport
    | apply silent_prepareForBinding; assumption
    | apply silent_bind; [|intros ?]
    | match goal with
      | |- silent (if ?b then _ else _) => destruct b
      end
    | progress cbv zeta ].

Lemma assertCorrectImageUnit_ok (u : nat) (s : State) :
  (u <? MAX_BOUND_IMAGES)%nat = true -> assertCorrectImageUnit u s = (Returns tt, s).
Proof.
  intros Hu. unfold assertCorrectImageUnit.
  destruct (MAX_BOUND_IMAGES <=? u)%nat eqn:Hle; [|reflexivity].
  apply Nat.leb_le in Hle. apply Nat.ltb_lt in Hu. lia.
Qed.

Lemma at_MAX_TEXTURES_ok (u : nat) (s : State) :
  (u <? MAX_TEXTURES)%nat = true -> at_MAX_TEXTURES u s = (Returns tt, s).
Proof.
  intros Hu. unfold at_MAX_TEXTURES.
  destruct (MAX_TEXTURES <=? u)%nat eqn:Hle; [|reflexivity].
  apply Nat.leb_le in Hle. apply Nat.ltb_lt in Hu. lia.
Qed.

(** The part of [setBoundImage] that talks to the device. *)
Lemma setBoundImage_effect (u : nat) (iParam : ImageBindParameters) (s : State) :
  textures_available ->
  (u <? MAX_BOUND_IMAGES)%nat = true ->
  exists s' : State,
    setBoundImage u iParam s = (Returns tt, s') /\
    internalData s' =
      set_boundImages (<[u := iParam]> (boundImages (internalData s))) (internalData s).
Proof.
  intros Hav Hu. unfold setBoundImage.
  rewrite (bind_returns _ _ _ _ _ (assertCorrectImageUnit_ok u s Hu)).
  erewrite bind_returns by reflexivity.
  match goal with |- context [?rest (set_internalData ?d s)] =>
    assert (Hs : silent rest) by silent_tac;
    destruct (Hs (set_internalData d s)) as ([] & s' & Heq & Hd)
  end.
  exists s'. split; [exact Heq|]. rewrite Hd. reflexivity.
Qed.

Lemma setTexture_effect (u : nat) (t : pointer) (s : State) :
  textures_available ->
  (u <? MAX_TEXTURES)%nat = true ->
  exists s' : State,
    setTexture u t s = (Returns tt, s') /\
    internalData s' =
      set_enabledTextures
        (<[u := if negb (t =? nullptr) then 1 else 0]> (enabledTextures (internalData s)))
        (if negb (t =? getTexture u (internalData s))
         then set_targetPipelineState
                (ps_setTexture u t (targetPipelineState (internalData s))) (internalData s)
         else internalData s).
Proof.
  intros Hav Hu. unfold setTexture.
  erewrite bind_returns by reflexivity. cbv zeta.
  destruct (negb (t =? getTexture u (internalData s))) eqn:Hneq.
  - assert (Hprep : silent (if negb (t =? nullptr)
                            then deviceCall (Texture_prepareForBinding t);; mret tt
                            else mret tt)) by silent_tac.
    destruct (Hprep s) as ([] & s1 & Heq1 & Hd1).
    erewrite bind_returns; [|erewrite bind_returns by exact Heq1; reflexivity].
    rewrite (bind_returns _ _ _ _ _ (at_MAX_TEXTURES_ok u _ Hu)).
    eexists. split; [reflexivity|]. simpl. rewrite Hd1. reflexivity.
  - erewrite bind_returns by reflexivity.
    rewrite (bind_returns _ _ _ _ _ (at_MAX_TEXTURES_ok u _ Hu)).
    eexists. split; [reflexivity|]. reflexivity.
Qed.

Lemma silent_bind_buffer (b : pointer) (t : Z) :
  buffers_available -> silent (deviceCall (BufferObject_bind b t)).
Proof.
  intros Hav s. destruct (Hav b t) as (cmds & Heq).
  unfold deviceCall. rewrite Heq. eexists tt, _. split; reflexivity.
Qed.

(** [_startTransformFeedback] applies the changes and records the mode. *)
Lemma startTransformFeedback_effect (mode : Z) (s : State) :
  exists (s' : State) a c,
    _startTransformFeedback mode s = (Returns tt, s') /\
    internalData s' =
      set_activeFeedbackStatus (fst (activeFeedbackStatus (internalData s)), mode)
        (set_cache c (set_activePipelineState a (internalData s))).
Proof.
  unfold _startTransformFeedback.
  destruct (applyChanges_returns false s) as (s1 & cmds & Heq1 & _ & (a & c & Hd1) & _).
  rewrite (bind_returns _ _ _ _ _ Heq1).
  destruct (silent_requestTransformFeedbackSupport s1) as (b & s2 & Heq2 & Hd2).
  rewrite (bind_returns _ _ _ _ _ Heq2).
  assert (Hs : silent (if b
                       then if mode =? 0 then gl glEndTransformFeedback
                            else gl (glBeginTransformFeedback mode)
                       else mret tt)) by silent_tac.
  destruct (Hs s2) as ([] & s3 & Heq3 & Hd3).
  rewrite (bind_returns _ _ _ _ _ Heq3).
  eexists _, a, c. split; [reflexivity|]. simpl. rewrite Hd3, Hd2, Hd1. reflexivity.
Qed.

Lemma setTransformFeedbackBuffer_effect (buffer : pointer) (s : State) :
  buffers_available ->
  exists (s' : State) a c,
    setTransformFeedbackBuffer buffer s = (Returns tt, s') /\
    internalData s' =
      set_activeFeedbackStatus (buffer, snd (activeFeedbackStatus (internalData s)))
        (set_cache c (set_activePipelineState a (internalData s))).
Proof.
  intros Hav. unfold setTransformFeedbackBuffer.
  destruct (applyChanges_returns false s) as (s1 & cmds & Heq1 & _ & (a & c & Hd1) & _).
  rewrite (bind_returns _ _ _ _ _ Heq1).
  destruct (silent_requestTransformFeedbackSupport s1) as (b & s2 & Heq2 & Hd2).
  rewrite (bind_returns _ _ _ _ _ Heq2).
  assert (Hs : silent (if b
                       then if negb (buffer =? nullptr)
                            then deviceCall (BufferObject_bind buffer GL_TRANSFORM_FEEDBACK_BUFFER_EXT)
                            else gl (glBindBuffer GL_TRANSFORM_FEEDBACK_BUFFER_EXT 0)
                       else mret tt)).
  { destruct b; [|apply silent_ret].
    destruct (negb _); [apply silent_bind_buffer; exact Hav | apply silent_gl]. }
  destruct (Hs s2) as ([] & s3 & Heq3 & Hd3).
  rewrite (bind_returns _ _ _ _ _ Heq3).
  erewrite bind_returns by reflexivity.
  erewrite bind_returns by reflexivity.
  match goal with |- context [_startTransformFeedback ?m ?st] =>
    destruct (startTransformFeedback_effect m st) as (s4 & a' & c' & Heq4 & Hd4)
  end.
  exists s4, a', c'. split; [exact Heq4|]. rewrite Hd4. simpl.
  rewrite Hd3, Hd2, Hd1. reflexivity.
Qed.

Lemma popTransformFeedbackBufferStatus_effect (s : State)
    (top : feedbackBufferStatus_t) (rest : list feedbackBufferStatus_t) :
  feedbackStack (internalData s) = top :: rest ->
  exists (s' : State) a c,
    popTransformFeedbackBufferStatus s = (Returns tt, s') /\
    internalData s' =
      set_activeFeedbackStatus top (set_cache c (set_activePipelineState a (internalData s))).
Proof.
  intros Hstack. unfold popTransformFeedbackBufferStatus.
  erewrite bind_returns by reflexivity. rewrite Hstack.
  unfold stopTransformFeedback.
  destruct (startTransformFeedback_effect 0 s) as (s1 & a1 & c1 & Heq1 & Hd1).
  rewrite (bind_returns _ _ _ _ _ Heq1).
  erewrite bind_returns by reflexivity.
  match goal with |- context [_startTransformFeedback ?m ?st] =>
    destruct (startTransformFeedback_effect m st) as (s2 & a2 & c2 & Heq2 & Hd2)
  end.
  exists s2, a2, c2. split; [exact Heq2|]. rewrite Hd2. simpl. rewrite Hd1.
  destruct top; reflexivity.
Qed.

(** [set] makes the value asked for the target value; the stack stays. *)
Lemma set_effect (C : Category) (v : argT C) (s : State) :
  arrays_ok (internalData s) ->
  textures_available -> buffers_available ->
  is_Some (stack C (internalData s)) ->
  exists s' : State,
    set C v s = (Returns tt, s') /\
    target C (internalData s') = Some (value_of C v (internalData s)) /\
    stack C (internalData s') = stack C (internalData s) /\
    arrays_ok (internalData s').
Proof.
  intros Hok Htex Hbuf Hunit.
  destruct C; cbn [set argT valueT] in *; try solve [simple_effect].
  - (* image unit *)
    simpl in Hunit. destruct (unit_ <? MAX_BOUND_IMAGES)%nat eqn:Hu;
      [|destruct Hunit; discriminate].
    destruct (setBoundImage_effect unit_ v s Htex Hu) as (s' & Heq & Hd).
    exists s'. split; [exact Heq|]. rewrite Hd. simpl. rewrite Hu.
    destruct Hok as (H1 & H2 & H3 & H4 & H5).
    split; [|split; [reflexivity|]].
    + apply list_lookup_insert_eq. apply Nat.ltb_lt in Hu. lia.
    + repeat split; simpl; unfold TextureSet in *; try assumption; rewrite ?length_insert; assumption.
  - (* texture unit *)
    simpl in Hunit. destruct (unit_ <? MAX_TEXTURES)%nat eqn:Hu;
      [|destruct Hunit; discriminate].
    destruct (setTexture_effect unit_ v s Htex Hu) as (s' & Heq & Hd).
    exists s'. split; [exact Heq|]. rewrite Hd.
    destruct Hok as (H1 & H2 & H3 & H4 & H5).
    assert (Hlt : (unit_ < length (ps_textures (targetPipelineState (internalData s))))%nat)
      by (apply Nat.ltb_lt in Hu; lia).
    destruct (negb (v =? getTexture unit_ (internalData s))) eqn:Hneq; simpl; rewrite Hu.
    + split; [|split; [reflexivity|]].
      * apply list_lookup_insert_eq. exact Hlt.
      * repeat split; simpl; unfold TextureSet in *; try assumption; rewrite ?length_insert; assumption.
    + split; [|split; [reflexivity|]].
      * apply negb_false_iff, Z.eqb_eq in Hneq. subst v.
        unfold getTexture, ps_getTexture. rewrite Hu.
        destruct (lookup_lt_is_Some_2 _ _ Hlt) as (x & Hx). rewrite Hx. reflexivity.
      * repeat split; simpl; unfold TextureSet in *; try assumption; rewrite ?length_insert; assumption.
  - (* transform feedback *)
    destruct (setTransformFeedbackBuffer_effect v s Hbuf) as (s' & a & c & Heq & Hd).
    exists s'. split; [exact Heq|]. rewrite Hd. simpl.
    repeat split; apply Hok.
Qed.

(** [pop] on a stack [top :: rest] makes [top] the target value.  It
    leaves [rest] as the stack, except for shaders and transform
    feedback, where [top] stays on the stack. *)
Lemma pop_effect (C : Category) (top : valueT C) (rest : list (valueT C)) (s : State) :
  C <> Material ->
  arrays_ok (internalData s) ->
  textures_available ->
  stack C (internalData s) = Some (top :: rest) ->
  exists s' : State,
    pop C s = (Returns tt, s') /\
    target C (internalData s') = Some top /\
    stack C (internalData s') =
      Some match C with
           | Shader | TransformFeedback => top :: rest
           | _ => rest
           end /\
    arrays_ok (internalData s').
Proof.
  intros Hmat Hok Htex Hstack.
  destruct C; try contradiction; cbn [pop valueT] in *;
    try solve [simpl in Hstack; injection Hstack as Hstack;
               unfold_scoped; unfold_monad; rewrite Hstack; simpl;
               eexists; repeat split; simpl; rewrite ?Hstack; try reflexivity;
               apply Hok].
  - (* image unit *)
    simpl in Hstack. destruct (unit_ <? MAX_BOUND_IMAGES)%nat eqn:Hu; [|discriminate].
    unfold popBoundImage.
    rewrite (bind_returns _ _ _ _ _ (assertCorrectImageUnit_ok unit_ s Hu)).
    erewrite bind_returns by reflexivity. rewrite Hstack. simpl.
    destruct (setBoundImage_effect unit_ top s Htex Hu) as (s1 & Heq & Hd).
    rewrite (bind_returns _ _ _ _ _ Heq).
    eexists. split; [reflexivity|]. simpl. rewrite Hd. simpl. rewrite Hu.
    destruct Hok as (H1 & H2 & H3 & H4 & H5).
    split; [|split].
    + apply list_lookup_insert_eq. apply Nat.ltb_lt in Hu. lia.
    + rewrite list_lookup_alter_eq, Hstack. reflexivity.
    + repeat split; simpl; try assumption;
        rewrite ?length_alter, ?length_insert; assumption.
  - (* texture unit *)
    simpl in Hstack. destruct (unit_ <? MAX_TEXTURES)%nat eqn:Hu; [|discriminate].
    unfold popTexture.
    rewrite (bind_returns _ _ _ _ _ (at_MAX_TEXTURES_ok unit_ s Hu)).
    erewrite bind_returns by reflexivity. rewrite Hstack. simpl.
    destruct (setTexture_effect unit_ top s Htex Hu) as (s1 & Heq & Hd).
    rewrite (bind_returns _ _ _ _ _ Heq).
    eexists. split; [reflexivity|]. simpl. rewrite Hd.
    destruct Hok as (H1 & H2 & H3 & H4 & H5).
    assert (Hlt : (unit_ < length (ps_textures (targetPipelineState (internalData s))))%nat)
      by (apply Nat.ltb_lt in Hu; lia).
    destruct (negb (top =? getTexture unit_ (internalData s))) eqn:Hneq; simpl; rewrite Hu.
    + split; [|split].
      * apply list_lookup_insert_eq. exact Hlt.
      * rewrite list_lookup_alter_eq, Hstack. reflexivity.
      * repeat split; simpl; unfold TextureSet in *; try assumption;
          rewrite ?length_alter, ?length_insert; assumption.
    + split; [|split].
      * apply negb_false_iff, Z.eqb_eq in Hneq. subst top.
        unfold getTexture, ps_getTexture. rewrite Hu.
        destruct (lookup_lt_is_Some_2 _ _ Hlt) as (x & Hx). rewrite Hx. reflexivity.
      * rewrite list_lookup_alter_eq, Hstack. reflexivity.
      * repeat split; simpl; unfold TextureSet in *; try assumption;
          rewrite ?length_alter, ?length_insert; assumption.
  - (* transform feedback *)
    simpl in Hstack. injection Hstack as Hstack.
    destruct (popTransformFeedbackBufferStatus_effect s top rest Hstack)
      as (s' & a & c & Heq & Hd).
    exists s'. split; [exact Heq|]. rewrite Hd. simpl. rewrite Hstack.
    repeat split; apply Hok.
Qed.

Lemma stack_exists (C : Category) (d : InternalData) :
  arrays_ok d -> is_Some (target C d) -> is_Some (stack C d).
Proof.
  intros (H1 & H2 & H3 & H4 & H5) Ht.
  destruct C; simpl in *; try (eexists; reflexivity).
  - destruct (unit_ <? MAX_BOUND_IMAGES)%nat eqn:Hu; [|destruct Ht; discriminate].
    apply lookup_lt_is_Some_2. apply Nat.ltb_lt in Hu. lia.
  - destruct (unit_ <? MAX_TEXTURES)%nat eqn:Hu; [|destruct Ht; discriminate].
    apply lookup_lt_is_Some_2. apply Nat.ltb_lt in Hu. lia.
Qed.

(** For every category but the material, [push; set v; pop] returns with
    the target value it started from, as long as the device provides the
    textures and buffers it is asked for. *)
Lemma pushSetPop_restores (C : Category) (v : argT C) (s : State) (cur : valueT C) :
  C <> Material ->
  arrays_ok (internalData s) ->
  textures_available -> buffers_available ->
  target C (internalData s) = Some cur ->
  exists s' : State,
    (push C;; set C v;; pop C) s = (Returns tt, s') /\
    target C (internalData s') = Some cur.
Proof.
  intros Hmat Hok Htex Hbuf Hcur.
  destruct (stack_exists C _ Hok (ex_intro _ cur Hcur)) as (st & Hst).
  destruct (push_effect C s cur st Hok Hcur Hst) as (s1 & Heq1 & Ht1 & Hs1 & Hok1).
  destruct (set_effect C v s1 Hok1 Htex Hbuf (ex_intro _ _ Hs1)) as (s2 & Heq2 & Ht2 & Hs2 & Hok2).
  rewrite Hs1 in Hs2.
  destruct (pop_effect C cur st s2 Hmat Hok2 Htex Hs2) as (s3 & Heq3 & Ht3 & _).
  exists s3. split; [|exact Ht3].
  rewrite (bind_returns _ _ _ _ _ Heq1). rewrite (bind_returns _ _ _ _ _ Heq2). exact Heq3.
Qed.

End StackProperties.

(** ** [applyChanges] before every use of the device *)

Section Ordering.
Context `{Collaborators}.




Lemma emits_weaken {A : Type} (pre pre' : bool) (m : M A) (post post' : A -> bool) :
  emits pre' m post' ->
  (pre' = true -> pre = true) -> (forall a, post a = true -> post' a = true) ->
  emits pre m post.
Proof.
  intros Hm Hpre Hpost s. destruct (Hm s) as (evs & Hh & Hscan).
  exists evs. split; [exact Hh|]. intros b Hb.
  destruct (Hscan b (fun Hp => Hb (Hpre Hp))) as (b' & Hs & Hp). eauto.
Qed.
















Lemma emits_relax {A : Type} (pre : bool) (m : M A) (post : A -> bool) :
  emits false m post -> emits pre m post.
Proof.
  intros Hm. apply (emits_weaken pre false m post post Hm); [discriminate | auto].
Qed.



























End Ordering.

(** ** The light registry *)

Section Lights.
Context `{Collaborators}.

(** *** The comparator *)

Lemma memcmp_refl (l : list byte) (n : nat) : memcmp l l n = 0.
Proof.
  revert l. induction n as [|n IH]; intros [|a l]; simpl; try reflexivity.
  rewrite N.ltb_irrefl. apply IH.
Qed.

Lemma equivalent_refl (l : LightParameters) : equivalent l l = true.
Proof. unfold equivalent, LightCompare. rewrite memcmp_refl. reflexivity. Qed.

Lemma memcmp_opp (l1 l2 : list byte) (n : nat) : memcmp l2 l1 n = - memcmp l1 l2 n.
Proof.
  revert l1 l2. induction n as [|n IH]; intros [|a l1] [|b l2]; simpl; try reflexivity.
  destruct (N.ltb_spec (Byte.to_N a) (Byte.to_N b)), (N.ltb_spec (Byte.to_N b) (Byte.to_N a));
    try reflexivity; try lia. apply IH.
Qed.

Lemma to_N_inj (a b : byte) : Byte.to_N a = Byte.to_N b -> a = b.
Proof.
  intros Heq. apply (f_equal Byte.of_N) in Heq. rewrite !Byte.of_to_N in Heq. congruence.
Qed.

(** [memcmp] is zero exactly on equal bytes. *)
Lemma memcmp_zero (l1 l2 : list byte) (n : nat) :
  memcmp l1 l2 n = 0 <-> take n l1 = take n l2.
Proof.
  revert l1 l2. induction n as [|n IH]; intros [|a l1] [|b l2]; simpl;
    try (split; [reflexivity | reflexivity]); try (split; [lia | discriminate]).
  destruct (N.ltb_spec (Byte.to_N a) (Byte.to_N b)) as [Hab|Hab].
  - split; [lia|]. intros Heq. injection Heq as -> _. lia.
  - destruct (N.ltb_spec (Byte.to_N b) (Byte.to_N a)) as [Hba|Hba].
    + split; [lia|]. intros Heq. injection Heq as -> _. lia.
    + assert (a = b) by (apply to_N_inj; lia). subst b.
      rewrite IH. split; [intros ->; reflexivity | intros Heq; injection Heq; auto].
Qed.

(** Descriptor identity is byte-wise equality of the object
    representations. *)
Lemma equivalent_bytes (l1 l2 : LightParameters) :
  equivalent l1 l2 = true <->
  take sizeof_LightParameters l1 = take sizeof_LightParameters l2.
Proof.
  rewrite <- memcmp_zero. unfold equivalent, LightCompare.
  rewrite (memcmp_opp l1 l2). rewrite andb_true_iff, !negb_true_iff, !Z.ltb_ge. lia.
Qed.

(** *** The registry *)

Lemma registry_find_emplace (light : LightParameters) (id : Z)
    (reg : list (LightParameters * Z)) :
  registry_find light reg = None ->
  registry_find light (registry_emplace light id reg) = Some id.
Proof.
  induction reg as [|[key v] reg IH]; simpl.
  - intros _. rewrite equivalent_refl. reflexivity.
  - destruct (equivalent key light) eqn:Heq; [discriminate|]. intros Hnone.
    destruct (LightCompare light key) eqn:Hlk.
    + simpl. rewrite equivalent_refl. reflexivity.
    + destruct (LightCompare key light) eqn:Hkl.
      * simpl. rewrite Heq. apply IH, Hnone.
      * unfold equivalent in Heq. rewrite Hlk, Hkl in Heq. discriminate.
Qed.

(** Registering a descriptor leaves the ids of the others alone. *)
Lemma registry_find_emplace_other (light other : LightParameters) (id : Z)
    (reg : list (LightParameters * Z)) :
  equivalent light other = false ->
  registry_find light reg = None ->
  registry_find other (registry_emplace light id reg) = registry_find other reg.
Proof.
  intros Hne. induction reg as [|[key v] reg IH]; simpl.
  - intros _. rewrite Hne. reflexivity.
  - destruct (equivalent key light) eqn:Heq; [discriminate|]. intros Hnone.
    destruct (LightCompare light key) eqn:Hlk.
    + simpl. rewrite Hne. reflexivity.
    + destruct (LightCompare key light) eqn:Hkl.
      * simpl. rewrite IH by exact Hnone. reflexivity.
      * reflexivity.
Qed.

(** *** The search loop *)

Lemma lightPosition_None (ls : list Z) (x : Z) (pos n : nat) :
  lightPosition ls x pos n = None <->
  forall i, (pos <= i < pos + n)%nat -> default 0 (ls !! i) <> x.
Proof.
  revert pos. induction n as [|n IH]; intros pos; simpl.
  - split; [intros _ i Hi; lia | reflexivity].
  - destruct (Z.eqb_spec (default 0 (ls !! pos)) x) as [Heq|Hne].
    + split; [discriminate|]. intros Hall. exfalso. apply (Hall pos); [lia | exact Heq].
    + rewrite IH. split; intros Hall i Hi.
      * destruct (decide (i = pos)) as [->|Hip]; [exact Hne | apply Hall; lia].
      * apply Hall. lia.
Qed.

Lemma lightPosition_Some (ls : list Z) (x : Z) (pos n p : nat) :
  lightPosition ls x pos n = Some p ->
  (pos <= p < pos + n)%nat /\ default 0 (ls !! p) = x.
Proof.
  revert pos. induction n as [|n IH]; intros pos; simpl; [discriminate|].
  destruct (Z.eqb_spec (default 0 (ls !! pos)) x) as [Heq|Hne].
  - intros [= <-]. split; [lia | exact Heq].
  - intros Hp. destruct (IH _ Hp) as [Hr Hx]. split; [lia | exact Hx].
Qed.

Lemma lookup_default_take (ls : list Z) (n i : nat) :
  (i < n)%nat -> (n <= length ls)%nat -> take n ls !! i = Some (default 0 (ls !! i)).
Proof.
  intros Hi Hn. rewrite lookup_take_lt by exact Hi.
  destruct (lookup_lt_is_Some_2 ls i ltac:(lia)) as (x & Hx). rewrite Hx. reflexivity.
Qed.

(** The loop finds nothing exactly when the id is not enabled. *)
Lemma lightPosition_not_active (set : LightSet) (x : Z) :
  LightSet_ok set ->
  lightPosition (lights set) x 0 (Z.to_nat (count set)) = None <-> x ∉ active set.
Proof.
  intros (Hc & Hlen & _). rewrite lightPosition_None. unfold active.
  assert (Hn : (Z.to_nat (count set) <= length (lights set))%nat).
  { rewrite Hlen. unfold MAX_ENABLED_LIGHTS in *. lia. }
  split.
  - intros Hall Hin. apply list_elem_of_lookup in Hin as (i & Hi).
    assert (Hlt : (i < Z.to_nat (count set))%nat).
    { apply lookup_lt_Some in Hi. rewrite length_take in Hi. lia. }
    rewrite lookup_default_take in Hi by assumption. injection Hi as Hi.
    apply (Hall i); [lia | exact Hi].
  - intros Hnot i Hi Heq. apply Hnot. apply list_elem_of_lookup. exists i.
    rewrite lookup_default_take by (try assumption; lia). rewrite Heq. reflexivity.
Qed.

Lemma lightPosition_active (set : LightSet) (x : Z) (p : nat) :
  LightSet_ok set ->
  lightPosition (lights set) x 0 (Z.to_nat (count set)) = Some p ->
  active set !! p = Some x /\ (p < Z.to_nat (count set))%nat.
Proof.
  intros (Hc & Hlen & _) Hp. apply lightPosition_Some in Hp as [Hr Hx].
  split; [|lia]. unfold active. rewrite lookup_default_take.
  - rewrite Hx. reflexivity.
  - lia.
  - rewrite Hlen. unfold MAX_ENABLED_LIGHTS in *. lia.
Qed.

(** *** Enabling and disabling by id *)

Lemma active_snoc (ls : list Z) (n : nat) (x : Z) :
  (n < length ls)%nat -> take (S n) (<[n := x]> ls) = (take n ls ++ [x])%list.
Proof.
  intros Hn. rewrite (take_S_r _ _ x) by (apply list_lookup_insert_eq; exact Hn).
  rewrite take_insert_ge by lia. reflexivity.
Qed.

(** [enableLight(uint8_t)]: nothing happens for an enabled id; a ninth
    id is refused with a warning; otherwise the id is appended. *)
Lemma enableLight_id_effect (x : Z) (s : State) :
  let set := activeLightSet (internalData s) in
  LightSet_ok set ->
  exists s' : State,
    enableLight_id x s = (Returns tt, s') /\
    lightRegistry (internalData s') = lightRegistry (internalData s) /\
    freeLightIds (internalData s') = freeLightIds (internalData s) /\
    cache (internalData s') = cache (internalData s) /\
    LightSet_ok (activeLightSet (internalData s')) /\
    (((x ∈ active set) /\ s' = s) \/
     ((x ∉ active set) /\ MAX_ENABLED_LIGHTS <= count set /\
      internalData s' = internalData s /\
      warnings s' = (warnings s ++ ["Cannot enable more lights; ignoring call."])%list) \/
     ((x ∉ active set) /\ count set < MAX_ENABLED_LIGHTS /\
      active (activeLightSet (internalData s')) = (active set ++ [x])%list /\
      warnings s' = warnings s)).
Proof.
  intros set Hok. unfold enableLight_id. unfold_monad. fold set.
  destruct (lightPosition (lights set) x 0 (Z.to_nat (count set))) as [p|] eqn:Hpos.
  - exists s. repeat split; try reflexivity; try apply Hok.
    left. split; [|reflexivity].
    destruct (lightPosition_active set x p Hok Hpos) as [Hp _].
    apply list_elem_of_lookup. eauto.
  - apply (lightPosition_not_active set x Hok) in Hpos.
    destruct (MAX_ENABLED_LIGHTS <=? count set) eqn:Hfull.
    + apply Z.leb_le in Hfull. eexists. repeat split; try reflexivity; try apply Hok.
      right. left. repeat split; [exact Hpos | unfold MAX_ENABLED_LIGHTS in *; lia].
    + apply Z.leb_gt in Hfull. destruct Hok as (Hc & Hlen & Hnd).
      assert (Hlt : (Z.to_nat (count set) < length (lights set))%nat).
      { rewrite Hlen. unfold MAX_ENABLED_LIGHTS in *. lia. }
      assert (Hact : active {| count := count set + 1;
                               lights := <[Z.to_nat (count set) := x]> (lights set) |}
                     = (active set ++ [x])%list).
      { unfold active. simpl. replace (Z.to_nat (count set + 1)) with (S (Z.to_nat (count set))) by lia.
        apply active_snoc. exact Hlt. }
      eexists. split; [reflexivity|]. simpl. fold set.
      split; [reflexivity|]. split; [reflexivity|]. split; [reflexivity|]. split.
      * split; [simpl; unfold MAX_ENABLED_LIGHTS in *; lia|].
        split; [simpl; rewrite length_insert; exact Hlen|].
        rewrite Hact. apply NoDup_app. split; [exact Hnd|].
        split; [|apply NoDup_singleton].
        intros y Hy Hy'. apply list_elem_of_singleton in Hy'. subst y. contradiction.
      * right. right. repeat split; [exact Hpos | exact Hfull | exact Hact].
Qed.

(** Swapping position [p] with the last enabled position [n] and
    shrinking the set to [n] elements drops the element at [p]. *)
Lemma active_swap_remove (ls : list Z) (p n : nat) (x : Z) :
  (p <= n)%nat -> (n < length ls)%nat -> ls !! p = Some x ->
  x :: take n (array_swap p n ls) ≡ₚ take (S n) ls.
Proof.
  intros Hpn Hn Hp. unfold array_swap. rewrite Hp. simpl.
  destruct (lookup_lt_is_Some_2 ls n Hn) as (y & Hy). rewrite Hy. simpl.
  rewrite (take_S_r ls n y Hy).
  destruct (decide (p = n)) as [->|Hne].
  - rewrite take_insert_ge by lia. rewrite take_insert_ge by lia.
    assert (x = y) by congruence. subst y.
    apply Permutation_cons_append.
  - assert (Hlt : (p < n)%nat) by lia.
    rewrite take_insert_lt by exact Hlt. rewrite take_insert_ge by lia.
    assert (Hp' : take n ls !! p = Some x) by (rewrite lookup_take_lt by exact Hlt; exact Hp).
    rewrite <- (take_drop_middle (take n ls) p x Hp') at 2.
    rewrite insert_take_drop by (rewrite length_take; lia).
    generalize (take p (take n ls)) (drop (S p) (take n ls)). intros A B.
    solve_Permutation.
Qed.

(** The two cases of [disableLight]. *)
Lemma disableLight_cases (lightNumber : Z) (s : State) :
  let set := activeLightSet (internalData s) in
  LightSet_ok set ->
  (lightNumber ∉ active set -> disableLight lightNumber s = (Returns tt, s)) /\
  (lightNumber ∈ active set ->
   exists (pos : nat) (s' : State),
     active set !! pos = Some lightNumber /\
     disableLight lightNumber s = (Returns tt, s') /\
     internalData s' =
       set_activeLightSet
         {| count := count set - 1;
            lights := array_swap pos (Z.to_nat (count set - 1)) (lights set) |}
         (internalData s) /\
     (lightNumber :: active (activeLightSet (internalData s')) ≡ₚ active set) /\
     (lightNumber ∉ active (activeLightSet (internalData s'))) /\
     lightRegistry (internalData s') = lightRegistry (internalData s) /\
     freeLightIds (internalData s') = freeLightIds (internalData s) /\
     warnings s' = warnings s /\
     history s' = history s).
Proof.
  intros set Hok. split.
  - intros Hnot. apply (lightPosition_not_active set lightNumber Hok) in Hnot.
    unfold disableLight. unfold_monad. fold set. rewrite Hnot. reflexivity.
  - intros Hin.
    destruct (lightPosition (lights set) lightNumber 0 (Z.to_nat (count set))) as [p|] eqn:Hpos;
      [|apply (lightPosition_not_active set lightNumber Hok) in Hpos; contradiction].
    destruct (lightPosition_active set lightNumber p Hok Hpos) as [Hp Hlt].
    destruct Hok as (Hc & Hlen & Hnd).
    assert (Hperm : lightNumber :: take (Z.to_nat (count set - 1))
                      (array_swap p (Z.to_nat (count set - 1)) (lights set)) ≡ₚ active set).
    { unfold active. replace (Z.to_nat (count set)) with (S (Z.to_nat (count set - 1))) by lia.
      apply active_swap_remove.
      - lia.
      - rewrite Hlen. unfold MAX_ENABLED_LIGHTS in *. lia.
      - unfold active in Hp. rewrite lookup_take_lt in Hp by exact Hlt. exact Hp. }
    exists p. eexists. split; [exact Hp|].
    split; [unfold disableLight; unfold_monad; fold set; rewrite Hpos; reflexivity|].
    simpl. fold set. split; [reflexivity|].
    split; [exact Hperm|]. split; [|repeat split].
    rewrite <- Hperm in Hnd. apply NoDup_cons in Hnd as [Hnot _]. exact Hnot.
Qed.


(** *** Enabling by descriptor *)

Lemma registerLight_returns (light : LightParameters) (s : State) :
  exists (id : Z) (s' : State),
    registerLight light s = (Returns id, s') /\
    activeLightSet (internalData s') = activeLightSet (internalData s) /\
    lightRegistry (internalData s') = lightRegistry (internalData s).
Proof.
  unfold registerLight. unfold_monad.
  destruct (freeLightIds (internalData s)); eexists _, _; repeat split.
Qed.

(** [enableLight(light)] returns the id the registry has for [light]
    afterwards, and enables it by [enableLight(id)]. *)
Lemma enableLight_returns (light : LightParameters) (s : State) :
  LightSet_ok (activeLightSet (internalData s)) ->
  exists (id : Z) (s1 s' : State),
    enableLight light s = (Returns id, s') /\
    activeLightSet (internalData s1) = activeLightSet (internalData s) /\
    registry_find light (lightRegistry (internalData s1)) = Some id /\
    (registry_find light (lightRegistry (internalData s)) = Some id \/
     registry_find light (lightRegistry (internalData s)) = None) /\
    enableLight_id id s1 = (Returns tt, s').
Proof.
  intros Hok. unfold enableLight.
  erewrite bind_returns by reflexivity.
  destruct (registry_find light (lightRegistry (internalData s))) as [id|] eqn:Hfind.
  - erewrite bind_returns by reflexivity.
    destruct (enableLight_id_effect id s Hok) as (s' & Heq & _).
    rewrite (bind_returns _ _ _ _ _ Heq).
    exists id, s, s'. repeat split; auto.
  - destruct (registerLight_returns light s) as (id & s0 & Heq0 & Hset0 & Hreg0).
    erewrite bind_returns;
      [|erewrite bind_returns by exact Heq0; erewrite bind_returns by reflexivity; reflexivity].
    set (s1 := set_internalData _ s0).
    assert (Hok1 : LightSet_ok (activeLightSet (internalData s1))).
    { subst s1. simpl. rewrite Hset0. exact Hok. }
    destruct (enableLight_id_effect id s1 Hok1) as (s' & Heq & _).
    rewrite (bind_returns _ _ _ _ _ Heq).
    exists id, s1, s'. split; [reflexivity|].
    split; [subst s1; simpl; exact Hset0|].
    split; [subst s1; simpl; rewrite Hreg0; apply registry_find_emplace, Hfind|].
    split; [right; reflexivity | exact Heq].
Qed.


(** *** The pool of hardware ids *)

Lemma slot_setParameter_records {R : Type} (index : Z) (r : R) (s : Slot R) :
  slot_ok s ->
  slot_records (slot_setParameter index r s) = <[index := r]> (slot_records s) /\
  slot_ok (slot_setParameter index r s).
Proof.
  intros Hok. unfold slot_ok, slot_records in *. simpl.
  rewrite list_lookup_insert_eq by exact Hok. rewrite length_insert. split; [reflexivity | exact Hok].
Qed.

Lemma initial_freeLightIds :
  freeLightIds (internalData initialState) = map Z.of_nat (seq 0 255).
Proof. vm_compute. reflexivity. Qed.

Lemma initial_slot_ok : slot_ok (slot_LightData (cache (internalData initialState))).
Proof. unfold slot_ok. vm_compute. lia. Qed.

(** [registerLight] with a free id: the first element of the set. *)
Lemma registerLight_free (light : LightParameters) (s : State) (id : Z) (rest : list Z) :
  freeLightIds (internalData s) = id :: rest ->
  exists s' : State,
    registerLight light s = (Returns id, s') /\
    freeLightIds (internalData s') = rest /\
    internalData s' =
      cache_setLightData id light (set_freeLightIds rest (internalData s)) /\
    warnings s' = warnings s /\ history s' = history s.
Proof.
  intros Hfree. unfold registerLight. unfold_monad. rewrite Hfree. simpl.
  eexists. repeat split; simpl; rewrite Hfree; reflexivity.
Qed.

(** [registerLight] without a free id: a warning and the id 255. *)
Lemma registerLight_exhausted (light : LightParameters) (s : State) :
  freeLightIds (internalData s) = [] ->
  registerLight light s =
    (Returns 255, set_warnings (warnings s ++ ["Cannot register more lights; ignoring call."]) s).
Proof.
  intros Hfree. unfold registerLight. unfold_monad. rewrite Hfree. reflexivity.
Qed.

Lemma registerLights_prefix (ls : list LightParameters) :
  forall (ids rest : list Z) (s : State),
    freeLightIds (internalData s) = (ids ++ rest)%list ->
    length ids = length ls ->
    NoDup ids ->
    slot_ok (slot_LightData (cache (internalData s))) ->
    exists s' : State,
      registerLights ls s = (Returns ids, s') /\
      freeLightIds (internalData s') = rest /\
      slot_ok (slot_LightData (cache (internalData s'))) /\
      (forall i id light, ids !! i = Some id -> ls !! i = Some light ->
                          lightData (internalData s') !! id = Some light) /\
      (forall id, id ∉ ids ->
                  lightData (internalData s') !! id = lightData (internalData s) !! id) /\
      lightRegistry (internalData s') = lightRegistry (internalData s) /\
      activeLightSet (internalData s') = activeLightSet (internalData s) /\
      warnings s' = warnings s /\ history s' = history s.
Proof.
  induction ls as [|light ls IH]; intros ids rest s Hfree Hlen Hnd Hslot.
  - destruct ids; [|discriminate]. exists s. simpl in *.
    repeat split; try assumption; try reflexivity.
    intros i id light Hi. rewrite lookup_nil in Hi. discriminate.
  - destruct ids as [|id ids]; [discriminate|]. simpl in Hfree, Hlen.
    apply NoDup_cons in Hnd as [Hnotin Hnd].
    destruct (registerLight_free light s id (ids ++ rest) Hfree)
      as (s1 & Heq1 & Hfree1 & Hd1 & Hw1 & Hh1).
    destruct (slot_setParameter_records id light
                (slot_LightData (cache (set_freeLightIds (ids ++ rest) (internalData s)))) Hslot)
      as [Hrec1 Hslot1].
    assert (Hslot1' : slot_ok (slot_LightData (cache (internalData s1))))
      by (rewrite Hd1; exact Hslot1).
    assert (Hdata1 : lightData (internalData s1) = <[id := light]> (lightData (internalData s)))
      by (rewrite Hd1; exact Hrec1).
    destruct (IH ids rest s1 Hfree1 ltac:(lia) Hnd Hslot1')
      as (s' & Heq & Hfree' & Hslot' & Hdata & Hother & Hreg & Hset & Hw & Hh).
    exists s'. split.
    { simpl. rewrite (bind_returns _ _ _ _ _ Heq1). rewrite (bind_returns _ _ _ _ _ Heq).
      reflexivity. }
    split; [exact Hfree'|]. split; [exact Hslot'|]. split; [|split; [|repeat split]].
    + intros [|i] id' light' Hi Hl; simpl in Hi, Hl.
      * injection Hi as <-. injection Hl as <-.
        rewrite (Hother id Hnotin), Hdata1. apply lookup_insert_eq.
      * apply (Hdata i); assumption.
    + intros id' Hnot. apply not_elem_of_cons in Hnot as [Hne Hnot].
      rewrite (Hother id' Hnot), Hdata1. apply lookup_insert_ne. congruence.
    + rewrite Hreg, Hd1. reflexivity.
    + rewrite Hset, Hd1. reflexivity.
    + congruence.
    + congruence.
Qed.

Lemma NoDup_initial_ids : NoDup (map Z.of_nat (seq 0 255)).
Proof.
  apply NoDup_fmap_2; [intros x y Hxy; lia|]. apply NoDup_ListNoDup, List.seq_NoDup.
Qed.

(** C6: the pool holds the ids 0..254 and [registerLight] hands out the
    lowest free one.  Registering 255 descriptors from a fresh context
    uses the ids 0..254 in order; the 256th registration warns, returns
    255 and leaves the context data, the 255 registered descriptors
    included, as they are. *)
Theorem registerLight_pool :
  freeLightIds (internalData initialState) = map Z.of_nat (seq 0 255) /\
  (forall (light : LightParameters) (s : State) (id : Z) (rest : list Z),
     freeLightIds (internalData s) = id :: rest ->
     StronglySorted Z.lt (freeLightIds (internalData s)) ->
     exists s' : State,
       registerLight light s = (Returns id, s') /\
       (forall x, x ∈ freeLightIds (internalData s) -> id <= x) /\
       freeLightIds (internalData s') = rest /\
       (slot_ok (slot_LightData (cache (internalData s))) ->
        lightData (internalData s') = <[id := light]> (lightData (internalData s)))) /\
  (forall ls : list LightParameters,
     length ls = 255%nat ->
     exists s' : State,
       registerLights ls initialState = (Returns (map Z.of_nat (seq 0 255)), s') /\
       freeLightIds (internalData s') = [] /\
       (forall (i : nat) (light : LightParameters),
          ls !! i = Some light -> lightData (internalData s') !! Z.of_nat i = Some light) /\
       forall light : LightParameters,
         exists s'' : State,
           registerLight light s' = (Returns 255, s'') /\
           internalData s'' = internalData s' /\
           warnings s'' = (warnings s' ++ ["Cannot register more lights; ignoring call."])%list /\
           history s'' = history s').
Proof.
  split; [exact initial_freeLightIds|]. split.
  - intros light s id rest Hfree Hsorted.
    destruct (registerLight_free light s id rest Hfree) as (s' & Heq & Hfree' & Hd & _).
    exists s'. split; [exact Heq|]. split; [|split; [exact Hfree'|]].
    + intros x Hx. rewrite Hfree in Hx, Hsorted.
      apply StronglySorted_inv in Hsorted as [_ Hall].
      apply elem_of_cons in Hx as [->|Hx]; [lia|].
      rewrite List.Forall_forall in Hall. apply list_elem_of_In in Hx.
      specialize (Hall x Hx). lia.
    + intros Hslot. rewrite Hd.
      apply (slot_setParameter_records id light _ Hslot).
  - intros ls Hlen.
    generalize initial_freeLightIds initial_slot_ok.
    generalize initialState. intros s0 Hfree0 Hslot0.
    destruct (registerLights_prefix ls (map Z.of_nat (seq 0 255)) [] s0)
      as (s' & Heq & Hfree & _ & Hdata & _).
    + rewrite app_nil_r. exact Hfree0.
    + rewrite length_map, length_seq. symmetry. exact Hlen.
    + exact NoDup_initial_ids.
    + exact Hslot0.
    + exists s'. split; [exact Heq|]. split; [exact Hfree|]. split.
      * intros i light Hi. apply (Hdata i); [|exact Hi].
        rewrite list_lookup_fmap, lookup_seq_lt; [reflexivity|].
        apply lookup_lt_Some in Hi. lia.
      * intros light. rewrite (registerLight_exhausted light s' Hfree).
        eexists. repeat split.
Qed.

(** The set of free ids stays in ascending order. *)
Lemma set_insert_elem (x y : Z) (l : list Z) : y ∈ set_insert x l <-> y = x \/ y ∈ l.
Proof.
  induction l as [|z l IH]; simpl.
  - rewrite list_elem_of_singleton, elem_of_nil. tauto.
  - destruct (Z.ltb_spec x z); [rewrite !elem_of_cons; tauto|].
    destruct (Z.eqb_spec x z) as [->|Hne]; [rewrite !elem_of_cons; tauto|].
    rewrite !elem_of_cons, IH. tauto.
Qed.

Lemma set_insert_sorted (x : Z) (l : list Z) :
  StronglySorted Z.lt l -> StronglySorted Z.lt (set_insert x l).
Proof.
  induction l as [|z l IH]; simpl; intros Hs.
  - repeat constructor.
  - destruct (Z.ltb_spec x z) as [Hlt|Hge].
    + constructor; [exact Hs|]. apply StronglySorted_inv in Hs as [_ Hall].
      constructor; [exact Hlt|]. eapply List.Forall_impl; [|exact Hall]. intros; lia.
    + destruct (Z.eqb_spec x z) as [->|Hne]; [exact Hs|].
      apply StronglySorted_inv in Hs as [Hs Hall]. constructor; [apply IH, Hs|].
      rewrite List.Forall_forall in *. intros y Hy. apply list_elem_of_In in Hy.
      apply set_insert_elem in Hy as [->|Hy]; [lia|].
      apply Hall. apply list_elem_of_In. exact Hy.
Qed.

Lemma set_erase_sorted (x : Z) (l : list Z) :
  StronglySorted Z.lt l -> StronglySorted Z.lt (set_erase x l).
Proof.
  induction l as [|z l IH]; simpl; intros Hs; [constructor|].
  apply StronglySorted_inv in Hs as [Hs Hall].
  destruct (x =? z); [exact Hs|]. constructor; [apply IH, Hs|].
  clear IH Hs. induction l as [|w l IHl]; simpl; [constructor|].
  apply List.Forall_cons_iff in Hall as [Hw Hall].
  destruct (x =? w); [exact Hall|]. constructor; [exact Hw | apply IHl, Hall].
Qed.

Lemma initial_ids_sorted (a n : nat) : StronglySorted Z.lt (map Z.of_nat (seq a n)).
Proof.
  revert a. induction n as [|n IH]; intros a; simpl; constructor; [apply IH|].
  rewrite List.Forall_forall. intros x Hx. apply List.in_map_iff in Hx as (y & <- & Hy).
  apply List.in_seq in Hy. lia.
Qed.

Lemma initial_freeLightIds_sorted :
  StronglySorted Z.lt (freeLightIds (internalData initialState)).
Proof. rewrite initial_freeLightIds. apply initial_ids_sorted. Qed.

(** The invariant of the enabled set holds after construction and is
    kept by [disableLight]. *)
Lemma initial_LightSet_ok : LightSet_ok (activeLightSet (internalData initialState)).
Proof.
  split; [vm_compute; split; discriminate|].
  split; [vm_compute; reflexivity|]. apply NoDup_nil_2.
Qed.

Lemma disableLight_ok (lightNumber : Z) (s : State) :
  LightSet_ok (activeLightSet (internalData s)) ->
  LightSet_ok (activeLightSet (internalData (snd (disableLight lightNumber s)))).
Proof.
  intros Hok.
  destruct (disableLight_cases lightNumber s Hok) as [Hnot Hin].
  destruct (decide (lightNumber ∈ active (activeLightSet (internalData s)))) as [Hyes|Hno].
  - destruct (Hin Hyes) as (pos & s' & Hpos & Heq & Hd & Hperm & _).
    rewrite Heq. simpl.
    destruct Hok as (Hc & Hlen & Hnd).
    assert (Hlt : (pos < Z.to_nat (count (activeLightSet (internalData s))))%nat).
    { apply lookup_lt_Some in Hpos. unfold active in Hpos. rewrite length_take in Hpos. lia. }
    split; [|split].
    + rewrite Hd. simpl. lia.
    + rewrite Hd. simpl. unfold array_swap. rewrite !length_insert. exact Hlen.
    + rewrite <- Hperm in Hnd. apply NoDup_cons in Hnd as [_ Hnd]. exact Hnd.
  - rewrite (Hnot Hno). exact Hok.
Qed.

(** C10: [disableLight] with an id that is not enabled changes nothing
    and reports nothing.  With an enabled id it swaps the id with the
    last enabled slot and decrements the count: the id is no longer
    enabled, every other enabled id still is, and the registry, the pool
    of free ids and the parameter cache are as before. *)
Theorem disableLight_effect (lightNumber : Z) (s : State) :
  let set := activeLightSet (internalData s) in
  LightSet_ok set ->
  (lightNumber ∉ active set -> disableLight lightNumber s = (Returns tt, s)) /\
  (lightNumber ∈ active set ->
   exists (pos : nat) (s' : State),
     active set !! pos = Some lightNumber /\
     disableLight lightNumber s = (Returns tt, s') /\
     internalData s' =
       set_activeLightSet
         {| count := count set - 1;
            lights := array_swap pos (Z.to_nat (count set - 1)) (lights set) |}
         (internalData s) /\
     (lightNumber :: active (activeLightSet (internalData s')) ≡ₚ active set) /\
     (lightNumber ∉ active (activeLightSet (internalData s'))) /\
     lightRegistry (internalData s') = lightRegistry (internalData s) /\
     freeLightIds (internalData s') = freeLightIds (internalData s) /\
     warnings s' = warnings s /\
     history s' = history s).
Proof. exact (disableLight_cases lightNumber s). Qed.

End Lights.

(** ** Mesh vertex data *)

Section Mesh.
Context `{BufferDevice}.

(** C7: after [prepare], vertex data without vertices is not uploaded;
    a device buffer left from an earlier upload has been destroyed. *)
Theorem prepare_empty_not_uploaded (flags : Z) (m : Mesh) :
  vertexCount (vertexData m) = 0 ->
  VertexData.isUploaded (vertexData (prepared_mesh (prepare flags m))) = false /\
  bufferObject (vertexData (prepared_mesh (prepare flags m))) =
    (if VertexData.isUploaded (vertexData m)
     then BufferObject_destroy (bufferObject (vertexData m))
     else bufferObject (vertexData m)).
Proof.
  intros Hcount. unfold prepare.
  destruct (prepare_indices flags (indexData m)) as [[id cout1] warn1].
  unfold prepare_vertices.
  assert (Hempty : VertexData.empty (vertexData m) = true)
    by (unfold VertexData.empty; rewrite Hcount; reflexivity).
  rewrite Hempty. simpl.
  destruct (VertexData.isUploaded (vertexData m)) eqn:Hup; simpl.
  - rewrite andb_false_r. simpl. split; reflexivity.
  - rewrite Hup. rewrite andb_false_r. simpl. split; [exact Hup | reflexivity].
Qed.

End Mesh.

(** *** The order of [float] and the minimum and maximum loops *)

Lemma SFltb_irrefl (x : float) : SFltb x x = false.
Proof.
  unfold SFltb, SFcompare. destruct x as [s|s| |s m e]; try reflexivity.
  - destruct s; reflexivity.
  - destruct s; rewrite Z.compare_refl, Pos.compare_cont_refl; reflexivity.
Qed.

Lemma SFltb_trans (x y z : float) :
  SFltb x y = true -> SFltb y z = true -> SFltb x z = true.
Proof.
  unfold SFltb, SFcompare.
  destruct x as [sx|sx| |sx mx ex], y as [sy|sy| |sy my ey], z as [sz|sz| |sz mz ez];
    try destruct sx; try destruct sy; try destruct sz; simpl; try congruence.
  - destruct (Z.compare_spec ex ey), (Z.compare_spec ey ez), (Z.compare_spec ex ez);
      try congruence; try lia; subst;
      rewrite ?Pos.compare_cont_spec in *; simpl in *;
      destruct (Pos.compare_spec mx my), (Pos.compare_spec my mz), (Pos.compare_spec mx mz);
      simpl; try congruence; try lia.
  - destruct (Z.compare_spec ex ey), (Z.compare_spec ey ez), (Z.compare_spec ex ez);
      try congruence; try lia; subst;
      rewrite ?Pos.compare_cont_spec in *; simpl in *;
      destruct (Pos.compare_spec mx my), (Pos.compare_spec my mz), (Pos.compare_spec mx mz);
      simpl; try congruence; try lia.
Qed.

Lemma SFltb_not_nan (x y : float) : SFltb x y = true -> is_nan x = false /\ is_nan y = false.
Proof. destruct x, y; simpl; try discriminate; auto. Qed.

(** Not below a number that is not below [r] means not below [r]. *)
Lemma SFltb_chain (p a r : float) :
  is_nan a = false -> SFltb p a = false -> SFltb a r = false -> SFltb p r = false.
Proof.
  unfold SFltb, SFcompare.
  destruct p as [sp|sp| |sp mp ep], a as [sa|sa| |sa ma ea], r as [sr|sr| |sr mr er];
    try destruct sp; try destruct sa; try destruct sr; simpl; try congruence;
    destruct (Z.compare_spec ep ea), (Z.compare_spec ep er), (Z.compare_spec ea er);
    try congruence; try lia; subst;
    rewrite ?Pos.compare_cont_spec in *; simpl in *;
    destruct (Pos.compare_spec mp ma), (Pos.compare_spec mp mr), (Pos.compare_spec ma mr);
    simpl; try congruence; try lia.
Qed.

Lemma step_min_not_nan (m p : float) : is_nan m = false -> is_nan (step_min m p) = false.
Proof.
  intros Hm. unfold step_min. destruct (SFltb p m) eqn:Hlt; [|exact Hm].
  apply SFltb_not_nan in Hlt. tauto.
Qed.

Lemma step_max_not_nan (m p : float) : is_nan m = false -> is_nan (step_max m p) = false.
Proof.
  intros Hm. unfold step_max. destruct (SFltb m p) eqn:Hlt; [|exact Hm].
  apply SFltb_not_nan in Hlt. tauto.
Qed.

(** The result of the minimum loop is below no value it has seen. *)
Lemma fold_min_lower (l : list float) (init : float) :
  is_nan init = false ->
  is_nan (foldl step_min init l) = false /\
  SFltb init (foldl step_min init l) = false /\
  forall x, x ∈ l -> SFltb x (foldl step_min init l) = false.
Proof.
  revert init. induction l as [|p l IH]; intros init Hnan; simpl.
  - split; [exact Hnan|]. split; [apply SFltb_irrefl | intros x Hx; inversion Hx].
  - destruct (IH (step_min init p) (step_min_not_nan init p Hnan)) as (Hrn & Hinit & Hall).
    set (r := foldl step_min (step_min init p) l) in *.
    assert (Hstep_init : SFltb init (step_min init p) = false).
    { unfold step_min. destruct (SFltb p init) eqn:Hlt; [|apply SFltb_irrefl].
      destruct (SFltb init p) eqn:Hip; [|reflexivity].
      pose proof (SFltb_trans _ _ _ Hlt Hip) as Hpp. rewrite SFltb_irrefl in Hpp. discriminate. }
    assert (Hstep_p : SFltb p (step_min init p) = false).
    { unfold step_min. destruct (SFltb p init) eqn:Hlt; [apply SFltb_irrefl | exact Hlt]. }
    split; [exact Hrn|]. split.
    + exact (SFltb_chain init _ r (step_min_not_nan init p Hnan) Hstep_init Hinit).
    + intros x Hx. apply elem_of_cons in Hx as [->|Hx]; [|apply Hall, Hx].
      exact (SFltb_chain p _ r (step_min_not_nan init p Hnan) Hstep_p Hinit).
Qed.

(** The result of the maximum loop is above no value it has seen. *)
Lemma fold_max_upper (l : list float) (init : float) :
  is_nan init = false ->
  is_nan (foldl step_max init l) = false /\
  SFltb (foldl step_max init l) init = false /\
  forall x, x ∈ l -> SFltb (foldl step_max init l) x = false.
Proof.
  revert init. induction l as [|p l IH]; intros init Hnan; simpl.
  - split; [exact Hnan|]. split; [apply SFltb_irrefl | intros x Hx; inversion Hx].
  - destruct (IH (step_max init p) (step_max_not_nan init p Hnan)) as (Hrn & Hinit & Hall).
    set (r := foldl step_max (step_max init p) l) in *.
    assert (Hstep_init : SFltb (step_max init p) init = false).
    { unfold step_max. destruct (SFltb init p) eqn:Hlt; [|apply SFltb_irrefl].
      destruct (SFltb p init) eqn:Hip; [|reflexivity].
      pose proof (SFltb_trans _ _ _ Hlt Hip) as Hpp. rewrite SFltb_irrefl in Hpp. discriminate. }
    assert (Hstep_p : SFltb (step_max init p) p = false).
    { unfold step_max. destruct (SFltb init p) eqn:Hlt; [apply SFltb_irrefl | exact Hlt]. }
    split; [exact Hrn|]. split.
    + exact (SFltb_chain r _ init (step_max_not_nan init p Hnan) Hinit Hstep_init).
    + intros x Hx. apply elem_of_cons in Hx as [->|Hx]; [|apply Hall, Hx].
      exact (SFltb_chain r _ p (step_max_not_nan init p Hnan) Hinit Hstep_p).
Qed.

(** The result of a loop is a value it has seen, unless no value made
    it replace the initial one. *)
Lemma fold_min_attained (l : list float) (init : float) :
  foldl step_min init l ∈ l \/
  (foldl step_min init l = init /\ forall x, x ∈ l -> SFltb x init = false).
Proof.
  revert init. induction l as [|p l IH]; intros init; simpl.
  - right. split; [reflexivity | intros x Hx; inversion Hx].
  - destruct (IH (step_min init p)) as [Hin|[Heq Hall]].
    + left. apply elem_of_cons. right. exact Hin.
    + unfold step_min in Heq, Hall |- *. destruct (SFltb p init) eqn:Hlt.
      * left. rewrite Heq. apply elem_of_cons. left. reflexivity.
      * right. split; [exact Heq|]. intros x Hx.
        apply elem_of_cons in Hx as [->|Hx]; [exact Hlt | apply Hall, Hx].
Qed.

Lemma fold_max_attained (l : list float) (init : float) :
  foldl step_max init l ∈ l \/
  (foldl step_max init l = init /\ forall x, x ∈ l -> SFltb init x = false).
Proof.
  revert init. induction l as [|p l IH]; intros init; simpl.
  - right. split; [reflexivity | intros x Hx; inversion Hx].
  - destruct (IH (step_max init p)) as [Hin|[Heq Hall]].
    + left. apply elem_of_cons. right. exact Hin.
    + unfold step_max in Heq, Hall |- *. destruct (SFltb init p) eqn:Hlt.
      * left. rewrite Heq. apply elem_of_cons. left. reflexivity.
      * right. split; [exact Heq|]. intros x Hx.
        apply elem_of_cons in Hx as [->|Hx]; [exact Hlt | apply Hall, Hx].
Qed.

(** *** The two loops of [updateBoundingBox] *)

Lemma include_dim_lookup (p : list float) (mins maxs : list float) (dim d : nat) :
  let pd := default float_zero (p !! dim) in
  let r := VertexData.include_dim p (mins, maxs) dim in
  length (fst r) = length mins /\ length (snd r) = length maxs /\
  fst r !! d = (if decide (d = dim) then (fun m => step_min m pd) <$> mins !! d else mins !! d) /\
  snd r !! d = (if decide (d = dim) then (fun m => step_max m pd) <$> maxs !! d else maxs !! d).
Proof.
  cbv zeta. unfold VertexData.include_dim. simpl.
  split; [destruct (SFltb _ _); rewrite ?length_insert; reflexivity|].
  split; [destruct (SFltb _ _); rewrite ?length_insert; reflexivity|].
  split.
  - destruct (decide (d = dim)) as [->|Hne].
    + destruct (mins !! dim) as [m|] eqn:Hm; simpl.
      * unfold step_min. destruct (SFltb _ m); [|exact Hm].
        apply list_lookup_insert_eq. apply lookup_lt_Some in Hm. exact Hm.
      * destruct (SFltb _ _); [|exact Hm].
        rewrite list_insert_ge; [exact Hm|]. apply lookup_ge_None. exact Hm.
    + destruct (SFltb _ _); [|reflexivity]. apply list_lookup_insert_ne. congruence.
  - destruct (decide (d = dim)) as [->|Hne].
    + destruct (maxs !! dim) as [m|] eqn:Hm; simpl.
      * unfold step_max. destruct (SFltb m _); [|exact Hm].
        apply list_lookup_insert_eq. apply lookup_lt_Some in Hm. exact Hm.
      * destruct (SFltb _ _); [|exact Hm].
        rewrite list_insert_ge; [exact Hm|]. apply lookup_ge_None. exact Hm.
    + destruct (SFltb _ _); [|reflexivity]. apply list_lookup_insert_ne. congruence.
Qed.

Lemma include_dims_lookup (p : list float) (k : nat) :
  forall (a : nat) (mins maxs : list float) (d : nat),
    let pd := default float_zero (p !! d) in
    let r := foldl (VertexData.include_dim p) (mins, maxs) (seq a k) in
    length (fst r) = length mins /\ length (snd r) = length maxs /\
    fst r !! d = (if decide (a <= d < a + k)%nat
                  then (fun m => step_min m pd) <$> mins !! d else mins !! d) /\
    snd r !! d = (if decide (a <= d < a + k)%nat
                  then (fun m => step_max m pd) <$> maxs !! d else maxs !! d).
Proof.
  induction k as [|k IH]; intros a mins maxs d; cbv zeta; simpl.
  - repeat split; destruct (decide _); try reflexivity; lia.
  - destruct (include_dim_lookup p mins maxs a d) as (Hl1 & Hl2 & Hmin & Hmax).
    destruct (VertexData.include_dim p (mins, maxs) a) as [mins1 maxs1] eqn:Hstep.
    simpl in Hl1, Hl2, Hmin, Hmax.
    destruct (IH (S a) mins1 maxs1 d) as (Hl1' & Hl2' & Hmin' & Hmax').
    split; [congruence|]. split; [congruence|].
    rewrite Hmin', Hmax', Hmin, Hmax.
    split; repeat destruct (decide _); try reflexivity; try lia; subst; reflexivity.
Qed.

Lemma include_vertex_lookup (n : nat) (p : list float) (mins maxs : list float) (d : nat) :
  (d < n)%nat ->
  let pd := default float_zero (p !! d) in
  let r := VertexData.include_vertex n (mins, maxs) p in
  length (fst r) = length mins /\ length (snd r) = length maxs /\
  fst r !! d = (fun m => step_min m pd) <$> mins !! d /\
  snd r !! d = (fun m => step_max m pd) <$> maxs !! d.
Proof.
  intros Hd. cbv zeta. unfold VertexData.include_vertex.
  destruct (include_dims_lookup p n 0 mins maxs d) as (Hl1 & Hl2 & Hmin & Hmax).
  split; [exact Hl1|]. split; [exact Hl2|].
  rewrite Hmin, Hmax. destruct (decide _); [split; reflexivity | lia].
Qed.

(** In every dimension the loops compute the folds of [step_min] and
    [step_max] over the values of that dimension. *)
Lemma minmax_lookup (n d : nat) (ps : list (list float)) :
  (d < n)%nat ->
  fst (VertexData.minmax n ps) !! d = Some (foldl step_min FLT_MAX (column d ps)) /\
  snd (VertexData.minmax n ps) !! d = Some (foldl step_max FLT_LOWEST (column d ps)).
Proof.
  intros Hd. unfold VertexData.minmax.
  assert (Hgen : forall (mins maxs : list float) (a b : float),
            mins !! d = Some a -> maxs !! d = Some b ->
            fst (foldl (VertexData.include_vertex n) (mins, maxs) ps) !! d
              = Some (foldl step_min a (column d ps)) /\
            snd (foldl (VertexData.include_vertex n) (mins, maxs) ps) !! d
              = Some (foldl step_max b (column d ps))).
  { induction ps as [|p ps IH]; intros mins maxs a b Ha Hb; simpl.
    - split; assumption.
    - destruct (include_vertex_lookup n p mins maxs d Hd) as (_ & _ & Hmin & Hmax).
      destruct (VertexData.include_vertex n (mins, maxs) p) as [mins1 maxs1].
      simpl in Hmin, Hmax. rewrite Ha in Hmin. rewrite Hb in Hmax.
      apply IH; assumption. }
  apply Hgen; apply lookup_replicate_2; exact Hd.
Qed.

(** *** The largest and the smallest finite [float] *)

Lemma digits2_pos_bound (m : positive) : Zpos m < 2 ^ Zpos (digits2_pos m).
Proof.
  induction m as [m IH|m IH|]; simpl digits2_pos; rewrite ?Pos2Z.inj_succ, ?Z.pow_succ_r by lia;
    lia.
Qed.

Lemma bounded_e_max (m : positive) (e : Z) :
  bounded 24 128 m e = true -> e <= 104 /\ (e = 104 -> Zpos m <= 16777215).
Proof.
  unfold bounded, canonical_mantissa, fexp, emin. rewrite andb_true_iff, Z.eqb_eq, Z.leb_le.
  intros [Hcanon Hle]. split; [lia|]. intros ->.
  assert (Hd : Zpos (digits2_pos m) = 24) by lia.
  pose proof (digits2_pos_bound m) as Hb. rewrite Hd in Hb. change (2 ^ 24) with 16777216 in Hb.
  lia.
Qed.

Lemma finite32_below_max (x : float) :
  finite32 x = true -> SFltb x FLT_MAX = false -> x = FLT_MAX.
Proof.
  destruct x as [s|s| |s m e]; cbn [finite32]; intros Hfin Hlt; try discriminate Hfin.
  - destruct s; discriminate Hlt.
  - apply bounded_e_max in Hfin as [He Hm]. revert Hlt.
    unfold SFltb, SFcompare, FLT_MAX. destruct s; [discriminate|].
    destruct (Z.compare_spec e 104) as [->|Hlt|Hgt]; [|discriminate|lia].
    rewrite Pos.compare_cont_spec. simpl.
    destruct (Pos.compare_spec m 16777215) as [->|Hlt|Hgt]; simpl; try discriminate.
    + reflexivity.
    + specialize (Hm eq_refl). lia.
Qed.

Lemma finite32_above_lowest (x : float) :
  finite32 x = true -> SFltb FLT_LOWEST x = false -> x = FLT_LOWEST.
Proof.
  destruct x as [s|s| |s m e]; cbn [finite32]; intros Hfin Hlt; try discriminate Hfin.
  - destruct s; discriminate Hlt.
  - apply bounded_e_max in Hfin as [He Hm]. revert Hlt.
    unfold SFltb, SFcompare, FLT_LOWEST. destruct s; [|discriminate].
    destruct (Z.compare_spec 104 e) as [<-|Hlt|Hgt]; [|lia|discriminate].
    rewrite Pos.compare_cont_spec. simpl.
    destruct (Pos.compare_spec 16777215 m) as [<-|Hlt|Hgt]; simpl; try discriminate.
    + reflexivity.
    + specialize (Hm eq_refl). lia.
Qed.

(** Over finite values, the loops return the least and the greatest of
    the values. *)
Lemma loops_least_greatest (vals : list float) :
  vals <> [] ->
  (forall x, x ∈ vals -> finite32 x = true) ->
  let mn := foldl step_min FLT_MAX vals in
  let mx := foldl step_max FLT_LOWEST vals in
  (forall x, x ∈ vals -> SFltb x mn = false /\ SFltb mx x = false) /\
  mn ∈ vals /\ mx ∈ vals.
Proof.
  intros Hne Hfin. cbv zeta.
  destruct (fold_min_lower vals FLT_MAX eq_refl) as (_ & _ & Hlow).
  destruct (fold_max_upper vals FLT_LOWEST eq_refl) as (_ & _ & Hup).
  split; [intros x Hx; split; [apply Hlow, Hx | apply Hup, Hx]|].
  destruct vals as [|x0 vals']; [contradiction|].
  assert (Hx0 : x0 ∈ x0 :: vals') by (apply elem_of_cons; left; reflexivity).
  split.
  - destruct (fold_min_attained (x0 :: vals') FLT_MAX) as [Hin|[Heq Hall]]; [exact Hin|].
    rewrite Heq. rewrite <- (finite32_below_max x0 (Hfin x0 Hx0) (Hall x0 Hx0)). exact Hx0.
  - destruct (fold_max_attained (x0 :: vals') FLT_LOWEST) as [Hin|[Heq Hall]]; [exact Hin|].
    rewrite Heq. rewrite <- (finite32_above_lowest x0 (Hfin x0 Hx0) (Hall x0 Hx0)). exact Hx0.
Qed.

Lemma column_values (v : MeshVertexData) (acc : VertexAttribute) (axis count_ : nat) :
  column axis (map (VertexData.getValues v acc) (seq 0 count_)) =
  map (fun i => default float_zero (VertexData.getValues v acc i !! axis)) (seq 0 count_).
Proof. unfold column. rewrite List.map_map. reflexivity. Qed.

(** What [updateBoundingBox] computes for vertices with a [float]
    position attribute. *)
Lemma updateBoundingBox_general (v : MeshVertexData) (acc : VertexAttribute) :
  0 < vertexCount v ->
  VertexData.FloatAttributeAccessor_create v POSITION = Returns acc ->
  let n := Z.to_nat (attr_numValues acc) in
  let count_ := Z.to_nat (vertexCount v) in
  let value (i axis : nat) := default float_zero (VertexData.getValues v acc i !! axis) in
  (forall i axis, (i < count_)%nat -> (axis < n)%nat -> finite32 (value i axis) = true) ->
  exists box : Box,
    VertexData.updateBoundingBox v = Returns (set_bb box v, []) /\
    forall axis, (axis < 3)%nat ->
      if (axis <? n)%nat then
        (forall i, (i < count_)%nat ->
           SFltb (value i axis) (box_min box axis) = false /\
           SFltb (box_max box axis) (value i axis) = false) /\
        (exists i, (i < count_)%nat /\ value i axis = box_min box axis) /\
        (exists i, (i < count_)%nat /\ value i axis = box_max box axis)
      else box_min box axis = float_zero /\ box_max box axis = float_zero.
Proof.
  intros Hcount Hacc n count_ value Hfin.
  unfold VertexData.updateBoundingBox. rewrite Hacc.
  destruct (Z.eqb_spec (vertexCount v) 0) as [Hz|_]; [lia|].
  unfold VertexData.FloatAttributeAccessor_create in Hacc.
  destruct (_ && _) eqn:Hcheck in Hacc; [|discriminate]. injection Hacc as Hattr.
  apply andb_true_iff in Hcheck as [Hnum _]. apply Z.leb_le in Hnum.
  rewrite Hattr in *. fold n. fold count_.
  assert (Hn : (1 <= n)%nat) by (subst n; lia).
  destruct (Nat.ltb_spec n 1) as [Hlt|_]; [lia|].
  set (ps := map (VertexData.getValues v acc) (seq 0 count_)).
  assert (Haxis : forall axis, (axis < n)%nat ->
            let mn := default float_zero (fst (VertexData.minmax n ps) !! axis) in
            let mx := default float_zero (snd (VertexData.minmax n ps) !! axis) in
            (forall i, (i < count_)%nat ->
               SFltb (value i axis) mn = false /\ SFltb mx (value i axis) = false) /\
            (exists i, (i < count_)%nat /\ value i axis = mn) /\
            (exists i, (i < count_)%nat /\ value i axis = mx)).
  { intros axis Hax. cbv zeta.
    destruct (minmax_lookup n axis ps Hax) as [Hmin Hmax]. rewrite Hmin, Hmax. simpl.
    subst ps. rewrite column_values.
    set (vals := map (fun i => value i axis) (seq 0 count_)).
    assert (Hmem : forall x, x ∈ vals <-> exists i, (i < count_)%nat /\ value i axis = x).
    { intros x. subst vals. rewrite list_elem_of_fmap. split.
      - intros (i & -> & Hi). apply list_elem_of_In, List.in_seq in Hi. exists i. split; [lia | reflexivity].
      - intros (i & Hi & <-). exists i. split; [reflexivity|].
        apply list_elem_of_In, List.in_seq. lia. }
    destruct (loops_least_greatest vals) as (Hbound & Hmn & Hmx).
    - subst vals. intros Hnil. apply (f_equal length) in Hnil.
      rewrite length_map, length_seq in Hnil. simpl in Hnil. subst count_. lia.
    - intros x Hx. apply Hmem in Hx as (i & Hi & <-). apply Hfin; assumption.
    - split; [|split].
      + intros i Hi. apply Hbound. apply Hmem. eauto.
      + apply Hmem, Hmn.
      + apply Hmem, Hmx. }
  eexists. split; [reflexivity|].
  intros axis Hax3.
  destruct (Nat.eqb_spec n 1) as [H1|H1]; [|destruct (Nat.eqb_spec n 2) as [H2|H2]].
  - destruct axis as [|[|axis]]; simpl box_min; simpl box_max.
    + replace (0 <? n)%nat with true by (symmetry; apply Nat.ltb_lt; lia).
      apply (Haxis 0%nat). lia.
    + replace (1 <? n)%nat with false by (symmetry; apply Nat.ltb_ge; lia). split; reflexivity.
    + replace (S (S axis) <? n)%nat with false by (symmetry; apply Nat.ltb_ge; lia).
      split; reflexivity.
  - destruct axis as [|[|axis]]; simpl box_min; simpl box_max.
    + replace (0 <? n)%nat with true by (symmetry; apply Nat.ltb_lt; lia).
      apply (Haxis 0%nat). lia.
    + replace (1 <? n)%nat with true by (symmetry; apply Nat.ltb_lt; lia).
      apply (Haxis 1%nat). lia.
    + replace (S (S axis) <? n)%nat with false by (symmetry; apply Nat.ltb_ge; lia).
      split; reflexivity.
  - destruct axis as [|[|[|axis]]]; simpl box_min; simpl box_max; [| | |lia].
    + replace (0 <? n)%nat with true by (symmetry; apply Nat.ltb_lt; lia).
      apply (Haxis 0%nat). lia.
    + replace (1 <? n)%nat with true by (symmetry; apply Nat.ltb_lt; lia).
      apply (Haxis 1%nat). lia.
    + replace (2 <? n)%nat with true by (symmetry; apply Nat.ltb_lt; lia).
      apply (Haxis 2%nat). lia.
Qed.

(** The bounding box of the triangle. *)
Lemma updateBoundingBox_triangle :
  VertexData.updateBoundingBox triangle =
  Returns (set_bb {| minX := float_zero; maxX := float_one;
                     minY := float_zero; maxY := float_one;
                     minZ := float_zero; maxZ := float_zero |} triangle, []).
Proof. vm_compute. reflexivity. Qed.

(** C9: for the triangle (0,0,0), (1,0,0), (0,1,0) of position-only
    vertices [updateBoundingBox] gives the box x in [0,1], y in [0,1],
    z in [0,0]; and for any vertex data with at least one vertex and
    finite [float] positions, along every axis of the position the box
    spans from the least to the greatest value of the vertices (an axis
    the position does not have spans [0,0]). *)
Theorem updateBoundingBox_bounds :
  VertexData.updateBoundingBox triangle =
    Returns (set_bb {| minX := float_zero; maxX := float_one;
                       minY := float_zero; maxY := float_one;
                       minZ := float_zero; maxZ := float_zero |} triangle, []) /\
  forall (v : MeshVertexData) (acc : VertexAttribute),
    0 < vertexCount v ->
    VertexData.FloatAttributeAccessor_create v POSITION = Returns acc ->
    let n := Z.to_nat (attr_numValues acc) in
    let count_ := Z.to_nat (vertexCount v) in
    let value (i axis : nat) := default float_zero (VertexData.getValues v acc i !! axis) in
    (forall i axis, (i < count_)%nat -> (axis < n)%nat -> finite32 (value i axis) = true) ->
    exists box : Box,
      VertexData.updateBoundingBox v = Returns (set_bb box v, []) /\
      forall axis, (axis < 3)%nat ->
        if (axis <? n)%nat then
          (forall i, (i < count_)%nat ->
             SFltb (value i axis) (box_min box axis) = false /\
             SFltb (box_max box axis) (value i axis) = false) /\
          (exists i, (i < count_)%nat /\ value i axis = box_min box axis) /\
          (exists i, (i < count_)%nat /\ value i axis = box_max box axis)
        else box_min box axis = float_zero /\ box_max box axis = float_zero.
Proof. split; [exact updateBoundingBox_triangle | exact updateBoundingBox_general]. Qed.

(** ** Parts of the context left alone *)

Section FrameLemmas.
Context `{Collaborators}.

Lemma preserves_ret {X A : Type} (f : InternalData -> X) (a : A) : preserves f (mret a).
Proof. intros s. reflexivity. Qed.

Lemma preserves_throw {X A : Type} (f : InternalData -> X) (e : exception) :
  preserves f (@throw _ A e).
Proof. intros s. reflexivity. Qed.

Lemma preserves_getData {X : Type} (f : InternalData -> X) : preserves f getData.
Proof. intros s. reflexivity. Qed.

Lemma preserves_WARN {X : Type} (f : InternalData -> X) (msg : string) : preserves f (WARN msg).
Proof. intros s. reflexivity. Qed.

Lemma preserves_emit {X : Type} (f : InternalData -> X) (evs : list Event) :
  preserves f (emit evs).
Proof. intros s. reflexivity. Qed.

Lemma preserves_gl {X : Type} (f : InternalData -> X) (c : GlCommand) : preserves f (gl c).
Proof. intros s. reflexivity. Qed.

Lemma preserves_deviceCall {X A : Type} (f : InternalData -> X) (r : DeviceResult A) :
  preserves f (deviceCall r).
Proof. intros s. reflexivity. Qed.

Lemma preserves_GET_GL_ERROR {X : Type} (f : InternalData -> X) : preserves f GET_GL_ERROR.
Proof. intros s. unfold GET_GL_ERROR. destruct (glGetError _); reflexivity. Qed.

Lemma preserves_requestTransformFeedbackSupport {X : Type} (f : InternalData -> X) :
  preserves f requestTransformFeedbackSupport.
Proof.
  intros s. unfold requestTransformFeedbackSupport.
  destruct (feedbackSupportRequested s), isTransformFeedbackSupported; reflexivity.
Qed.

Lemma preserves_bind {X A B : Type} (f : InternalData -> X) (m : M A) (k : A -> M B) :
  preserves f m -> (forall a, preserves f (k a)) -> preserves f (m ≫= k).
Proof.
  intros Hm Hk s. unfold_monad. specialize (Hm s).
  destruct (m s) as [[a|e] s1]; simpl in *.
  - rewrite (Hk a s1). exact Hm.
  - exact Hm.
Qed.

Lemma preserves_try_catch {X : Type} (f : InternalData -> X) (body : M unit)
    (handler : exception -> M unit) :
  preserves f body -> (forall e, preserves f (handler e)) -> preserves f (try_catch body handler).
Proof.
  intros Hm Hk s. unfold try_catch. specialize (Hm s).
  destruct (body s) as [[a|e] s1]; simpl in *.
  - exact Hm.
  - rewrite (Hk e s1). exact Hm.
Qed.

Lemma preserves_modifyData {X : Type} (f : InternalData -> X)
    (g : InternalData -> InternalData) :
  (forall d, f (g d) = f d) -> preserves f (modifyData g).
Proof. intros Hg s. apply Hg. Qed.

Lemma preserves_bindInterfaceBlocks {X : Type} (f : InternalData -> X)
    (blocks : list InterfaceBlock) (forced : bool) :
  preserves f (bindInterfaceBlocks blocks forced).
Proof.
  induction blocks as [|block rest IH]; simpl.
  - apply preserves_ret.
  - apply preserves_bind; [|intros _; exact IH].
    destruct (_ && _); [apply preserves_deviceCall | apply preserves_ret].
Qed.

(** What is left of [applyChanges] once the active pipeline state has
    been overwritten does not touch it again. *)
Lemma preserves_quiet {X A : Type} (f : InternalData -> X) (m : M A) :
  (forall d a c, f (set_cache c (set_activePipelineState a d)) = f d) ->
  quiet m -> preserves f m.
Proof.
  intros Hf Hq s. destruct (Hq s) as ((a & c & Hd) & _). rewrite Hd. apply Hf.
Qed.

Lemma preserves_applyChanges {X : Type} (f : InternalData -> X) (forced : bool) :
  (forall d a c, f (set_cache c (set_activePipelineState a d)) = f d) ->
  preserves f (applyChanges forced).
Proof.
  intros Hf s.
  destruct (applyChanges_returns forced s) as (s' & cmds & Heq & _ & (a & c & Hd) & _).
  rewrite Heq. simpl. rewrite Hd. apply Hf.
Qed.

End FrameLemmas.

Ltac preserves_step :=
  first
    [ apply preserves_ret
    | apply preserves_throw
    | apply preserves_getData
    | apply preserves_WARN
    | apply preserves_gl
    | apply preserves_emit
    | apply preserves_deviceCall
    | apply preserves_GET_GL_ERROR
    | apply preserves_bindInterfaceBlocks
    | apply preserves_requestTransformFeedbackSupport
    | apply preserves_applyChanges; [intros [] ? ?; reflexivity]
    | apply preserves_bind; [|intros ?]
    | apply preserves_try_catch; [|intros ?]
    | apply preserves_modifyData; intros []; reflexivity
    | match goal with
      | |- preserves _ (if ?b then _ else _) => destruct b
      | |- preserves _ (match ?x with _ => _ end) => destruct x
      end
    | progress cbv zeta
    | progress unfold_scoped ].

(** ** More on [applyChanges] *)

Section ApplyProperties.
Context `{Collaborators}.

(** X9: [applyChanges] always returns.  Of the context data it changes
    the active pipeline state and the parameter cache and nothing else:
    every target value, stack, matrix, material and light is as before;
    and all it sends to the device, between its two markers, are
    state-setting commands of its collaborators. *)
Theorem applyChanges_frame (forced : bool) (s : State) :
  exists (s' : State) (a : PipelineState) (c : ParameterCache) (cmds : list StateCommand),
    applyChanges forced s = (Returns tt, s') /\
    internalData s' = set_cache c (set_activePipelineState a (internalData s)) /\
    (forall C : Category,
       target C (internalData s') = target C (internalData s) /\
       stack C (internalData s') = stack C (internalData s)) /\
    history s' =
      (history s ++ EvEnterApplyChanges forced :: map EvState cmds ++ [EvLeaveApplyChanges])%list.
Proof.
  destruct (applyChanges_returns forced s) as (s' & cmds & Heq & Hh & (a & c & Hd) & _).
  exists s', a, c, cmds. split; [exact Heq|]. split; [exact Hd|]. split; [|exact Hh].
  intros C. rewrite Hd. destruct C; split; reflexivity.
Qed.

Lemma bind_deviceCall {A B : Type} (r : DeviceResult A) (k : A -> M B) (s : State) :
  (deviceCall r ≫= k) s =
  match snd r with
  | Returns a => k a (set_history (history s ++ map EvState (fst r)) s)
  | Throws e => (Throws e, set_history (history s ++ map EvState (fst r)) s)
  end.
Proof. unfold_monad. destruct r as [cmds [a|e]]; reflexivity. Qed.

(** The [try] block: the active pipeline state becomes the target one
    as soon as the difference has been computed, and stays so whatever
    happens afterwards. *)
Lemma applyChanges_try_active (forced : bool) (s : State) :
  let d := internalData s in
  let s' := snd (applyChanges_try forced s) in
  targetPipelineState (internalData s') = targetPipelineState d /\
  match snd (PipelineState_makeDiff (activePipelineState d) (targetPipelineState d) forced) with
  | Returns _ => activePipelineState (internalData s') = targetPipelineState d
  | Throws _ => activePipelineState (internalData s') = activePipelineState d
  end.
Proof.
  cbv zeta. split.
  - apply (preserves_quiet targetPipelineState); [intros [] ? ?; reflexivity|].
    apply quiet_applyChanges_try.
  - unfold applyChanges_try.
    erewrite bind_returns by reflexivity. cbv beta.
    rewrite bind_deviceCall.
    destruct (PipelineState_makeDiff _ _ forced) as [cmds [diff|e]]; simpl; [|reflexivity].
    match goal with
    | |- activePipelineState (internalData (snd ((modifyData ?g ≫= ?k) ?s0))) = _ =>
      change ((modifyData g ≫= k) s0)
        with (k tt (set_internalData (g (internalData s0)) s0));
      assert (Hk : preserves activePipelineState (k tt))
    end.
    { cbv beta. unfold cache_setFrameData, cache_setMaterialData, cache_setLightSetData,
        cache_setTextureSetData. repeat preserves_step. }
    rewrite Hk. reflexivity.
Qed.

(** X10: after [applyChanges] the target pipeline state is unchanged,
    and the active pipeline state equals it whenever computing the
    difference did not throw, even when applying the difference or a
    later step failed; when computing the difference throws, the active
    pipeline state is unchanged. *)
Theorem applyChanges_active_is_target (forced : bool) (s : State) :
  let d := internalData s in
  exists s' : State,
    applyChanges forced s = (Returns tt, s') /\
    targetPipelineState (internalData s') = targetPipelineState d /\
    match snd (PipelineState_makeDiff (activePipelineState d) (targetPipelineState d) forced) with
    | Returns _ => activePipelineState (internalData s') = targetPipelineState d
    | Throws _ => activePipelineState (internalData s') = activePipelineState d
    end.
Proof.
  cbv zeta.
  destruct (applyChanges_returns forced s) as (s' & cmds & Heq & _).
  exists s'. split; [exact Heq|].
  assert (Hs' : s' = snd (applyChanges forced s)) by (rewrite Heq; reflexivity).
  pose (handler := fun e => WARN ("Problem detected while setting rendering internalData: "
                                  ++ what e)).
  set (s0 := snd (emit [EvEnterApplyChanges forced] s)).
  destruct (applyChanges_try_active forced s0) as [Ht Ha].
  assert (Hd : internalData s' =
               internalData (snd (applyChanges_try forced s0))).
  { rewrite Hs'. unfold applyChanges.
    unfold mbind at 1. unfold M_bind, bind at 1. unfold emit at 1. fold s0.
    change (set_history (history s ++ [EvEnterApplyChanges forced]) s) with s0.
    transitivity (internalData (snd (try_catch (applyChanges_try forced) handler s0))).
    - match goal with
      | |- internalData (snd ((?m ≫= ?k) s0)) = _ =>
        assert (Hk : forall u, preserves (fun d => d) (k u))
          by (intros u; repeat preserves_step)
      end.
      unfold mbind, M_bind, bind at 1. fold handler.
      destruct (try_catch (applyChanges_try forced) handler s0) as [[u|e] s1] eqn:Hc; simpl.
      + apply (Hk u s1).
      + reflexivity.
    - unfold try_catch. destruct (applyChanges_try forced s0) as [[u|e] s1]; reflexivity. }
  rewrite Hd. subst s0. simpl in *. split; [exact Ht | exact Ha].
Qed.

(** X11: without an active shader [dispatchCompute] and
    [dispatchComputeIndirect] only warn: nothing is sent to the device,
    not even the pending state changes.  With one, the dispatch command
    follows a completed [applyChanges]. *)
Theorem dispatchCompute_needs_shader (s : State) :
  (getActiveShader (internalData s) = nullptr ->
   (forall x y z,
      dispatchCompute x y z s =
        (Returns tt,
         set_warnings (warnings s ++ ["dispatchCompute: There is no active compute shader."]) s)) /\
   (forall offset,
      dispatchComputeIndirect offset s =
        (Returns tt,
         set_warnings
           (warnings s ++ ["glDispatchComputeIndirect: There is no active compute shader."]) s))) /\
  (getActiveShader (internalData s) <> nullptr ->
   (forall x y z,
      exists (s' : State) (cmds : list StateCommand),
        dispatchCompute x y z s = (Returns tt, s') /\
        history s' =
          (history s ++ EvEnterApplyChanges false :: map EvState cmds
             ++ [EvLeaveApplyChanges; EvGl (glDispatchCompute x y z)])%list) /\
   (forall offset,
      exists (s' : State) (cmds : list StateCommand),
        dispatchComputeIndirect offset s = (Returns tt, s') /\
        history s' =
          (history s ++ EvEnterApplyChanges false :: map EvState cmds
             ++ [EvLeaveApplyChanges; EvGl (glDispatchComputeIndirect offset)])%list)).
Proof.
  assert (Hgl : forall s0, exists s1, GET_GL_ERROR s0 = (Returns tt, s1) /\ history s1 = history s0).
  { intros s0. unfold GET_GL_ERROR. destruct (glGetError _); eexists; split; reflexivity. }
  split.
  - intros Hnull. apply Z.eqb_eq in Hnull.
    split; intros; unfold dispatchCompute, dispatchComputeIndirect; unfold_monad;
      rewrite Hnull; reflexivity.
  - intros Hshader. apply Z.eqb_neq in Hshader.
    destruct (applyChanges_returns false s) as (s1 & cmds & Heq & Hh & _).
    split; intros; unfold dispatchCompute, dispatchComputeIndirect;
      (erewrite bind_returns by reflexivity); cbv beta; rewrite Hshader;
      rewrite (bind_returns _ _ _ _ _ Heq);
      (erewrite bind_returns by reflexivity);
      match goal with
      | |- context [GET_GL_ERROR ?s0] => destruct (Hgl s0) as (s2 & Hg & Hh2)
      end;
      exists s2, cmds; (split; [exact Hg|]); rewrite Hh2; simpl; rewrite Hh;
      rewrite <- !app_assoc; simpl; rewrite <- !app_assoc; reflexivity.
Qed.

End ApplyProperties.

(** ** Image binding *)

Section ImageBinding.
Context `{Collaborators}.

Lemma GET_GL_ERROR_history (s : State) :
  exists s' : State,
    GET_GL_ERROR s = (Returns tt, s') /\ history s' = history s /\
    internalData s' = internalData s.
Proof.
  unfold GET_GL_ERROR. destruct (glGetError _); eexists; repeat split; reflexivity.
Qed.

(** X24: [setBoundImage] on a unit of the array records the binding
    and returns.  Where image binding is not supported it sends nothing
    to the device and warns.  Where it is supported it binds the handle
    the texture is prepared with, or unbinds the unit (handle 0) for a
    binding without texture. *)
Theorem setBoundImage_device (u : nat) (iParam : ImageBindParameters) (s : State) :
  (u < MAX_BOUND_IMAGES)%nat ->
  textures_available ->
  exists s' : State,
    setBoundImage u iParam s = (Returns tt, s') /\
    boundImages (internalData s') = <[u := iParam]> (boundImages (internalData s)) /\
    if isImageBindingSupported then
      if image_getTexture iParam =? nullptr then
        history s' = (history s ++ [EvGl (glBindImageTexture (Z.of_nat u) 0)])%list
      else
        exists (cmds : list StateCommand) (handle : Z),
          Texture_prepareForBinding (image_getTexture iParam) = (cmds, Returns handle) /\
          history s' =
            (history s ++ map EvState cmds
               ++ [EvGl (glBindImageTexture (Z.of_nat u) handle)])%list
    else
      history s' = history s /\
      warnings s' =
        (warnings s ++
         ["RenderingContext::setBoundImage: GL_ARB_shader_image_load_store is not supported by your driver."])%list.
Proof.
  intros Hu Htex.
  assert (Hub : (u <? MAX_BOUND_IMAGES)%nat = true) by (apply Nat.ltb_lt; exact Hu).
  unfold setBoundImage.
  rewrite (bind_returns _ _ _ _ _ (assertCorrectImageUnit_ok u s Hub)).
  erewrite bind_returns by reflexivity.
  set (s0 := set_internalData _ s).
  destruct isImageBindingSupported.
  - destruct (GET_GL_ERROR_history s0) as (s1 & Heq1 & Hh1 & Hd1).
    rewrite (bind_returns _ _ _ _ _ Heq1). cbv zeta.
    destruct (image_getTexture iParam =? nullptr) eqn:Hnull; cbn [negb].
    + erewrite bind_returns by reflexivity.
      match goal with
      | |- context [GET_GL_ERROR ?st] => destruct (GET_GL_ERROR_history st) as (s2 & Heq2 & Hh2 & Hd2)
      end.
      exists s2. split; [exact Heq2|]. rewrite Hd2, Hh2. simpl. rewrite Hd1, Hh1.
      split; reflexivity.
    + destruct (GET_GL_ERROR_history s1) as (s2 & Heq2 & Hh2 & Hd2).
      rewrite (bind_returns _ _ _ _ _ Heq2).
      destruct (Htex (image_getTexture iParam)) as (cmds & handle & Hprep).
      rewrite bind_deviceCall, Hprep. cbn [snd fst].
      erewrite bind_returns by reflexivity.
      match goal with
      | |- context [GET_GL_ERROR ?st] => destruct (GET_GL_ERROR_history st) as (s3 & Heq3 & Hh3 & Hd3)
      end.
      exists s3. split; [exact Heq3|]. rewrite Hd3, Hh3. simpl. rewrite Hd2, Hh2, Hd1, Hh1.
      split; [reflexivity|]. exists cmds, handle. split; [reflexivity|].
      rewrite <- app_assoc. reflexivity.
  - eexists. split; [reflexivity|]. repeat split.
Qed.

End ImageBinding.

(** ** More on the state categories *)

Section MoreStackProperties.
Context `{Collaborators}.


(** X3: [pop] on a stack [top :: rest] makes [top] the target value and
    leaves [rest] as the stack, for every category but shader,
    transform feedback and material. *)
Theorem pop_restores_top (C : Category) (top : valueT C) (rest : list (valueT C)) (s : State) :
  C <> Material -> C <> Shader -> C <> TransformFeedback ->
  arrays_ok (internalData s) ->
  textures_available ->
  stack C (internalData s) = Some (top :: rest) ->
  exists s' : State,
    pop C s = (Returns tt, s') /\
    target C (internalData s') = Some top /\
    stack C (internalData s') = Some rest.
Proof.
  intros Hmat Hsh Htf Hok Htex Hstack.
  destruct (pop_effect C top rest s Hmat Hok Htex Hstack) as (s' & Heq & Ht & Hs & _).
  exists s'. split; [exact Heq|]. split; [exact Ht|].
  rewrite Hs. destruct C; try reflexivity; contradiction.
Qed.

(** X4: [popTransformFeedbackBufferStatus] on a stack [top :: rest]
    makes [top] the active status and leaves it on the stack. *)
Theorem popTransformFeedbackBufferStatus_keeps_stack (s : State)
    (top : feedbackBufferStatus_t) (rest : list feedbackBufferStatus_t) :
  feedbackStack (internalData s) = top :: rest ->
  exists s' : State,
    popTransformFeedbackBufferStatus s = (Returns tt, s') /\
    activeFeedbackStatus (internalData s') = top /\
    feedbackStack (internalData s') = top :: rest.
Proof.
  intros Hstack.
  destruct (popTransformFeedbackBufferStatus_effect s top rest Hstack)
    as (s' & a & c & Heq & Hd).
  exists s'. split; [exact Heq|]. rewrite Hd. simpl. split; [reflexivity | exact Hstack].
Qed.

(** X5: every image operation on a unit outside the array throws
    [runtime_error] and leaves the context as it was. *)
Theorem invalid_image_unit (u : nat) (iParam : ImageBindParameters) (s : State) :
  (MAX_BOUND_IMAGES <= u)%nat ->
  let e := runtime_error "RenderingContext: Invalid image unit." in
  getBoundImage u s = (Throws e, s) /\
  pushBoundImage u s = (Throws e, s) /\
  setBoundImage u iParam s = (Throws e, s) /\
  pushAndSetBoundImage u iParam s = (Throws e, s) /\
  popBoundImage u s = (Throws e, s).
Proof.
  intros Hu e. apply Nat.leb_le in Hu.
  unfold pushAndSetBoundImage, getBoundImage, pushBoundImage, setBoundImage, popBoundImage,
    assertCorrectImageUnit.
  unfold_monad. rewrite Hu. repeat split; reflexivity.
Qed.


(** X8: after [pushAndSetMatrix_cameraToClipping(m)] and
    [popMatrix_cameraToClipping()] the projection matrix and its stack
    are what they were, but [matrix_clippingToCamera] is still the
    inverse of [m]: the pop does not recompute it. *)
Theorem projection_scope_keeps_inverse (m : Matrix4x4) (s : State) :
  exists s' : State,
    (pushAndSetMatrix_cameraToClipping m;; popMatrix_cameraToClipping) s = (Returns tt, s') /\
    matrix_cameraToClipping (activeFrameData (internalData s')) =
      matrix_cameraToClipping (activeFrameData (internalData s)) /\
    matrix_clippingToCamera (activeFrameData (internalData s')) = Matrix4x4_inverse m /\
    projectionMatrixStack (internalData s') = projectionMatrixStack (internalData s).
Proof.
  unfold pushAndSetMatrix_cameraToClipping, pushMatrix_cameraToClipping,
    setMatrix_cameraToClipping, popMatrix_cameraToClipping.
  unfold_monad. simpl. eexists. repeat split; reflexivity.
Qed.


End MoreStackProperties.

Section MoreLights.
Context `{Collaborators}.

(** X12: two descriptors are the same key of the light registry
    exactly when their first [sizeof(LightParameters)] bytes agree. *)
Theorem LightCompare_equivalence (l1 l2 : LightParameters) :
  (LightCompare l1 l2 = false /\ LightCompare l2 l1 = false) <->
  take sizeof_LightParameters l1 = take sizeof_LightParameters l2.
Proof.
  rewrite <- equivalent_bytes. unfold equivalent.
  rewrite andb_true_iff, !negb_true_iff. reflexivity.
Qed.

(** X13: [enableLight(id)] followed by [disableLight(id)], for an id
    that was not enabled and with room in the active set, enables
    exactly the ids that were enabled, in the same slots. *)
Theorem enable_disable_roundtrip (x : Z) (s : State) :
  let set := activeLightSet (internalData s) in
  LightSet_ok set ->
  x ∉ active set ->
  count set < MAX_ENABLED_LIGHTS ->
  exists s' : State,
    (enableLight_id x;; disableLight x) s = (Returns tt, s') /\
    count (activeLightSet (internalData s')) = count set /\
    active (activeLightSet (internalData s')) = active set /\
    lightRegistry (internalData s') = lightRegistry (internalData s) /\
    freeLightIds (internalData s') = freeLightIds (internalData s) /\
    warnings s' = warnings s /\
    history s' = history s.
Proof.
  intros set Hok Hnot Hroom. subst set.
  pose proof Hok as (Hcount & Hlen & Hnd).
  pose proof (proj2 (lightPosition_not_active _ x Hok) Hnot) as Hnone.
  set (ls := lights (activeLightSet (internalData s))) in *.
  set (n := count (activeLightSet (internalData s))) in *.
  set (s1 := set_internalData
               (set_activeLightSet {| count := n + 1; lights := <[Z.to_nat n := x]> ls |}
                  (internalData s)) s).
  assert (Hen : enableLight_id x s = (Returns tt, s1)).
  { unfold enableLight_id. erewrite bind_returns by reflexivity. cbv beta zeta.
    fold ls n. rewrite Hnone.
    destruct (MAX_ENABLED_LIGHTS <=? n) eqn:Hle; [apply Z.leb_le in Hle; lia|]. reflexivity. }
  assert (Hn : (Z.to_nat n < length ls)%nat) by (unfold MAX_ENABLED_LIGHTS in *; lia).
  assert (Hpos : lightPosition (<[Z.to_nat n := x]> ls) x 0 (Z.to_nat (n + 1))
                 = Some (Z.to_nat n)).
  { destruct (lightPosition (<[Z.to_nat n := x]> ls) x 0 (Z.to_nat (n + 1))) as [p|] eqn:Hp.
    - apply lightPosition_Some in Hp as [Hrange Hx].
      destruct (decide (p = Z.to_nat n)) as [->|Hne]; [reflexivity|].
      rewrite list_lookup_insert_ne in Hx by congruence.
      rewrite lightPosition_None in Hnone. exfalso. apply (Hnone p); [lia | exact Hx].
    - rewrite lightPosition_None in Hp. exfalso. apply (Hp (Z.to_nat n)); [lia|].
      rewrite list_lookup_insert_eq by exact Hn. reflexivity. }
  rewrite (bind_returns _ _ _ _ _ Hen).
  unfold disableLight. erewrite bind_returns by reflexivity. cbv beta zeta.
  subst s1. simpl. rewrite Hpos.
  eexists. split; [reflexivity|]. simpl.
  replace (n + 1 - 1) with n by lia.
  split; [reflexivity|]. split; [|repeat split].
  unfold active. simpl. fold ls n. unfold array_swap.
  rewrite list_lookup_insert_eq by exact Hn. simpl.
  rewrite !take_insert_ge by lia. reflexivity.
Qed.

Lemma registry_emplace_elem (light : LightParameters) (id : Z)
    (reg : list (LightParameters * Z)) (entry : LightParameters * Z) :
  entry ∈ registry_emplace light id reg -> entry = (light, id) \/ entry ∈ reg.
Proof.
  induction reg as [|[key v] rest IH]; simpl.
  - intros Hin. apply list_elem_of_singleton in Hin. left. exact Hin.
  - destruct (LightCompare light key).
    + intros Hin. apply elem_of_cons in Hin as [->|Hin]; [left; reflexivity | right; exact Hin].
    + destruct (LightCompare key light).
      * intros Hin. apply elem_of_cons in Hin as [->|Hin].
        -- right. apply elem_of_cons. left. reflexivity.
        -- destruct (IH Hin) as [->|Hin']; [left; reflexivity|].
           right. apply elem_of_cons. right. exact Hin'.
      * intros Hin. right. exact Hin.
Qed.

(** X14: while no registered id is in the pool of free ids, a
    descriptor that is not registered gets, by [enableLight], the
    lowest free id, which no registered descriptor has; it is
    registered under it, the other descriptors keep their entries, and
    still no registered id is free. *)
Theorem enableLight_fresh_id (light : LightParameters) (id : Z) (rest : list Z) (s : State) :
  LightSet_ok (activeLightSet (internalData s)) ->
  registry_ids_used (internalData s) ->
  freeLightIds (internalData s) = id :: rest ->
  NoDup (freeLightIds (internalData s)) ->
  registry_find light (lightRegistry (internalData s)) = None ->
  exists s' : State,
    enableLight light s = (Returns id, s') /\
    (forall other id', (other, id') ∈ lightRegistry (internalData s) -> id' <> id) /\
    registry_find light (lightRegistry (internalData s')) = Some id /\
    (forall other, equivalent light other = false ->
       registry_find other (lightRegistry (internalData s')) =
       registry_find other (lightRegistry (internalData s))) /\
    freeLightIds (internalData s') = rest /\
    registry_ids_used (internalData s').
Proof.
  intros Hok Hused Hfree Hnd Hfind.
  destruct (registerLight_free light s id rest Hfree) as (s1 & Hreg & Hfree1 & Hd1 & _).
  assert (Hals1 : activeLightSet (internalData s1) = activeLightSet (internalData s))
    by (rewrite Hd1; reflexivity).
  assert (Hreg1 : lightRegistry (internalData s1) = lightRegistry (internalData s))
    by (rewrite Hd1; reflexivity).
  set (s2 := set_internalData
               (set_lightRegistry
                  (registry_emplace light id (lightRegistry (internalData s1)))
                  (internalData s1)) s1).
  assert (Hok2 : LightSet_ok (activeLightSet (internalData s2)))
    by (subst s2; simpl; rewrite Hals1; exact Hok).
  destruct (enableLight_id_effect id s2 Hok2) as (s' & Hen & Hreg' & Hfree' & _).
  exists s'. split.
  { unfold enableLight. erewrite bind_returns by reflexivity. cbv beta. rewrite Hfind.
    erewrite bind_returns; cycle 1.
    { erewrite bind_returns by exact Hreg. cbv beta.
      erewrite bind_returns by reflexivity. reflexivity. }
    cbv beta. fold s2. rewrite (bind_returns _ _ _ _ _ Hen). reflexivity. }
  assert (Hfresh : forall other id', (other, id') ∈ lightRegistry (internalData s) -> id' <> id).
  { intros other id' Hin ->. apply (Hused other id Hin). rewrite Hfree. apply elem_of_cons.
    left. reflexivity. }
  split; [exact Hfresh|].
  assert (Hreg2 : lightRegistry (internalData s') =
                  registry_emplace light id (lightRegistry (internalData s))).
  { rewrite Hreg'. subst s2. simpl. rewrite Hreg1. reflexivity. }
  assert (Hfree2 : freeLightIds (internalData s') = rest).
  { rewrite Hfree'. subst s2. simpl. exact Hfree1. }
  rewrite Hreg2.
  split; [apply registry_find_emplace, Hfind|].
  split; [intros other Hother; apply registry_find_emplace_other; assumption|].
  split; [exact Hfree2|].
  intros l' id' Hin. rewrite Hreg2 in Hin. rewrite Hfree2.
  rewrite Hfree in Hnd. apply NoDup_cons in Hnd as [Hid Hnd].
  destruct (registry_emplace_elem _ _ _ _ Hin) as [Heq|Hold].
  - injection Heq as -> ->. exact Hid.
  - specialize (Hused l' id' Hold). rewrite Hfree in Hused.
    apply not_elem_of_cons in Hused as [_ Hused]. exact Hused.
Qed.

Lemma set_insert_least (i : Z) (l : list Z) :
  (forall x, x ∈ l -> i < x) -> set_insert i l = i :: l.
Proof.
  destruct l as [|y rest]; [reflexivity|]. intros Hlt. simpl.
  assert (i < y) by (apply Hlt, elem_of_cons; left; reflexivity).
  destruct (i <? y) eqn:Hiy; [reflexivity | apply Z.ltb_ge in Hiy; lia].
Qed.

(** X15: [unregisterLight] puts the id back into the pool but leaves the
    registry entry.  When the id is then the lowest free one, the next
    descriptor that is enabled gets it too: two registered descriptors
    share the id, and the light data stored under it is that of the
    second. *)
Theorem unregisterLight_reuses_id (a b : LightParameters) (i : Z) (s : State) :
  LightSet_ok (activeLightSet (internalData s)) ->
  registry_find a (lightRegistry (internalData s)) = Some i ->
  registry_find b (lightRegistry (internalData s)) = None ->
  equivalent b a = false ->
  (forall x, x ∈ freeLightIds (internalData s) -> i < x) ->
  exists s' : State,
    (unregisterLight i;; enableLight b) s = (Returns i, s') /\
    registry_find a (lightRegistry (internalData s')) = Some i /\
    registry_find b (lightRegistry (internalData s')) = Some i /\
    (slot_ok (slot_LightData (cache (internalData s))) ->
     lightData (internalData s') !! i = Some b).
Proof.
  intros Hok Ha Hb Hne Hleast.
  set (s0 := set_internalData
               (set_freeLightIds (i :: freeLightIds (internalData s)) (internalData s)) s).
  assert (Hun : unregisterLight i s = (Returns tt, s0)).
  { unfold unregisterLight, modifyData. rewrite (set_insert_least i _ Hleast). reflexivity. }
  rewrite (bind_returns _ _ _ _ _ Hun).
  destruct (registerLight_free b s0 i (freeLightIds (internalData s)) eq_refl)
    as (s1 & Hreg & Hfree1 & Hd1 & _).
  set (s2 := set_internalData
               (set_lightRegistry
                  (registry_emplace b i (lightRegistry (internalData s1)))
                  (internalData s1)) s1).
  assert (Hok2 : LightSet_ok (activeLightSet (internalData s2)))
    by (subst s2; simpl; rewrite Hd1; exact Hok).
  destruct (enableLight_id_effect i s2 Hok2) as (s' & Hen & Hreg' & _ & Hcache' & _).
  exists s'. split.
  { unfold enableLight. erewrite bind_returns by reflexivity. cbv beta.
    change (lightRegistry (internalData s0)) with (lightRegistry (internalData s)).
    rewrite Hb.
    erewrite bind_returns; cycle 1.
    { erewrite bind_returns by exact Hreg. cbv beta.
      erewrite bind_returns by reflexivity. reflexivity. }
    cbv beta. fold s2. rewrite (bind_returns _ _ _ _ _ Hen). reflexivity. }
  assert (Hreg2 : lightRegistry (internalData s') =
                  registry_emplace b i (lightRegistry (internalData s))).
  { rewrite Hreg'. subst s2. simpl. rewrite Hd1. reflexivity. }
  rewrite Hreg2.
  split; [rewrite registry_find_emplace_other by assumption; exact Ha|].
  split; [apply registry_find_emplace, Hb|].
  intros Hslot. unfold lightData. rewrite Hcache'. subst s2. simpl. rewrite Hd1. simpl.
  rewrite (proj1 (slot_setParameter_records i b _ Hslot)).
  apply lookup_insert_eq.
Qed.

Lemma set_erase_elem (x y : Z) (l : list Z) :
  StronglySorted Z.lt l -> (y ∈ set_erase x l) <-> (y ∈ l) /\ y <> x.
Proof.
  induction l as [|z rest IH]; intros Hsorted; simpl.
  - split; [intros Hin; inversion Hin | intros [Hin _]; exact Hin].
  - apply StronglySorted_inv in Hsorted as [Hrest Hall].
    rewrite List.Forall_forall in Hall.
    destruct (x =? z) eqn:Hxz.
    + apply Z.eqb_eq in Hxz. subst z. rewrite elem_of_cons. split.
      * intros Hin. split; [right; exact Hin|]. intros ->.
        apply list_elem_of_In in Hin. specialize (Hall x Hin). lia.
      * intros [[->|Hin] Hne]; [contradiction | exact Hin].
    + apply Z.eqb_neq in Hxz. rewrite !elem_of_cons, (IH Hrest). split.
      * intros [->|[Hin Hne]];
          [split; [left; reflexivity | congruence] | split; [right|]; assumption].
      * intros [[->|Hin] Hne]; [left; reflexivity | right; split; assumption].
Qed.

Lemma set_count_elem (x : Z) (l : list Z) : (0 <? set_count x l) = true <-> (x ∈ l).
Proof.
  unfold set_count. split.
  - destruct (existsb (Z.eqb x) l) eqn:Hex; [|discriminate]. intros _.
    apply existsb_exists in Hex as (y & Hin & Heq). apply Z.eqb_eq in Heq. subst y.
    apply list_elem_of_In. exact Hin.
  - intros Hin. apply list_elem_of_In in Hin.
    assert (Hex : existsb (Z.eqb x) l = true)
      by (apply existsb_exists; exists x; split; [exact Hin | apply Z.eqb_refl]).
    rewrite Hex. reflexivity.
Qed.

(** X16: [setLight(n, light)] stores the descriptor under [n] and takes
    [n], and nothing else, out of the pool of free ids, so that
    [registerLight] cannot hand it out; the registry and the active set
    are as before. *)
Theorem setLight_takes_id (n : Z) (light : LightParameters) (s : State) :
  StronglySorted Z.lt (freeLightIds (internalData s)) ->
  exists s' : State,
    setLight n light s = (Returns tt, s') /\
    (forall x, (x ∈ freeLightIds (internalData s')) <->
               (x ∈ freeLightIds (internalData s)) /\ x <> n) /\
    StronglySorted Z.lt (freeLightIds (internalData s')) /\
    (slot_ok (slot_LightData (cache (internalData s))) ->
     lightData (internalData s') = <[n := light]> (lightData (internalData s))) /\
    lightRegistry (internalData s') = lightRegistry (internalData s) /\
    activeLightSet (internalData s') = activeLightSet (internalData s) /\
    warnings s' = warnings s /\ history s' = history s.
Proof.
  intros Hsorted. unfold setLight.
  erewrite bind_returns by reflexivity. cbv beta.
  destruct (0 <? set_count n (freeLightIds (internalData s))) eqn:Hcount.
  - unfold_monad. simpl. eexists. split; [reflexivity|]. simpl.
    split; [intros x; apply set_erase_elem, Hsorted|].
    split; [apply set_erase_sorted, Hsorted|].
    split; [|repeat split].
    intros Hslot. unfold lightData. simpl.
    apply (proj1 (slot_setParameter_records n light _ Hslot)).
  - unfold_monad. simpl. eexists. split; [reflexivity|]. simpl.
    split.
    { intros x. split; [|intros [Hin _]; exact Hin].
      intros Hin. split; [exact Hin|]. intros ->.
      apply set_count_elem in Hin. congruence. }
    split; [exact Hsorted|].
    split; [|repeat split].
    intros Hslot. unfold lightData. simpl.
    apply (proj1 (slot_setParameter_records n light _ Hslot)).
Qed.

(** X17: with the pool of free ids exhausted, [enableLight] of a
    descriptor that is not registered reports the failed registration,
    but goes on: the descriptor is registered under the sentinel 255,
    255 is returned, and 255 is enabled like a hardware id when the
    active set has room. *)
Theorem enableLight_exhausted (light : LightParameters) (s : State) :
  let set := activeLightSet (internalData s) in
  LightSet_ok set ->
  freeLightIds (internalData s) = [] ->
  registry_find light (lightRegistry (internalData s)) = None ->
  exists s' : State,
    enableLight light s = (Returns 255, s') /\
    registry_find light (lightRegistry (internalData s')) = Some 255 /\
    "Cannot register more lights; ignoring call." ∈ warnings s' /\
    (255 ∉ active set -> count set < MAX_ENABLED_LIGHTS ->
     active (activeLightSet (internalData s')) = (active set ++ [255])%list).
Proof.
  intros set Hok Hfree Hfind. subst set.
  pose proof (registerLight_exhausted light s Hfree) as Hreg.
  set (s1 := set_warnings (warnings s ++ ["Cannot register more lights; ignoring call."]) s)
    in Hreg.
  set (s2 := set_internalData
               (set_lightRegistry
                  (registry_emplace light 255 (lightRegistry (internalData s1)))
                  (internalData s1)) s1).
  assert (Hok2 : LightSet_ok (activeLightSet (internalData s2))) by exact Hok.
  destruct (enableLight_id_effect 255 s2 Hok2)
    as (s' & Hen & Hreg' & _ & _ & _ & Hcases).
  exists s'. split.
  { unfold enableLight. erewrite bind_returns by reflexivity. cbv beta. rewrite Hfind.
    erewrite bind_returns; cycle 1.
    { erewrite bind_returns by exact Hreg. cbv beta.
      erewrite bind_returns by reflexivity. reflexivity. }
    cbv beta. fold s2. rewrite (bind_returns _ _ _ _ _ Hen). reflexivity. }
  split; [rewrite Hreg'; apply registry_find_emplace, Hfind|].
  assert (Hwarn : exists w, warnings s' =
            ((warnings s ++ ["Cannot register more lights; ignoring call."]) ++ w)%list).
  { destruct Hcases as [[_ ->]|[(_ & _ & _ & Hw)|(_ & _ & _ & Hw)]].
    - exists []. rewrite app_nil_r. reflexivity.
    - eexists. exact Hw.
    - exists []. rewrite app_nil_r. exact Hw. }
  split.
  { destruct Hwarn as (w & ->). apply elem_of_app. left. apply elem_of_app. right.
    apply elem_of_cons. left. reflexivity. }
  intros Hnot Hroom.
  destruct Hcases as [[Hin _]|[(_ & Hfull & _)|(_ & _ & Hactive & _)]].
  - contradiction.
  - change (activeLightSet (internalData s2)) with (activeLightSet (internalData s)) in Hfull.
    lia.
  - exact Hactive.
Qed.

Lemma preserves_category (C : Category) :
  preserves activeLightSet (push C) /\
  (forall v, preserves activeLightSet (set C v)) /\
  preserves activeLightSet (pop C).
Proof.
  destruct C; cbn [push set pop argT valueT];
    (split; [|split; [intros v|]]); unfold_scoped; repeat preserves_step.
Qed.

Lemma call_LightSet_ok (c : Call) (s : State) :
  LightSet_ok (activeLightSet (internalData s)) ->
  LightSet_ok (activeLightSet (internalData (snd (call c s)))).
Proof.
  intros Hok.
  assert (Hpres : forall m : M unit, preserves activeLightSet m ->
            LightSet_ok (activeLightSet (internalData (snd (m s)))))
    by (intros m Hm; rewrite (Hm s); exact Hok).
  destruct c; cbn [call];
    try solve [apply Hpres;
         first [ apply preserves_category
               | unfold drawArrays, drawElements, flush, finish, barrier, dispatchCompute,
                   dispatchComputeIndirect, cache_addObjectData, cache_swapObjectData,
                   setLight, unregisterLight, resetMatrix, multMatrix_modelToCamera,
                   setMatrix_modelToCamera, _startTransformFeedback;
                 repeat preserves_step ]].
  - (* enableLight *)
    destruct (enableLight_returns light s Hok) as (id & s1 & s' & Heq & Hals & _ & _ & Hen).
    rewrite (bind_returns _ _ _ _ _ Heq). simpl.
    assert (Hok1 : LightSet_ok (activeLightSet (internalData s1))) by (rewrite Hals; exact Hok).
    destruct (enableLight_id_effect id s1 Hok1) as (s2 & Hen2 & _ & _ & _ & Hok2 & _).
    congruence.
  - (* enableLight(id) *)
    destruct (enableLight_id_effect lightNumber s Hok) as (s2 & Hen2 & _ & _ & _ & Hok2 & _).
    rewrite Hen2. exact Hok2.
  - (* disableLight *)
    apply disableLight_ok, Hok.
Qed.

(** X18: whatever calls a program makes on a fresh context, and wherever
    an exception ends it, afterwards between 0 and [MAX_ENABLED_LIGHTS]
    hardware ids are enabled and none of them twice. *)
Theorem run_LightSet_ok (prog : list Call) :
  LightSet_ok (activeLightSet (internalData (snd (run prog initialState)))).
Proof.
  generalize initial_LightSet_ok. generalize initialState.
  induction prog as [|c rest IH]; intros s Hok; [exact Hok|].
  cbn [run]. pose proof (call_LightSet_ok c s Hok) as Hc.
  unfold mbind, M_bind, bind. destruct (call c s) as [[u|e] s1]; simpl in *.
  - apply IH, Hc.
  - exact Hc.
Qed.

End MoreLights.

(** ** Programs of valid calls *)

Section ProgramProperties.
Context `{Collaborators}.

Lemma silent_getData : silent getData.
Proof. intros s. exists (internalData s), s. split; reflexivity. Qed.

Lemma silent_emit (evs : list Event) : silent (emit evs).
Proof. intros s. eexists tt, _. split; reflexivity. Qed.

Lemma run_app (p1 p2 : list Call) (s : State) :
  run (p1 ++ p2) s = (run p1;; run p2) s.
Proof.
  revert s. induction p1 as [|c rest IH]; intros s; simpl.
  - reflexivity.
  - unfold mbind, M_bind, bind in *. destruct (call c s) as [[[]|e] s1]; [apply IH | reflexivity].
Qed.

Lemma target_exists (C : Category) (d : InternalData) :
  arrays_ok d -> valid_category C = true -> is_Some (target C d).
Proof.
  intros (H1 & H2 & H3 & H4 & H5) Hvalid.
  destruct C; simpl in *; try (eexists; reflexivity); rewrite Hvalid;
    apply lookup_lt_is_Some_2; apply Nat.ltb_lt in Hvalid; lia.
Qed.

Lemma popMaterial_returns (s : State) :
  arrays_ok (internalData s) ->
  exists s' : State, popMaterial s = (Returns tt, s') /\ arrays_ok (internalData s').
Proof.
  intros Hok. unfold popMaterial. unfold_monad.
  destruct (materialStack (internalData s)) as [|top [|below rest]] eqn:Hstack; simpl;
    rewrite ?Hstack; simpl; eexists; (split; [reflexivity | exact Hok]).
Qed.

(** On an empty stack [pop] returns and leaves the context data alone. *)
Lemma pop_empty_returns (C : Category) (s : State) :
  stack C (internalData s) = Some [] ->
  exists s' : State, pop C s = (Returns tt, s') /\ internalData s' = internalData s.
Proof.
  intros Hempty.
  destruct C; simpl in Hempty;
    try (injection Hempty as Hempty);
    cbn [pop];
    try (unfold_scoped; unfold_monad; rewrite Hempty; eexists; split; reflexivity).
  - destruct (unit_ <? MAX_BOUND_IMAGES)%nat eqn:Hunit; [|discriminate].
    apply Nat.ltb_lt in Hunit.
    unfold popBoundImage, assertCorrectImageUnit. unfold_monad.
    destruct (MAX_BOUND_IMAGES <=? unit_)%nat eqn:Hle; [apply Nat.leb_le in Hle; lia|].
    rewrite Hempty. simpl. eexists. split; reflexivity.
  - destruct (unit_ <? MAX_TEXTURES)%nat eqn:Hunit; [|discriminate].
    apply Nat.ltb_lt in Hunit.
    unfold popTexture, at_MAX_TEXTURES. unfold_monad.
    destruct (MAX_TEXTURES <=? unit_)%nat eqn:Hle; [apply Nat.leb_le in Hle; lia|].
    rewrite Hempty. simpl. eexists. split; reflexivity.
Qed.

Lemma pop_returns (C : Category) (s : State) :
  textures_available ->
  arrays_ok (internalData s) -> valid_category C = true ->
  exists s' : State, pop C s = (Returns tt, s') /\ arrays_ok (internalData s').
Proof.
  intros Htex Hok Hvalid.
  destruct (stack_exists C _ Hok (target_exists C _ Hok Hvalid)) as ([|top rest] & Hst).
  - destruct (pop_empty_returns C s Hst) as (s' & Heq & Hd).
    exists s'. split; [exact Heq|]. rewrite Hd. exact Hok.
  - assert (Hcase : C = Material \/ C <> Material)
      by (destruct C; first [left; reflexivity | right; discriminate]).
    destruct Hcase as [Hmat|Hmat]; [subst C; apply popMaterial_returns, Hok|].
    destruct (pop_effect C top rest s Hmat Hok Htex Hst) as (s' & Heq & _ & _ & Hok').
    exists s'. split; assumption.
Qed.

Ltac safe_step :=
  first
    [ apply hoare_applyChanges; intros ? ? ? Hd; exact Hd
    | apply (hoare_bind _ _ (fun _ => on_data arrays_ok)); [|intros ?]
    | apply hoare_ret
    | apply hoare_modifyData; intros ? Hd; exact Hd
    | apply silent_hoare;
      first [ apply silent_getData | apply silent_emit | apply silent_gl | apply silent_WARN
            | apply silent_GET_GL_ERROR | apply silent_requestTransformFeedbackSupport ]
    | match goal with
      | |- hoare _ (if ?b then _ else _) _ => destruct b
      | |- hoare _ (match ?x with _ => _ end) _ => destruct x
      end
    | progress cbv zeta ].

(** Every valid call returns, with the arrays of the context as long as
    they were. *)
Lemma call_returns (c : Call) (s : State) :
  textures_available -> buffers_available ->
  arrays_ok (internalData s) -> valid_call c = true ->
  exists s' : State, call c s = (Returns tt, s') /\ arrays_ok (internalData s').
Proof.
  intros Htex Hbuf Hok Hvalid.
  assert (Hsafe : forall m : M unit,
            hoare (on_data arrays_ok) m (fun _ => on_data arrays_ok) ->
            exists s' : State, m s = (Returns tt, s') /\ arrays_ok (internalData s')).
  { intros m Hm. destruct (Hm s Hok) as ([] & s' & Heq & Hok'). exists s'. split; assumption. }
  destruct c; cbn [call valid_call] in *;
    try solve [apply Hsafe;
               unfold drawArrays, drawElements, flush, finish, barrier, dispatchCompute,
                 dispatchComputeIndirect, cache_addObjectData, cache_swapObjectData,
                 enableLight, registerLight, enableLight_id, disableLight,
                 setLight, unregisterLight, resetMatrix, multMatrix_modelToCamera,
                 setMatrix_modelToCamera, _startTransformFeedback;
               repeat safe_step].
  - (* push *)
    destruct (target_exists C _ Hok Hvalid) as (cur & Hcur).
    destruct (stack_exists C _ Hok (ex_intro _ cur Hcur)) as (st & Hst).
    destruct (push_effect C s cur st Hok Hcur Hst) as (s' & Heq & _ & _ & Hok').
    exists s'. split; assumption.
  - (* set *)
    destruct (set_effect C v s Hok Htex Hbuf
                (stack_exists C _ Hok (target_exists C _ Hok Hvalid)))
      as (s' & Heq & _ & _ & Hok').
    exists s'. split; assumption.
  - (* pop *)
    apply pop_returns; assumption.
Qed.

Lemma run_returns_ok (prog : list Call) (s : State) :
  textures_available -> buffers_available ->
  arrays_ok (internalData s) ->
  forallb valid_call prog = true ->
  exists s' : State, run prog s = (Returns tt, s') /\ arrays_ok (internalData s').
Proof.
  intros Htex Hbuf. revert s.
  induction prog as [|c rest IH]; intros s Hok Hvalid; simpl in *.
  - exists s. split; [reflexivity | exact Hok].
  - apply andb_true_iff in Hvalid as [Hc Hrest].
    destruct (call_returns c s Htex Hbuf Hok Hc) as (s1 & Heq1 & Hok1).
    destruct (IH s1 Hok1 Hrest) as (s' & Heq & Hok').
    exists s'. split; [|exact Hok']. rewrite (bind_returns _ _ _ _ _ Heq1). exact Heq.
Qed.

Lemma preserves_insertFreeLightIds {X : Type} (f : InternalData -> X) :
  (forall d ids, f (set_freeLightIds ids d) = f d) ->
  forall (n : nat) (i : Z) (d : InternalData), f (insertFreeLightIds i n d) = f d.
Proof.
  intros Hf. induction n as [|n IH]; intros i d; simpl; [reflexivity|].
  rewrite IH. apply Hf.
Qed.

Lemma initial_arrays_ok : arrays_ok (internalData initialState).
Proof.
  unfold initialState, RenderingContext_ctor.
  unfold setBlending, setColorBuffer, setCullFace, setDepthBuffer, setLine,
    setPointParameters, setPolygonOffset, setStencil.
  unfold_monad. cbn [snd internalData set_internalData].
  unfold arrays_ok.
  rewrite !(preserves_insertFreeLightIds imageStacks) by reflexivity.
  rewrite !(preserves_insertFreeLightIds boundImages) by reflexivity.
  rewrite !(preserves_insertFreeLightIds textureStacks) by reflexivity.
  rewrite !(preserves_insertFreeLightIds enabledTextures) by reflexivity.
  rewrite !(preserves_insertFreeLightIds targetPipelineState) by reflexivity.
  cbn. rewrite !length_replicate, length_map, length_seq. repeat split; reflexivity.
Qed.

(** X19: on a fresh context whose device provides the textures and
    buffers it is asked for, a program whose calls name only image and
    texture units of the arrays runs to its end: no call throws. *)
Theorem fresh_run_returns (prog : list Call) :
  textures_available -> buffers_available ->
  forallb valid_call prog = true ->
  exists s' : State, run prog initialState = (Returns tt, s').
Proof.
  intros Htex Hbuf Hvalid.
  destruct (run_returns_ok prog initialState Htex Hbuf initial_arrays_ok Hvalid)
    as (s' & Heq & _).
  exists s'. exact Heq.
Qed.

Lemma keeps_stack_set (C C' : Category) (v : argT C') :
  preserves (stack C) (set C' v).
Proof.
  destruct C'; cbn [set argT valueT] in *; unfold_scoped;
    repeat first
      [ apply preserves_modifyData; intros d; destruct C; reflexivity
      | apply preserves_applyChanges; intros d ? ?; destruct C; reflexivity
      | preserves_step ].
Qed.

Lemma call_keeps_stack (C : Category) (c : Call) :
  outside C c -> preserves (stack C) (call c).
Proof.
  intros Hout.
  destruct c; cbn [call outside] in *;
    try solve [unfold drawArrays, drawElements, flush, finish, barrier, dispatchCompute,
                 dispatchComputeIndirect, cache_addObjectData, cache_swapObjectData,
                 enableLight, registerLight, enableLight_id, disableLight,
                 setLight, unregisterLight, resetMatrix, multMatrix_modelToCamera,
                 setMatrix_modelToCamera, _startTransformFeedback;
               repeat first
                 [ apply preserves_modifyData; intros d; destruct C; reflexivity
                 | apply preserves_applyChanges; intros d ? ?; destruct C; reflexivity
                 | preserves_step ]].
  - intros s. apply (proj1 (stack_isolation C C0 (not_eq_sym Hout))).
  - apply keeps_stack_set.
  - intros s. apply (proj2 (proj2 (stack_isolation C C0 (not_eq_sym Hout)))).
Qed.

Lemma run_keeps_stack (C : Category) (prog : list Call) :
  Forall (outside C) prog -> preserves (stack C) (run prog).
Proof.
  induction 1 as [|c rest Hc Hrest IH]; simpl.
  - apply preserves_ret.
  - apply preserves_bind; [apply call_keeps_stack, Hc | intros _; exact IH].
Qed.

(** X2: a scope restores its category.  After [push(C)], any program
    of valid calls that neither pushes nor pops [C] itself, and
    [pop(C)], the target value of [C] is the one from before the push,
    whatever the program set in between and whatever it did to other
    categories; material excepted. *)
Theorem scope_restores (C : Category) (prog : list Call) (s : State) (cur : valueT C) :
  C <> Material ->
  textures_available -> buffers_available ->
  arrays_ok (internalData s) ->
  Forall (outside C) prog ->
  forallb valid_call prog = true ->
  target C (internalData s) = Some cur ->
  exists s' : State,
    run (c_push C :: prog ++ [c_pop C]) s = (Returns tt, s') /\
    target C (internalData s') = Some cur.
Proof.
  intros Hmat Htex Hbuf Hok Hout Hvalid Hcur.
  destruct (stack_exists C _ Hok (ex_intro _ cur Hcur)) as (st & Hst).
  destruct (push_effect C s cur st Hok Hcur Hst) as (s1 & Heq1 & _ & Hs1 & Hok1).
  destruct (run_returns_ok prog s1 Htex Hbuf Hok1 Hvalid) as (s2 & Heq2 & Hok2).
  assert (Hs2 : stack C (internalData s2) = Some (cur :: st)).
  { rewrite <- Hs1. pose proof (run_keeps_stack C prog Hout s1) as Hk.
    rewrite Heq2 in Hk. exact Hk. }
  destruct (pop_effect C cur st s2 Hmat Hok2 Htex Hs2) as (s3 & Heq3 & Ht3 & _).
  exists s3. split; [|exact Ht3].
  cbn [run call]. rewrite (bind_returns _ _ _ _ _ Heq1).
  rewrite run_app. rewrite (bind_returns _ _ _ _ _ Heq2).
  cbn [run call]. rewrite (bind_returns _ _ _ _ _ Heq3). reflexivity.
Qed.

End ProgramProperties.

(** ** More on mesh vertex data *)

Section MoreMesh.
Context `{BufferDevice}.

Lemma hasLocalData_nil (v : MeshVertexData) :
  VertexData.hasLocalData v = false <-> binaryData v = [].
Proof.
  unfold VertexData.hasLocalData. rewrite negb_false_iff, bool_decide_eq_true. reflexivity.
Qed.

Lemma upload_frame (usage : Z) (v : MeshVertexData) :
  let v' := snd (fst (VertexData.upload usage v)) in
  binaryData v' = binaryData v /\ vertexCount v' = vertexCount v /\
  vertexDescription v' = vertexDescription v /\ bb v' = bb v.
Proof.
  cbv zeta. unfold VertexData.upload.
  destruct (_ || _); [repeat split|].
  destruct (VertexData.isUploaded v); simpl;
    destruct (BufferObject_uploadData _ _ _ _); repeat split.
Qed.

(** X20: [prepare] changes neither the number of vertices, nor their
    format, nor the bounding box.  The local vertex data are kept as
    they are or released, and they are released only when the strategy
    does not preserve local data and the vertex data are on the device
    afterwards; with such a strategy they are never both in local
    memory and on the device afterwards. *)
Theorem prepare_vertex_residency (flags : Z) (m : Mesh) :
  let v := vertexData m in
  let v' := vertexData (prepared_mesh (prepare flags m)) in
  vertexCount v' = vertexCount v /\
  vertexDescription v' = vertexDescription v /\
  bb v' = bb v /\
  (binaryData v' = binaryData v \/
   (binaryData v' = [] /\ VertexData.isUploaded v' = true /\
    getFlag flags PRESERVE_LOCAL_DATA = false)) /\
  (getFlag flags PRESERVE_LOCAL_DATA = false ->
   VertexData.isUploaded v' && VertexData.hasLocalData v' = false).
Proof.
  cbv zeta. unfold prepare.
  destruct (prepare_indices flags (indexData m)) as [[id cout1] warn1].
  unfold prepare_vertices.
  set (v := vertexData m).
  set (step1 :=
    if VertexData.empty v && VertexData.isUploaded v
    then (VertexData.removeGlBuffer v, debug flags " ~vBO", [])
    else if negb (VertexData.empty v) && (VertexData.hasChanged v || negb (VertexData.isUploaded v))
         then let '(_, vd', w) :=
                VertexData.upload
                  (Z.lor (if getFlag flags DYNAMIC_VERTICES then FLAGS_DYNAMIC else FLAGS_STATIC)
                         (if getFlag flags CLIENT_STORAGE then FLAG_CLIENT_STORAGE else 0)) v in
              (vd', debug flags " +vBO", w)
         else (v, [], [])).
  assert (Hframe : binaryData (fst (fst step1)) = binaryData v /\
                   vertexCount (fst (fst step1)) = vertexCount v /\
                   vertexDescription (fst (fst step1)) = vertexDescription v /\
                   bb (fst (fst step1)) = bb v).
  { subst step1. destruct (_ && _); [repeat split|].
    destruct (_ && _); [|repeat split].
    pose proof (upload_frame
      (Z.lor (if getFlag flags DYNAMIC_VERTICES then FLAGS_DYNAMIC else FLAGS_STATIC)
             (if getFlag flags CLIENT_STORAGE then FLAG_CLIENT_STORAGE else 0)) v) as Hup.
    cbv zeta in Hup. destruct (VertexData.upload _ v) as [[r vd'] w]. exact Hup. }
  destruct step1 as [[vd1 cout] warn]. simpl in Hframe.
  destruct Hframe as (Hdata & Hcount & Hdesc & Hbb).
  destruct (getFlag flags PRESERVE_LOCAL_DATA) eqn:Hflag; simpl.
  - split; [exact Hcount|]. split; [exact Hdesc|]. split; [exact Hbb|].
    split; [left; exact Hdata | discriminate].
  - destruct (VertexData.isUploaded vd1) eqn:Hup; simpl.
    + destruct (VertexData.hasLocalData vd1) eqn:Hlocal; simpl.
      * split; [exact Hcount|]. split; [exact Hdesc|]. split; [exact Hbb|].
        split; [right; repeat split; exact Hup|].
        intros _. apply andb_false_r.
      * split; [exact Hcount|]. split; [exact Hdesc|]. split; [exact Hbb|].
        split; [left; exact Hdata|].
        intros _. rewrite Hlocal. apply andb_false_r.
    + split; [exact Hcount|]. split; [exact Hdesc|]. split; [exact Hbb|].
      split; [left; exact Hdata|].
      intros _. rewrite Hup. reflexivity.
Qed.

(** X21: [prepare] on vertex data that are changed or not yet on the
    device, with at least one vertex and local data: when the device
    takes the data, they are in the buffer it returned and no longer
    marked as changed, and the local data are released unless the
    strategy preserves them or the buffer is not valid; when the device
    refuses, the vertex data are not on the device, the local data and
    the mark are kept, and the upload failure is reported. *)
Theorem prepare_uploads (flags : Z) (m : Mesh) :
  let v := vertexData m in
  let v' := vertexData (prepared_mesh (prepare flags m)) in
  let usage :=
    Z.lor (if getFlag flags DYNAMIC_VERTICES then FLAGS_DYNAMIC else FLAGS_STATIC)
          (if getFlag flags CLIENT_STORAGE then FLAG_CLIENT_STORAGE else 0) in
  let buffer :=
    if VertexData.isUploaded v then BufferObject_destroy (bufferObject v) else bufferObject v in
  vertexCount v <> 0 ->
  binaryData v <> [] ->
  dataChanged v = true \/ VertexData.isUploaded v = false ->
  match BufferObject_uploadData buffer GL_ARRAY_BUFFER (binaryData v) usage with
  | Returns b =>
    bufferObject v' = b /\ dataChanged v' = false /\
    binaryData v' =
      (if getFlag flags PRESERVE_LOCAL_DATA || negb (BufferObject_isValid b)
       then binaryData v else [])
  | Throws _ =>
    VertexData.isUploaded v' = false /\ binaryData v' = binaryData v /\
    dataChanged v' = dataChanged v /\
    "VBO: upload failed" ∈ prepared_warnings (prepare flags m)
  end.
Proof.
  cbv zeta. intros Hcount Hdata Hwhy.
  set (v := vertexData m) in *.
  set (usage := Z.lor (if getFlag flags DYNAMIC_VERTICES then FLAGS_DYNAMIC else FLAGS_STATIC)
                      (if getFlag flags CLIENT_STORAGE then FLAG_CLIENT_STORAGE else 0)).
  set (v1 := if VertexData.isUploaded v then VertexData.removeGlBuffer v else v).
  assert (Hbuf : bufferObject v1 = if VertexData.isUploaded v
                                   then BufferObject_destroy (bufferObject v) else bufferObject v)
    by (subst v1; destruct (VertexData.isUploaded v); reflexivity).
  assert (Hbin : binaryData v1 = binaryData v)
    by (subst v1; destruct (VertexData.isUploaded v); reflexivity).
  assert (Hch : dataChanged v1 = dataChanged v)
    by (subst v1; destruct (VertexData.isUploaded v); reflexivity).
  assert (Hlocal : bool_decide (binaryData v = []) = false)
    by (apply bool_decide_eq_false; exact Hdata).
  assert (Hpv : prepare_vertices flags v =
    match BufferObject_uploadData (bufferObject v1) GL_ARRAY_BUFFER (binaryData v1) usage with
    | Returns b =>
      let u := set_dataChanged false (set_bufferObject b v1) in
      if negb (getFlag flags PRESERVE_LOCAL_DATA) && BufferObject_isValid b
      then (VertexData.releaseLocalData u, (debug flags " +vBO" ++ debug flags " ~vLD")%list, [])
      else (u, debug flags " +vBO", [])
    | Throws _ => (VertexData.removeGlBuffer v1, debug flags " +vBO", ["VBO: upload failed"])
    end).
  { unfold prepare_vertices.
    assert (Hempty : VertexData.empty v = false)
      by (unfold VertexData.empty; apply Z.eqb_neq; exact Hcount).
    assert (Hwhy' : VertexData.hasChanged v || negb (VertexData.isUploaded v) = true).
    { unfold VertexData.hasChanged. destruct Hwhy as [->| ->]; [reflexivity|].
      apply orb_true_r. }
    rewrite Hempty, Hwhy'. cbn [andb negb].
    unfold VertexData.upload. rewrite (proj2 (Z.eqb_neq _ _) Hcount), Hlocal. cbn [orb].
    fold v1. fold usage.
    destruct (BufferObject_uploadData (bufferObject v1) GL_ARRAY_BUFFER (binaryData v1) usage)
      as [b|e]; cbv zeta.
    - change (VertexData.isUploaded (set_dataChanged false (set_bufferObject b v1)))
        with (BufferObject_isValid b).
      assert (Hl : VertexData.hasLocalData (set_dataChanged false (set_bufferObject b v1)) = true).
      { unfold VertexData.hasLocalData.
        change (binaryData (set_dataChanged false (set_bufferObject b v1))) with (binaryData v1).
        rewrite Hbin, Hlocal. reflexivity. }
      rewrite Hl, andb_true_r. reflexivity.
    - change (VertexData.isUploaded (VertexData.removeGlBuffer v1)) with false.
      rewrite andb_false_r. reflexivity. }
  unfold prepare.
  destruct (prepare_indices flags (indexData m)) as [[id cout1] warn1].
  fold v. rewrite Hpv. rewrite Hbuf, Hbin.
  destruct (BufferObject_uploadData _ GL_ARRAY_BUFFER (binaryData v) usage) as [b|e].
  - cbv zeta.
    destruct (getFlag flags PRESERVE_LOCAL_DATA); cbn [negb andb orb].
    + repeat split. exact Hbin.
    + destruct (BufferObject_isValid b); cbn [negb]; repeat split. exact Hbin.
  - cbn [prepared_mesh vertexData prepared_warnings].
    split; [reflexivity|]. split; [exact Hbin|]. split; [exact Hch|].
    apply elem_of_app. right. apply elem_of_cons. left. reflexivity.
Qed.

(** The two steps of the vertex half of [prepare]: first the buffer is
    removed, filled or left alone, then the local data are released or
    kept. *)
Lemma prepare_vertices_steps (flags : Z) (v : MeshVertexData) :
  exists vd1 : MeshVertexData,
    fst (fst (prepare_vertices flags v)) =
      (if negb (getFlag flags PRESERVE_LOCAL_DATA) && VertexData.isUploaded vd1
          && VertexData.hasLocalData vd1
       then VertexData.releaseLocalData vd1 else vd1) /\
    (VertexData.isUploaded vd1 = true ->
     vertexCount vd1 <> 0 /\ (dataChanged vd1 = false \/ binaryData vd1 = [])) /\
    (VertexData.isUploaded v = true -> vertexCount v <> 0 ->
     dataChanged v = false \/ binaryData v = [] -> vd1 = v).
Proof.
  unfold prepare_vertices.
  destruct (VertexData.empty v && VertexData.isUploaded v) eqn:Hrm.
  - exists (VertexData.removeGlBuffer v).
    split; [destruct (negb _ && _ && _); reflexivity|]. split.
    + intros Hup. discriminate Hup.
    + intros _ Hcount _. apply andb_true_iff in Hrm as [Hempty _].
      apply Z.eqb_eq in Hempty. contradiction.
  - destruct (negb (VertexData.empty v)
              && (VertexData.hasChanged v || negb (VertexData.isUploaded v))) eqn:Hupl.
    + apply andb_true_iff in Hupl as [Hempty Hwhy]. apply negb_true_iff in Hempty.
      assert (Hcount : vertexCount v <> 0) by (apply Z.eqb_neq; exact Hempty).
      destruct (VertexData.upload _ v) as [[r vd'] w] eqn:Hu.
      exists vd'. split; [destruct (negb _ && _ && _); reflexivity|].
      unfold VertexData.upload in Hu. unfold VertexData.empty in Hempty.
      rewrite Hempty in Hu. cbn [orb] in Hu.
      destruct (bool_decide (binaryData v = [])) eqn:Hlocal.
      * injection Hu as _ <- _. apply bool_decide_eq_true in Hlocal.
        split; [intros _; split; [exact Hcount | right; exact Hlocal] | reflexivity].
      * apply bool_decide_eq_false in Hlocal.
        destruct (BufferObject_uploadData _ _ _ _) as [b|e]; injection Hu as _ <- _.
        -- split.
           ++ intros _. split; [|left; reflexivity].
              destruct (VertexData.isUploaded v); exact Hcount.
           ++ intros Hup _ [Hch|Hnil]; [|contradiction].
              unfold VertexData.hasChanged in Hwhy. rewrite Hch, Hup in Hwhy. discriminate Hwhy.
        -- split.
           ++ intros Hup. discriminate Hup.
           ++ intros Hup _ [Hch|Hnil]; [|contradiction].
              unfold VertexData.hasChanged in Hwhy. rewrite Hch, Hup in Hwhy. discriminate Hwhy.
    + exists v. split; [destruct (negb _ && _ && _); reflexivity|]. split; [|reflexivity].
      intros Hup. rewrite Hup, andb_true_r in Hrm. rewrite Hrm, Hup in Hupl.
      cbn [negb andb orb] in Hupl. rewrite orb_false_r in Hupl.
      split; [apply Z.eqb_neq; exact Hrm | left; exact Hupl].
Qed.

(** X22: once the vertex data are on the device after [prepare], a
    second [prepare] leaves them as they are: nothing is uploaded
    again. *)
Theorem prepare_again (flags : Z) (m : Mesh) :
  let m' := prepared_mesh (prepare flags m) in
  VertexData.isUploaded (vertexData m') = true ->
  vertexData (prepared_mesh (prepare flags m')) = vertexData m'.
Proof.
  cbv zeta.
  assert (Hvd : forall m0, vertexData (prepared_mesh (prepare flags m0)) =
                           fst (fst (prepare_vertices flags (vertexData m0)))).
  { intros m0. unfold prepare.
    destruct (prepare_indices flags (indexData m0)) as [[id c1] w1].
    destruct (prepare_vertices flags (vertexData m0)) as [[vd c2] w2]. reflexivity. }
  rewrite !Hvd.
  set (vd := fst (fst (prepare_vertices flags (vertexData m)))).
  intros Hup.
  assert (Hstate : vertexCount vd <> 0 /\
                   (dataChanged vd = false \/ binaryData vd = []) /\
                   (getFlag flags PRESERVE_LOCAL_DATA = true \/ binaryData vd = [])).
  { destruct (prepare_vertices_steps flags (vertexData m)) as (vd1 & Heq & Hfacts & _).
    fold vd in Heq.
    destruct (getFlag flags PRESERVE_LOCAL_DATA) eqn:Hflag; cbn [negb andb] in Heq.
    - rewrite Heq in *. destruct (Hfacts Hup) as [Hc Hd]. auto.
    - destruct (VertexData.isUploaded vd1) eqn:Hup1; cbn [andb] in Heq.
      + destruct (Hfacts eq_refl) as [Hc Hd].
        destruct (VertexData.hasLocalData vd1) eqn:Hlocal; rewrite Heq.
        * split; [exact Hc|]. split; right; reflexivity.
        * apply hasLocalData_nil in Hlocal. auto.
      + rewrite Heq, Hup1 in Hup. discriminate Hup. }
  destruct Hstate as (Hcount & Hchanged & Hlocal).
  destruct (prepare_vertices_steps flags vd) as (vd1 & Heq & _ & Hsame).
  rewrite Heq, (Hsame Hup Hcount Hchanged). rewrite Hup.
  destruct Hlocal as [Hflag|Hnil].
  - rewrite Hflag. reflexivity.
  - rewrite (proj2 (hasLocalData_nil vd) Hnil), andb_false_r. reflexivity.
Qed.

End MoreMesh.

Lemma updateBoundingBox_axes (P : nat -> float -> float -> Prop)
    (v : MeshVertexData) (acc : VertexAttribute) :
  0 < vertexCount v ->
  VertexData.FloatAttributeAccessor_create v POSITION = Returns acc ->
  let n := Z.to_nat (attr_numValues acc) in
  let vals (axis : nat) :=
    map (fun i => default float_zero (VertexData.getValues v acc i !! axis))
        (seq 0 (Z.to_nat (vertexCount v))) in
  (forall axis, (axis < n)%nat ->
     P axis (foldl step_min FLT_MAX (vals axis)) (foldl step_max FLT_LOWEST (vals axis))) ->
  exists box : Box,
    VertexData.updateBoundingBox v = Returns (set_bb box v, []) /\
    forall axis, (axis < 3)%nat -> (axis < n)%nat -> P axis (box_min box axis) (box_max box axis).
Proof.
  intros Hcount Hacc n vals HP.
  unfold VertexData.updateBoundingBox. rewrite Hacc.
  destruct (Z.eqb_spec (vertexCount v) 0) as [Hz|_]; [lia|].
  unfold VertexData.FloatAttributeAccessor_create in Hacc.
  destruct (_ && _) eqn:Hcheck in Hacc; [|discriminate]. injection Hacc as Hattr.
  apply andb_true_iff in Hcheck as [Hnum _]. apply Z.leb_le in Hnum.
  rewrite Hattr in *. fold n.
  assert (Hn : (1 <= n)%nat) by (subst n; lia).
  destruct (Nat.ltb_spec n 1) as [Hlt|_]; [lia|].
  set (ps := map (VertexData.getValues v acc) (seq 0 (Z.to_nat (vertexCount v)))).
  assert (Haxis : forall axis, (axis < n)%nat ->
            P axis (default float_zero (fst (VertexData.minmax n ps) !! axis))
                   (default float_zero (snd (VertexData.minmax n ps) !! axis))).
  { intros axis Hax.
    destruct (minmax_lookup n axis ps Hax) as [Hmin Hmax]. rewrite Hmin, Hmax. simpl.
    subst ps. rewrite column_values. apply HP, Hax. }
  eexists. split; [reflexivity|].
  intros axis Hax3 Haxn.
  destruct (Nat.eqb_spec n 1) as [H1|H1]; [|destruct (Nat.eqb_spec n 2) as [H2|H2]].
  - destruct axis as [|axis]; [|lia]. apply (Haxis 0%nat). lia.
  - destruct axis as [|[|axis]]; [| |lia]; [apply (Haxis 0%nat) | apply (Haxis 1%nat)]; lia.
  - destruct axis as [|[|[|axis]]]; [| | |lia];
      [apply (Haxis 0%nat) | apply (Haxis 1%nat) | apply (Haxis 2%nat)]; lia.
Qed.

(** X23: [updateBoundingBox] for any [float] values, NaN and infinities
    included.  Along every axis of the position no vertex lies below the
    minimum or above the maximum of the box, and neither bound is NaN;
    each bound is the value of a vertex, or still the value the loop
    started from ([FLT_MAX] for the minimum, the lowest [float] for the
    maximum) because no vertex compared below, respectively above, it,
    as when all values are NaN.  Without vertices the box is the default
    box. *)
Theorem updateBoundingBox_any_values (v : MeshVertexData) :
  (vertexCount v = 0 ->
   VertexData.updateBoundingBox v = Returns (set_bb Box_default v, [])) /\
  (forall acc : VertexAttribute,
     0 < vertexCount v ->
     VertexData.FloatAttributeAccessor_create v POSITION = Returns acc ->
     let n := Z.to_nat (attr_numValues acc) in
     let count_ := Z.to_nat (vertexCount v) in
     let value (i axis : nat) := default float_zero (VertexData.getValues v acc i !! axis) in
     exists box : Box,
       VertexData.updateBoundingBox v = Returns (set_bb box v, []) /\
       forall axis, (axis < 3)%nat -> (axis < n)%nat ->
         (forall i, (i < count_)%nat ->
            SFltb (value i axis) (box_min box axis) = false /\
            SFltb (box_max box axis) (value i axis) = false) /\
         is_nan (box_min box axis) = false /\
         is_nan (box_max box axis) = false /\
         ((exists i, (i < count_)%nat /\ value i axis = box_min box axis) \/
          (box_min box axis = FLT_MAX /\
           forall i, (i < count_)%nat -> SFltb (value i axis) FLT_MAX = false)) /\
         ((exists i, (i < count_)%nat /\ value i axis = box_max box axis) \/
          (box_max box axis = FLT_LOWEST /\
           forall i, (i < count_)%nat -> SFltb FLT_LOWEST (value i axis) = false))).
Proof.
  split.
  - intros Hz. unfold VertexData.updateBoundingBox. rewrite Hz. reflexivity.
  - intros acc Hcount Hacc n count_ value.
    apply (updateBoundingBox_axes
             (fun axis mn mx =>
                (forall i, (i < count_)%nat ->
                   SFltb (value i axis) mn = false /\ SFltb mx (value i axis) = false) /\
                is_nan mn = false /\ is_nan mx = false /\
                ((exists i, (i < count_)%nat /\ value i axis = mn) \/
                 (mn = FLT_MAX /\
                  forall i, (i < count_)%nat -> SFltb (value i axis) FLT_MAX = false)) /\
                ((exists i, (i < count_)%nat /\ value i axis = mx) \/
                 (mx = FLT_LOWEST /\
                  forall i, (i < count_)%nat -> SFltb FLT_LOWEST (value i axis) = false)))
             v acc Hcount Hacc).
    intros axis Hax. fold count_.
    set (vals := map (fun i => default float_zero (VertexData.getValues v acc i !! axis))
                     (seq 0 count_)).
    assert (Hmem : forall x, x ∈ vals <-> exists i, (i < count_)%nat /\ value i axis = x).
    { intros x. subst vals. rewrite list_elem_of_fmap. split.
      - intros (i & -> & Hi). apply list_elem_of_In, List.in_seq in Hi.
        exists i. split; [lia | reflexivity].
      - intros (i & Hi & <-). exists i. split; [reflexivity|].
        apply list_elem_of_In, List.in_seq. lia. }
    destruct (fold_min_lower vals FLT_MAX eq_refl) as (Hmn_nan & _ & Hlow).
    destruct (fold_max_upper vals FLT_LOWEST eq_refl) as (Hmx_nan & _ & Hup).
    split; [|split; [exact Hmn_nan|split; [exact Hmx_nan|split]]].
    + intros i Hi. assert (Hin : value i axis ∈ vals) by (apply Hmem; eauto).
      split; [apply Hlow, Hin | apply Hup, Hin].
    + destruct (fold_min_attained vals FLT_MAX) as [Hin|[Heq Hall]].
      * left. apply Hmem, Hin.
      * right. split; [exact Heq|]. intros i Hi. apply Hall, Hmem. eauto.
    + destruct (fold_max_attained vals FLT_LOWEST) as [Hin|[Heq Hall]].
      * left. apply Hmem, Hin.
      * right. split; [exact Heq|]. intros i Hi. apply Hall, Hmem. eauto.
Qed.

(** ** Examples *)

Section Examples.
#[local] Existing Instance simpleEnv.
#[local] Existing Instance simpleCollaborators.

(** [pop_empty_stack] at image unit 3 of a fresh context. *)
Lemma pop_empty_stack_witness :
  stack (BoundImage 3) (internalData initialState) = Some [] /\
  exists (msg : string) (s' : State),
    pop (BoundImage 3) initialState = (Returns tt, s') /\
    warnings s' = (warnings initialState ++ [msg])%list /\
    internalData s' = internalData initialState /\
    history s' = history initialState.
Proof.
  assert (Hempty : stack (BoundImage 3) (internalData initialState) = Some [])
    by (vm_compute; reflexivity).
  split; [exact Hempty|].
  destruct (pop_empty_stack (BoundImage 3) initialState Hempty)
    as (msg & s' & Hpop & Hwarn & Hdata & Hhist & _).
  exists msg, s'. repeat split; assumption.
Defined.

(** [popShader_keeps_stack] after [setShader(7); pushShader();
    setShader(9)]. *)
Lemma popShader_keeps_stack_witness :
  stack Shader (internalData shaderPushed) = Some [7] /\
  exists s' : State,
    pop Shader shaderPushed = (Returns tt, s') /\
    target Shader (internalData s') = Some 7 /\
    stack Shader (internalData s') = Some [7].
Proof.
  assert (Hstack : stack Shader (internalData shaderPushed) = Some [7])
    by (vm_compute; reflexivity).
  split; [exact Hstack|].
  exact (popShader_keeps_stack shaderPushed 7 [] Hstack).
Defined.

(** The shader stack after a pop, computed: it is as long as before. *)
Lemma popShader_example :
  stack Shader (internalData shaderPushed) = Some [7] /\
  fst (pop Shader shaderPushed) = Returns tt /\
  stack Shader (internalData (snd (pop Shader shaderPushed))) = Some [7] /\
  stack CullFace (internalData (snd ((push CullFace;; pop CullFace) shaderPushed))) = Some [].
Proof. vm_compute. repeat split; reflexivity. Qed.

(** The material of a fresh context is not restored by
    [pushMaterial(); setMaterial(7); popMaterial()]. *)
Lemma pushSetPop_material_example :
  target Material (internalData initialState) =
    Some {| mat := 0; enabled := 1; _pad := 0 |} /\
  fst ((push Material;; set Material 7;; pop Material) initialState) = Returns tt /\
  target Material
    (internalData (snd ((push Material;; set Material 7;; pop Material) initialState))) =
    Some {| mat := 7; enabled := 0; _pad := 0 |}.
Proof. vm_compute. repeat split; reflexivity. Qed.





(** [registerLight_pool] with the descriptors [lightOf 0 .. lightOf 254]. *)
Lemma registerLight_pool_witness :
  length (map lightOf (seq 0 255)) = 255%nat /\
  exists s' : State,
    registerLights (map lightOf (seq 0 255)) initialState =
      (Returns (map Z.of_nat (seq 0 255)), s') /\
    lightData (internalData s') !! 254 = Some (lightOf 254) /\
    exists s'' : State,
      registerLight (lightOf 255) s' = (Returns 255, s'') /\
      internalData s'' = internalData s'.
Proof.
  assert (Hlen : length (map lightOf (seq 0 255)) = 255%nat) by (vm_compute; reflexivity).
  split; [exact Hlen|].
  destruct (proj2 (proj2 registerLight_pool) (map lightOf (seq 0 255)) Hlen)
    as (s' & Heq & _ & Hdata & Hfull).
  exists s'. split; [exact Heq|]. split.
  - apply (Hdata 254%nat). vm_compute. reflexivity.
  - destruct (Hfull (lightOf 255)) as (s'' & Heq' & Hd' & _). eauto.
Defined.

(** [disableLight_effect] with lights 0 and 1 enabled: id 5 is not
    enabled, id 0 is. *)
Lemma disableLight_effect_witness :
  LightSet_ok (activeLightSet (internalData twoLights)) /\
  (5 ∉ active (activeLightSet (internalData twoLights))) /\
  (0 ∈ active (activeLightSet (internalData twoLights))) /\
  disableLight 5 twoLights = (Returns tt, twoLights) /\
  exists s' : State,
    disableLight 0 twoLights = (Returns tt, s') /\
    (0 ∉ active (activeLightSet (internalData s'))) /\
    lightRegistry (internalData s') = lightRegistry (internalData twoLights).
Proof.
  assert (Hactive : active (activeLightSet (internalData twoLights)) = [0; 1])
    by (vm_compute; reflexivity).
  assert (Hok : LightSet_ok (activeLightSet (internalData twoLights))).
  { split; [vm_compute; split; discriminate|].
    split; [vm_compute; reflexivity|].
    rewrite Hactive. apply (bool_decide_unpack _). vm_compute. exact I. }
  assert (Hnot : 5 ∉ active (activeLightSet (internalData twoLights))).
  { rewrite Hactive. apply (bool_decide_unpack _). vm_compute. exact I. }
  assert (Hin : 0 ∈ active (activeLightSet (internalData twoLights))).
  { rewrite Hactive. apply (bool_decide_unpack _). vm_compute. exact I. }
  split; [exact Hok|]. split; [exact Hnot|]. split; [exact Hin|].
  split.
  - exact (proj1 (disableLight_effect 5 twoLights Hok) Hnot).
  - destruct (proj2 (disableLight_effect 0 twoLights Hok) Hin)
      as (pos & s' & _ & Heq & _ & _ & Hgone & Hreg & _).
    exists s'. repeat split; assumption.
Defined.

End Examples.

(** [prepare_empty_not_uploaded] on [clearedMesh]. *)
Lemma prepare_empty_not_uploaded_witness :
  vertexCount (vertexData clearedMesh) = 0 /\
  VertexData.isUploaded (vertexData clearedMesh) = true /\
  VertexData.isUploaded
    (vertexData (prepared_mesh (@prepare simpleBufferDevice 0 clearedMesh))) = false.
Proof.
  assert (Hcount : vertexCount (vertexData clearedMesh) = 0) by reflexivity.
  split; [exact Hcount|]. split; [reflexivity|].
  exact (proj1 (@prepare_empty_not_uploaded simpleBufferDevice 0 clearedMesh Hcount)).
Defined.

(** [updateBoundingBox_bounds] on [triangle]. *)
Lemma updateBoundingBox_bounds_witness :
  0 < vertexCount triangle /\
  VertexData.FloatAttributeAccessor_create triangle POSITION = Returns positionAttribute /\
  (forall i axis : nat, (i < 3)%nat -> (axis < 3)%nat ->
     finite32 (default float_zero
                 (VertexData.getValues triangle positionAttribute i !! axis)) = true) /\
  exists box : Box,
    VertexData.updateBoundingBox triangle = Returns (set_bb box triangle, []) /\
    forall i : nat, (i < 3)%nat ->
      SFltb (default float_zero (VertexData.getValues triangle positionAttribute i !! 0%nat))
            (box_min box 0) = false.
Proof.
  assert (Hcount : 0 < vertexCount triangle) by reflexivity.
  assert (Hacc : VertexData.FloatAttributeAccessor_create triangle POSITION
                 = Returns positionAttribute) by (vm_compute; reflexivity).
  assert (Hfinite : forall i axis : nat, (i < 3)%nat -> (axis < 3)%nat ->
            finite32 (default float_zero
                        (VertexData.getValues triangle positionAttribute i !! axis)) = true).
  { intros i axis Hi Haxis.
    destruct i as [|[|[|i]]]; [| | |lia];
      (destruct axis as [|[|[|axis]]]; [| | |lia]); vm_compute; reflexivity. }
  split; [exact Hcount|]. split; [exact Hacc|]. split; [exact Hfinite|].
  destruct (proj2 updateBoundingBox_bounds triangle positionAttribute Hcount Hacc Hfinite)
    as (box & Heq & Haxes).
  exists box. split; [exact Heq|].
  intros i Hi. exact (proj1 (proj1 (Haxes 0%nat ltac:(lia)) i Hi)).
Defined.

(** ** More examples *)

Section MoreExamples.
#[local] Existing Instance simpleEnv.
#[local] Existing Instance simpleCollaborators.

Lemma simple_textures_available : textures_available.
Proof. intros t. exists [], t. reflexivity. Qed.

Lemma simple_buffers_available : buffers_available.
Proof. intros b t. exists []. reflexivity. Qed.


(** [scope_restores]: a blending scope around [scopeBody]. *)
Lemma scope_restores_witness :
  Forall (outside Blending) scopeBody /\
  forallb valid_call scopeBody = true /\
  target Blending (internalData initialState) = Some 0 /\
  exists s' : State,
    run (c_push Blending :: scopeBody ++ [c_pop Blending]) initialState = (Returns tt, s') /\
    target Blending (internalData s') = Some 0.
Proof.
  assert (Hout : Forall (outside Blending) scopeBody)
    by (repeat constructor; discriminate).
  assert (Hvalid : forallb valid_call scopeBody = true) by reflexivity.
  assert (Hcur : target Blending (internalData initialState) = Some 0)
    by (vm_compute; reflexivity).
  split; [exact Hout|]. split; [exact Hvalid|]. split; [exact Hcur|].
  assert (Hmat : Blending <> Material) by discriminate.
  exact (scope_restores Blending scopeBody initialState 0 Hmat
           simple_textures_available simple_buffers_available initial_arrays_ok
           Hout Hvalid Hcur).
Defined.

(** [pop_restores_top]: the cull-face stack after [pushCullFace();
    setCullFace(5)]. *)
Lemma pop_restores_top_witness :
  stack CullFace (internalData cullFacePushed) = Some [1] /\
  exists s' : State,
    pop CullFace cullFacePushed = (Returns tt, s') /\
    target CullFace (internalData s') = Some 1 /\
    stack CullFace (internalData s') = Some [].
Proof.
  assert (Hstack : stack CullFace (internalData cullFacePushed) = Some [1])
    by (vm_compute; reflexivity).
  assert (Hok : arrays_ok (internalData cullFacePushed))
    by (repeat split; vm_compute; reflexivity).
  assert (Hmat : CullFace <> Material) by discriminate.
  assert (Hsh : CullFace <> Shader) by discriminate.
  assert (Htf : CullFace <> TransformFeedback) by discriminate.
  split; [exact Hstack|].
  exact (pop_restores_top CullFace 1 [] cullFacePushed Hmat Hsh Htf Hok
           simple_textures_available Hstack).
Defined.

(** [popTransformFeedbackBufferStatus_keeps_stack]: after one push. *)
Lemma popTransformFeedbackBufferStatus_keeps_stack_witness :
  feedbackStack (internalData feedbackPushed) = [(0, 0)] /\
  exists s' : State,
    popTransformFeedbackBufferStatus feedbackPushed = (Returns tt, s') /\
    activeFeedbackStatus (internalData s') = (0, 0) /\
    feedbackStack (internalData s') = [(0, 0)].
Proof.
  assert (Hstack : feedbackStack (internalData feedbackPushed) = [(0, 0)])
    by (vm_compute; reflexivity).
  split; [exact Hstack|].
  exact (popTransformFeedbackBufferStatus_keeps_stack feedbackPushed (0, 0) [] Hstack).
Defined.


(** [setBoundImage_device]: image 5 on unit 0 of a fresh context. *)
Lemma setBoundImage_device_witness :
  (0 < MAX_BOUND_IMAGES)%nat /\
  exists s' : State,
    setBoundImage 0 5 initialState = (Returns tt, s') /\
    history s' = [EvGl (glBindImageTexture 0 5)].
Proof.
  assert (Hu : (0 < MAX_BOUND_IMAGES)%nat) by (vm_compute; lia).
  split; [exact Hu|].
  destruct (@setBoundImage_device simpleEnv 0 5 initialState Hu
              simple_textures_available)
    as (s' & Heq & _ & cmds & handle & Hprep & Hh).
  exists s'. split; [exact Heq|]. rewrite Hh. injection Hprep as <- <-. reflexivity.
Defined.

(** [invalid_image_unit]: unit 8 of 8. *)
Lemma invalid_image_unit_witness :
  (MAX_BOUND_IMAGES <= 8)%nat /\
  popBoundImage 8 initialState =
    (Throws (runtime_error "RenderingContext: Invalid image unit."), initialState).
Proof.
  assert (Hu : (MAX_BOUND_IMAGES <= 8)%nat) by (vm_compute; lia).
  split; [exact Hu|].
  exact (proj2 (proj2 (proj2 (proj2 (invalid_image_unit 8 0 initialState Hu))))).
Defined.


(** [dispatchCompute_needs_shader]: without and with a shader. *)
Lemma dispatchCompute_needs_shader_witness :
  (getActiveShader (internalData initialState) = nullptr /\
   history (snd (dispatchCompute 1 1 1 initialState)) = history initialState) /\
  (getActiveShader (internalData shaderActive) <> nullptr /\
   exists (s' : State) (cmds : list StateCommand),
     dispatchCompute 1 1 1 shaderActive = (Returns tt, s') /\
     history s' =
       (history shaderActive ++ EvEnterApplyChanges false :: map EvState cmds
          ++ [EvLeaveApplyChanges; EvGl (glDispatchCompute 1 1 1)])%list).
Proof.
  assert (Hnull : getActiveShader (internalData initialState) = nullptr)
    by (vm_compute; reflexivity).
  assert (Hshader : getActiveShader (internalData shaderActive) <> nullptr)
    by (vm_compute; discriminate).
  split.
  - split; [exact Hnull|].
    rewrite (proj1 (proj1 (dispatchCompute_needs_shader initialState) Hnull) 1 1 1).
    reflexivity.
  - split; [exact Hshader|].
    exact (proj1 (proj2 (dispatchCompute_needs_shader shaderActive) Hshader) 1 1 1).
Defined.

Lemma twoLights_ok : LightSet_ok (activeLightSet (internalData twoLights)).
Proof.
  split; [vm_compute; split; discriminate|].
  split; [vm_compute; reflexivity|].
  apply (bool_decide_unpack _). vm_compute. exact I.
Qed.

(** [enable_disable_roundtrip]: id 5 with ids 0 and 1 enabled. *)
Lemma enable_disable_roundtrip_witness :
  LightSet_ok (activeLightSet (internalData twoLights)) /\
  (5 ∉ active (activeLightSet (internalData twoLights))) /\
  exists s' : State,
    (enableLight_id 5;; disableLight 5) twoLights = (Returns tt, s') /\
    active (activeLightSet (internalData s')) = [0; 1].
Proof.
  assert (Hnot : 5 ∉ active (activeLightSet (internalData twoLights)))
    by (apply (bool_decide_unpack _); vm_compute; exact I).
  assert (Hroom : count (activeLightSet (internalData twoLights)) < MAX_ENABLED_LIGHTS)
    by (vm_compute; reflexivity).
  split; [exact twoLights_ok|]. split; [exact Hnot|].
  destruct (enable_disable_roundtrip 5 twoLights twoLights_ok Hnot Hroom)
    as (s' & Heq & _ & Hactive & _).
  exists s'. split; [exact Heq|]. rewrite Hactive. vm_compute. reflexivity.
Defined.

Lemma initial_registry_ids_used : registry_ids_used (internalData initialState).
Proof. intros light id Hin. vm_compute in Hin. inversion Hin. Qed.

(** [enableLight_fresh_id]: the first descriptor on a fresh context. *)
Lemma enableLight_fresh_id_witness :
  registry_find (lightOf 0) (lightRegistry (internalData initialState)) = None /\
  exists s' : State,
    enableLight (lightOf 0) initialState = (Returns 0, s') /\
    registry_find (lightOf 0) (lightRegistry (internalData s')) = Some 0 /\
    freeLightIds (internalData s') = map Z.of_nat (seq 1 254).
Proof.
  assert (Hfind : registry_find (lightOf 0) (lightRegistry (internalData initialState)) = None)
    by (vm_compute; reflexivity).
  assert (Hfree : freeLightIds (internalData initialState) = 0 :: map Z.of_nat (seq 1 254))
    by (vm_compute; reflexivity).
  assert (Hnd : NoDup (freeLightIds (internalData initialState)))
    by (rewrite initial_freeLightIds; apply NoDup_initial_ids).
  split; [exact Hfind|].
  destruct (enableLight_fresh_id (lightOf 0) 0 _ initialState initial_LightSet_ok
              initial_registry_ids_used Hfree Hnd Hfind)
    as (s' & Heq & _ & Hreg & _ & Hrest & _).
  exists s'. split; [exact Heq|]. split; [exact Hreg | exact Hrest].
Defined.

Lemma oneLight_ok : LightSet_ok (activeLightSet (internalData oneLight)).
Proof.
  split; [vm_compute; split; discriminate|].
  split; [vm_compute; reflexivity|].
  apply (bool_decide_unpack _). vm_compute. exact I.
Qed.

(** [unregisterLight_reuses_id]: id 0 of the first descriptor goes to a
    second one. *)
Lemma unregisterLight_reuses_id_witness :
  registry_find (lightOf 0) (lightRegistry (internalData oneLight)) = Some 0 /\
  registry_find (lightOf 1) (lightRegistry (internalData oneLight)) = None /\
  exists s' : State,
    (unregisterLight 0;; enableLight (lightOf 1)) oneLight = (Returns 0, s') /\
    registry_find (lightOf 0) (lightRegistry (internalData s')) = Some 0 /\
    registry_find (lightOf 1) (lightRegistry (internalData s')) = Some 0 /\
    lightData (internalData s') !! 0 = Some (lightOf 1).
Proof.
  assert (Ha : registry_find (lightOf 0) (lightRegistry (internalData oneLight)) = Some 0)
    by (vm_compute; reflexivity).
  assert (Hb : registry_find (lightOf 1) (lightRegistry (internalData oneLight)) = None)
    by (vm_compute; reflexivity).
  assert (Hne : equivalent (lightOf 1) (lightOf 0) = false) by (vm_compute; reflexivity).
  assert (Hleast : forall x, x ∈ freeLightIds (internalData oneLight) -> 0 < x).
  { intros x Hx.
    assert (Hfree : freeLightIds (internalData oneLight) = map Z.of_nat (seq 1 254))
      by (vm_compute; reflexivity).
    rewrite Hfree in Hx. apply list_elem_of_fmap in Hx as (n & -> & Hn).
    apply list_elem_of_In, List.in_seq in Hn. lia. }
  assert (Hslot : slot_ok (slot_LightData (cache (internalData oneLight))))
    by (unfold slot_ok; vm_compute; lia).
  split; [exact Ha|]. split; [exact Hb|].
  destruct (unregisterLight_reuses_id (lightOf 0) (lightOf 1) 0 oneLight oneLight_ok
              Ha Hb Hne Hleast) as (s' & Heq & Ha' & Hb' & Hdata).
  exists s'. repeat split; try assumption. exact (Hdata Hslot).
Defined.

(** [setLight_takes_id]: id 3 on a fresh context. *)
Lemma setLight_takes_id_witness :
  StronglySorted Z.lt (freeLightIds (internalData initialState)) /\
  exists s' : State,
    setLight 3 (lightOf 9) initialState = (Returns tt, s') /\
    (3 ∉ freeLightIds (internalData s')) /\
    (4 ∈ freeLightIds (internalData s')) /\
    lightData (internalData s') !! 3 = Some (lightOf 9).
Proof.
  split; [exact initial_freeLightIds_sorted|].
  destruct (setLight_takes_id 3 (lightOf 9) initialState initial_freeLightIds_sorted)
    as (s' & Heq & Hfree & _ & Hdata & _).
  exists s'. split; [exact Heq|]. split; [|split].
  - intros Hin. apply Hfree in Hin as [_ Hne]. contradiction.
  - apply Hfree. split; [|discriminate].
    rewrite initial_freeLightIds. apply (bool_decide_unpack _). vm_compute. exact I.
  - rewrite (Hdata initial_slot_ok). apply lookup_insert_eq.
Defined.

(** [enableLight_exhausted]: after 255 registrations. *)
Lemma enableLight_exhausted_witness :
  freeLightIds (internalData poolExhausted) = [] /\
  registry_find (lightOf 7) (lightRegistry (internalData poolExhausted)) = None /\
  exists s' : State,
    enableLight (lightOf 7) poolExhausted = (Returns 255, s') /\
    registry_find (lightOf 7) (lightRegistry (internalData s')) = Some 255 /\
    active (activeLightSet (internalData s')) = [255].
Proof.
  assert (Hfree : freeLightIds (internalData poolExhausted) = []) by (vm_compute; reflexivity).
  assert (Hfind : registry_find (lightOf 7) (lightRegistry (internalData poolExhausted)) = None)
    by (vm_compute; reflexivity).
  assert (Hok : LightSet_ok (activeLightSet (internalData poolExhausted))).
  { split; [vm_compute; split; discriminate|].
    split; [vm_compute; reflexivity|].
    apply (bool_decide_unpack _). vm_compute. exact I. }
  assert (Hnot : 255 ∉ active (activeLightSet (internalData poolExhausted)))
    by (apply (bool_decide_unpack _); vm_compute; exact I).
  assert (Hroom : count (activeLightSet (internalData poolExhausted)) < MAX_ENABLED_LIGHTS)
    by (vm_compute; reflexivity).
  split; [exact Hfree|]. split; [exact Hfind|].
  destruct (enableLight_exhausted (lightOf 7) poolExhausted Hok Hfree Hfind)
    as (s' & Heq & Hreg & _ & Hactive).
  exists s'. split; [exact Heq|]. split; [exact Hreg|].
  rewrite (Hactive Hnot Hroom). vm_compute. reflexivity.
Defined.

(** [fresh_run_returns] on [exampleProgram]. *)
Lemma fresh_run_returns_witness :
  forallb valid_call exampleProgram = true /\
  exists s' : State, run exampleProgram initialState = (Returns tt, s').
Proof.
  assert (Hvalid : forallb valid_call exampleProgram = true) by reflexivity.
  split; [exact Hvalid|].
  exact (fresh_run_returns exampleProgram simple_textures_available
           simple_buffers_available Hvalid).
Defined.

End MoreExamples.

(** [prepare_uploads] on [triangleMesh], with a strategy that releases
    local data. *)
Lemma prepare_uploads_witness :
  vertexCount (vertexData triangleMesh) <> 0 /\
  binaryData (vertexData triangleMesh) <> [] /\
  dataChanged (vertexData triangleMesh) = true /\
  bufferObject (vertexData (prepared_mesh (@prepare simpleBufferDevice 0 triangleMesh)))
    = {| glId := 1 |} /\
  dataChanged (vertexData (prepared_mesh (@prepare simpleBufferDevice 0 triangleMesh)))
    = false /\
  binaryData (vertexData (prepared_mesh (@prepare simpleBufferDevice 0 triangleMesh))) = [].
Proof.
  assert (Hcount : vertexCount (vertexData triangleMesh) <> 0) by discriminate.
  assert (Hdata : binaryData (vertexData triangleMesh) <> []) by discriminate.
  assert (Hchanged : dataChanged (vertexData triangleMesh) = true) by reflexivity.
  split; [exact Hcount|]. split; [exact Hdata|]. split; [exact Hchanged|].
  exact (@prepare_uploads simpleBufferDevice 0 triangleMesh Hcount Hdata (or_introl Hchanged)).
Defined.

(** [prepare_again] on [triangleMesh]. *)
Lemma prepare_again_witness :
  VertexData.isUploaded
    (vertexData (prepared_mesh (@prepare simpleBufferDevice 0 triangleMesh))) = true /\
  vertexData
    (prepared_mesh
       (@prepare simpleBufferDevice 0
          (prepared_mesh (@prepare simpleBufferDevice 0 triangleMesh)))) =
  vertexData (prepared_mesh (@prepare simpleBufferDevice 0 triangleMesh)).
Proof.
  assert (Hup : VertexData.isUploaded
                  (vertexData (prepared_mesh (@prepare simpleBufferDevice 0 triangleMesh)))
                = true) by (vm_compute; reflexivity).
  split; [exact Hup|].
  exact (@prepare_again simpleBufferDevice 0 triangleMesh Hup).
Defined.

(** [updateBoundingBox_any_values] on [nanVertices]: along x, where both
    values are NaN, the box keeps the values the loop started from. *)
Lemma updateBoundingBox_any_values_witness :
  0 < vertexCount nanVertices /\
  VertexData.FloatAttributeAccessor_create nanVertices POSITION = Returns positionAttribute /\
  VertexData.getValues nanVertices positionAttribute 0 = [S754_nan; float_one; float_zero] /\
  exists box : Box,
    VertexData.updateBoundingBox nanVertices = Returns (set_bb box nanVertices, []) /\
    box_min box 0 = FLT_MAX /\ box_max box 0 = FLT_LOWEST /\
    SFltb float_zero (box_min box 1) = false /\ SFltb (box_max box 1) float_one = false.
Proof.
  assert (Hcount : 0 < vertexCount nanVertices) by reflexivity.
  assert (Hacc : VertexData.FloatAttributeAccessor_create nanVertices POSITION
                 = Returns positionAttribute) by (vm_compute; reflexivity).
  split; [exact Hcount|]. split; [exact Hacc|]. split; [vm_compute; reflexivity|].
  destruct (proj2 (updateBoundingBox_any_values nanVertices) positionAttribute Hcount Hacc)
    as (box & Heq & Haxes).
  exists box. split; [exact Heq|].
  destruct (Haxes 0%nat ltac:(lia) ltac:(vm_compute; lia)) as (_ & _ & _ & Hmin & Hmax).
  destruct (Haxes 1%nat ltac:(lia) ltac:(vm_compute; lia)) as (Hbound & _).
  split; [|split; [|split]].
  - destruct Hmin as [(i & Hi & Hv)|[Hmin _]]; [|exact Hmin].
    rewrite <- Hv. destruct i as [|[|i]]; [| |vm_compute in Hi; lia].
    + assert (Hn : is_nan (box_min box 0) = true) by (rewrite <- Hv; vm_compute; reflexivity).
      destruct (Haxes 0%nat ltac:(lia) ltac:(vm_compute; lia)) as (_ & Hnn & _). congruence.
    + assert (Hn : is_nan (box_min box 0) = true) by (rewrite <- Hv; vm_compute; reflexivity).
      destruct (Haxes 0%nat ltac:(lia) ltac:(vm_compute; lia)) as (_ & Hnn & _). congruence.
  - destruct Hmax as [(i & Hi & Hv)|[Hmax _]]; [|exact Hmax].
    rewrite <- Hv. destruct i as [|[|i]]; [| |vm_compute in Hi; lia].
    + assert (Hn : is_nan (box_max box 0) = true) by (rewrite <- Hv; vm_compute; reflexivity).
      destruct (Haxes 0%nat ltac:(lia) ltac:(vm_compute; lia)) as (_ & _ & Hnn & _). congruence.
    + assert (Hn : is_nan (box_max box 0) = true) by (rewrite <- Hv; vm_compute; reflexivity).
      destruct (Haxes 0%nat ltac:(lia) ltac:(vm_compute; lia)) as (_ & _ & Hnn & _). congruence.
  - exact (proj1 (Hbound 1%nat ltac:(vm_compute; lia))).
  - exact (proj2 (Hbound 0%nat ltac:(vm_compute; lia))).
Defined.
